(** * vs/platform/list/browser/listService.ts

    A shallow embedding of the workbench list service: the focus registry
    ([ListService]), the modifier policy queries, the open and multiple
    selection controllers, the workbench wrappers around list, paged list
    and tree, and the resource navigation adapter
    ([ResourceResultsNavigation]), together with the properties the
    specification states about them. *)

From Stdlib Require Import ZArith Lia.
From stdpp Require Import gmap strings list fin_maps.

Open Scope string_scope.
Open Scope list_scope.
Open Scope Z_scope.

#[local] Set Warnings "-register-all".

(** ** JavaScript values

    Event payloads, tree elements and option bags are typed [any] in the
    source.  They are modelled by a small universe of JavaScript values:
    primitives, DOM UI events, and plain objects (a finite map from
    property names to values).  The numbers that occur are click counts
    and indexes, so a number is an integer. *)

(** The class a DOM event is an instance of.  [MouseEventC] stands for
    every event for which [event instanceof MouseEvent] holds. *)
Inductive EventClass := MouseEventC | KeyboardEventC | OtherUIEventC.

(** A DOM [UIEvent] with the properties the source reads.  [ev_ref] is the
    identity of the event object. *)
Record DomEvent := mkDomEvent {
  ev_ref : nat;
  ev_class : EventClass;
  detail : Z;
  ctrlKey : bool;
  metaKey : bool;
  altKey : bool
}.

Inductive JsVal :=
| JUndefined
| JNull
| JBool (b : bool)
| JNum (n : Z)
| JStr (s : string)
| JEvent (e : DomEvent)
| JObj (props : gmap string JsVal).

(** JavaScript truthiness ([ToBoolean]). *)
Definition truthy (v : JsVal) : bool :=
  match v with
  | JUndefined | JNull => false
  | JBool b => b
  | JNum n => negb (n =? 0)
  | JStr s => negb (String.eqb s "")
  | JEvent _ | JObj _ => true
  end.

(** [v === 'lit'] for a string literal. *)
Definition strict_eq_str (v : JsVal) (lit : string) : bool :=
  match v with JStr s => String.eqb s lit | _ => false end.

(** [v === n] for a number literal. *)
Definition strict_eq_num (v : JsVal) (lit : Z) : bool :=
  match v with JNum n => n =? lit | _ => false end.

(** [v === true]. *)
Definition strict_eq_true (v : JsVal) : bool :=
  match v with JBool b => b | _ => false end.

(** [!v]. *)
Definition js_not (v : JsVal) : JsVal := JBool (negb (truthy v)).

(** ** Computations: state and exceptions

    A method body runs on a state [S]; it either completes with a value or
    throws, and in both cases leaves a state behind (a JavaScript exception
    does not roll mutations back). *)

Inductive JsError := TypeError | Error (msg : string).

Inductive Res (S A : Type) :=
| Ok (a : A) (s : S)
| Throw (e : JsError) (s : S).
Arguments Ok {S A} a s.
Arguments Throw {S A} e s.

Definition M (S A : Type) : Type := S -> Res S A.

Definition ret {S A} (a : A) : M S A := fun s => Ok a s.
Definition throw {S A} (e : JsError) : M S A := fun s => Throw e s.
Definition bind {S A B} (m : M S A) (k : A -> M S B) : M S B :=
  fun s => match m s with
           | Ok a s' => k a s'
           | Throw e s' => Throw e s'
           end.
Definition gets {S A} (f : S -> A) : M S A := fun s => Ok (f s) s.
Definition modify {S} (f : S -> S) : M S unit := fun s => Ok tt (f s).

Notation "'let*' x ':=' m 'in' k" := (bind m (fun x => k))
  (at level 10, x name, m at level 100, k at level 200).
Notation "m ';;' k" := (bind m (fun _ => k))
  (at level 100, k at level 200, right associativity).

(** The state a computation leaves behind, completed or not. *)
Definition final_state {S A} (r : Res S A) : S :=
  match r with Ok _ s => s | Throw _ s => s end.

(** The value of the property [name] of [v], for a [v] other than
    [undefined] and [null]: a DOM event has the properties of its record, a
    plain object those of its map, a primitive none of those read here; a
    property that is not there reads [undefined]. *)
Definition property (v : JsVal) (name : string) : JsVal :=
  match v with
  | JEvent e =>
      if String.eqb name "detail" then JNum (detail e)
      else if String.eqb name "ctrlKey" then JBool (ctrlKey e)
      else if String.eqb name "metaKey" then JBool (metaKey e)
      else if String.eqb name "altKey" then JBool (altKey e)
      else JUndefined
  | JObj props => default JUndefined (props !! name)
  | _ => JUndefined
  end.

(** Property read [v.name].  Reading a property of [undefined] or [null]
    throws a [TypeError]. *)
Definition get {S} (v : JsVal) (name : string) : M S JsVal :=
  match v with
  | JUndefined | JNull => throw TypeError
  | _ => ret (property v name)
  end.

(** Short-circuit [a && b] and [a || b]: the right operand runs only when
    the left one does not decide the result, and the result is the
    deciding operand itself, not its boolean. *)
Definition js_and {S} (ma mb : M S JsVal) : M S JsVal :=
  let* a := ma in if truthy a then mb else ret a.
Definition js_or {S} (ma mb : M S JsVal) : M S JsVal :=
  let* a := ma in if truthy a then ret a else mb.

Infix "&&&" := js_and (at level 40, left associativity).
Infix "|||" := js_or (at level 50, left associativity).

(** ** Configuration *)

Definition multiSelectModifierSettingKey : string := "workbench.list.multiSelectModifier".
Definition openModeSettingKey : string := "workbench.list.openMode".

(** The ['default'] entries of the schema handed to
    [configurationRegistry.registerConfiguration]. *)
Definition registeredDefaults : gmap string JsVal :=
  <[ "workbench.list.multiSelectModifier" := JStr "ctrlCmd" ]>
  (<[ "workbench.list.openMode" := JStr "singleClick" ]> ∅).

(** The state of the configuration service: the values the user has set. *)
Record IConfigurationService := mkConfig {
  userValues : gmap string JsVal
}.

(** Modelled from the spec: [IConfigurationService.getValue], which lives
    in vs/platform/configuration.  It answers with the configured value of
    a key and falls back to the default registered for it. *)
Definition getValue (configurationService : IConfigurationService) (key : string) : JsVal :=
  match userValues configurationService !! key with
  | Some v => v
  | None => default JUndefined (registeredDefaults !! key)
  end.

Definition defaultConfiguration : IConfigurationService := mkConfig ∅.

Definition useAltAsMultipleSelectionModifier (configurationService : IConfigurationService) : bool :=
  strict_eq_str (getValue configurationService multiSelectModifierSettingKey) "alt".

Definition useSingleClickToOpen (configurationService : IConfigurationService) : bool :=
  negb (strict_eq_str (getValue configurationService openModeSettingKey) "doubleClick").

(** ** Controllers *)

(** [OpenController.shouldOpen]; [configurationService] is the field the
    constructor stores. *)
Definition shouldOpen (configurationService : IConfigurationService) (event : DomEvent) : bool :=
  match ev_class event with
  | MouseEventC =>
      let isDoubleClick := detail event =? 2 in
      useSingleClickToOpen configurationService || isDoubleClick
  | _ => true
  end.

(** ** The focus registry: [ListService] *)

(** A widget is an object; it is known by its reference. *)
Definition ListWidget : Type := nat.

(** The object literal [{ widget, extraContextKeys }].  [entry_ref] is its
    identity: [Array.prototype.indexOf] compares entries with [===]. *)
Record IRegisteredList := mkRegisteredList {
  entry_ref : nat;
  widget : ListWidget;
  extraContextKeys : option (list string)
}.

(** A listener [() => this._lastFocusedWidget = widget] subscribed to the
    [onDidFocus] event of [widget]: its identity and the widget it closes
    over. *)
Definition FocusListener : Type := nat * ListWidget.

(** The fields of [ListService] ([lists], [_lastFocusedWidget]), the
    listeners currently subscribed to the widgets' [onDidFocus] events, and
    the next unused object reference. *)
Record ListService := mkListService {
  lists : list IRegisteredList;
  _lastFocusedWidget : option ListWidget;
  focusListeners : list FocusListener;
  nextRef : nat
}.

Definition newListService : ListService := mkListService [] None [] 0%nat.

(** The getter [lastFocusedList]. *)
Definition lastFocusedList (s : ListService) : option ListWidget := _lastFocusedWidget s.

Definition set_lists (f : list IRegisteredList -> list IRegisteredList) (s : ListService) : ListService :=
  mkListService (f (lists s)) (_lastFocusedWidget s) (focusListeners s) (nextRef s).
Definition set_lastFocusedWidget (w : ListWidget) (s : ListService) : ListService :=
  mkListService (lists s) (Some w) (focusListeners s) (nextRef s).
Definition set_focusListeners (f : list FocusListener -> list FocusListener) (s : ListService) : ListService :=
  mkListService (lists s) (_lastFocusedWidget s) (f (focusListeners s)) (nextRef s).

(** A new object reference. *)
Definition newRef : M ListService nat :=
  fun s => Ok (nextRef s) (mkListService (lists s) (_lastFocusedWidget s) (focusListeners s) (S (nextRef s))).

(** [lists.indexOf(x)]: the first index holding the object [x], or [-1]. *)
Definition indexOf (l : list IRegisteredList) (x : IRegisteredList) : Z :=
  match list_find (fun y => entry_ref y = entry_ref x) l with
  | Some (i, _) => Z.of_nat i
  | None => -1
  end.

(** [l.splice(start, deleteCount)], the array it leaves behind.  A negative
    [start] counts from the end of the array. *)
Definition splice {A} (l : list A) (start deleteCount : Z) : list A :=
  let len := Z.of_nat (length l) in
  let actualStart := if start <? 0 then Z.max (len + start) 0 else Z.min start len in
  let actualDeleteCount := Z.min (Z.max deleteCount 0) (len - actualStart) in
  take (Z.to_nat actualStart) l ++ drop (Z.to_nat (actualStart + actualDeleteCount)) l.

(** The disposable [register] returns: it closes over the subscription to
    [widget.onDidFocus] and over [registeredList]. *)
Record IDisposable := mkDisposable {
  d_listener : nat;
  d_registeredList : IRegisteredList
}.

(** [ListService.register].  [isDOMFocused] is the answer of
    [widget.isDOMFocused()] at the time of the call.  The entry and the
    listener created by one call carry the same fresh reference. *)
Definition register (w : ListWidget) (extra : option (list string)) (isDOMFocused : bool)
  : M ListService IDisposable :=
  let* ls := gets lists in
  if existsb (fun l => bool_decide (widget l = w)) ls
  then throw (Error "Cannot register the same widget multiple times")
  else
    let* r := newRef in
    let registeredList := mkRegisteredList r w extra in
    modify (set_lists (fun l => l ++ [registeredList])) ;;
    (if isDOMFocused then modify (set_lastFocusedWidget w) else ret tt) ;;
    modify (set_focusListeners (fun fl => fl ++ [(r, w)])) ;;
    ret (mkDisposable r registeredList).

(** Invoking the disposable: [combinedDisposable] disposes its members in
    order, first the focus subscription, then the [toDisposable] that
    splices the entry out of [lists]. *)
Definition dispose (d : IDisposable) : M ListService unit :=
  modify (set_focusListeners (filter (fun l => l.1 ≠ d_listener d))) ;;
  let* ls := gets lists in
  modify (set_lists (fun l => splice l (indexOf ls (d_registeredList d)) 1)).

(** The widget [w] fires [onDidFocus]: every listener subscribed to it
    runs. *)
Definition fireDidFocus (w : ListWidget) : M ListService unit :=
  let* fl := gets focusListeners in
  modify (fun s => foldl (fun s (l : FocusListener) =>
                            if bool_decide (l.2 = w) then set_lastFocusedWidget l.2 s else s) s fl).

(** What a client of the service does. [CallDispose k] invokes the
    disposable returned by the [k]-th successful [register]. *)
Inductive Call :=
| CallRegister (w : ListWidget) (extra : option (list string)) (isDOMFocused : bool)
| CallDispose (k : nat)
| FocusGained (w : ListWidget).

Definition step (st : ListService * list IDisposable) (c : Call) : ListService * list IDisposable :=
  match c with
  | CallRegister w extra f =>
      match register w extra f st.1 with
      | Ok d s' => (s', st.2 ++ [d])
      | Throw _ s' => (s', st.2)
      end
  | CallDispose k =>
      match st.2 !! k with
      | Some d => (final_state (dispose d st.1), st.2)
      | None => st
      end
  | FocusGained w => (final_state (fireDidFocus w st.1), st.2)
  end.

Definition run (cs : list Call) : ListService * list IDisposable :=
  foldl step (newListService, []) cs.

(** The widgets currently registered. *)
Definition registered (s : ListService) : list ListWidget := widget <$> lists s.

(** ** Context keys *)

(** A [RawContextKey]: its name and its default value. *)
Record RawContextKey := mkRawContextKey {
  ck_key : string;
  ck_default : bool
}.

Definition RawWorkbenchListFocusContextKey := mkRawContextKey "listFocus" true.
Definition WorkbenchListSupportsMultiSelectContextKey := mkRawContextKey "listSupportsMultiselect" true.
Definition WorkbenchListDoubleSelection := mkRawContextKey "listDoubleSelection" false.

(** The keys a scoped context key service holds itself (its parent is not
    modelled). *)
Abbreviation IContextKeyService := (gmap string bool).

(** [key.bindTo(target)] declares the key in [target] with its default. *)
Definition bindTo (key : RawContextKey) (target : IContextKeyService) : IContextKeyService :=
  <[ ck_key key := ck_default key ]> target.

(** [contextKey.set(value)] on the handle [bindTo] returned. *)
Definition contextKey_set (key : RawContextKey) (value : bool) (target : IContextKeyService)
  : IContextKeyService :=
  <[ ck_key key := value ]> target.

(** The class of a widget, as [instanceof] sees it. *)
Inductive WidgetClass := ListC | PagedListC | TreeC.

(** [createScopedContextKeyService]; [createScoped] yields a service with
    no key of its own. *)
Definition createScopedContextKeyService (widget : WidgetClass) : IContextKeyService :=
  let result : IContextKeyService := ∅ in
  let result :=
    match widget with
    | ListC | PagedListC => bindTo WorkbenchListSupportsMultiSelectContextKey result
    | TreeC => result
    end in
  bindTo RawWorkbenchListFocusContextKey result.

(** ** Configuration change events *)

(** The interface [IConfigurationChangeEvent], as far as it is used. *)
Record IConfigurationChangeEvent := mkChangeEvent {
  affectsConfiguration : string -> bool
}.

(** Modelled from the spec: the change event of the configuration service
    (vs/platform/configuration), built from the keys that changed; a key is
    affected when it is one of them exactly. *)
Definition changeEventOf (affectedKeys : list string) : IConfigurationChangeEvent :=
  mkChangeEvent (fun key => bool_decide (key ∈ affectedKeys)).

(** ** Listeners

    Closures subscribed to an event are kept as data: which closure it is,
    the event it is subscribed to being the field that holds it. *)

(** Listeners of a selection-change event. *)
Inductive SelectionListener :=
| DoubleSelectionListener      (* sets listDoubleSelection from the selection *)
| NavigationSelectionListener. (* e => this.onSelection(e) of a navigation *)

(** Listeners of the focus-change event of a tree. *)
Inductive TreeFocusListener :=
| NavigationFocusListener.     (* e => this.onFocus(e) of a navigation *)

(** ** The workbench wrappers *)

(** [WorkbenchList]: the selection of the underlying [List] (indexes), the
    private fields, and the listeners subscribed to [onSelectionChange]. *)
Record WorkbenchList := mkWorkbenchList {
  list_selection : list Z;
  list_contextKeyService : IContextKeyService;
  list_useAltAsMultipleSelectionModifier : bool;
  list_onSelectionChange : list SelectionListener
}.

Record WorkbenchPagedList := mkWorkbenchPagedList {
  paged_selection : list Z;
  paged_contextKeyService : IContextKeyService;
  paged_useAltAsMultipleSelectionModifier : bool;
  paged_onSelectionChange : list SelectionListener
}.

Record WorkbenchTree := mkWorkbenchTree {
  focus : JsVal;
  selection : list JsVal;
  contextKeyService : IContextKeyService;
  _openOnSingleClick : bool;
  _useAltAsMultipleSelectionModifier : bool;
  onDidChangeSelection : list SelectionListener;
  onDidChangeFocus : list TreeFocusListener
}.

(** The constructors.  Registration with the list service and the styler
    are left out; the base widget starts with nothing selected. *)
Definition WorkbenchList_new (configurationService : IConfigurationService) : WorkbenchList :=
  let contextKeyService := createScopedContextKeyService ListC in
  let contextKeyService := bindTo WorkbenchListDoubleSelection contextKeyService in
  mkWorkbenchList [] contextKeyService
    (useAltAsMultipleSelectionModifier configurationService)
    [DoubleSelectionListener].

Definition WorkbenchPagedList_new (configurationService : IConfigurationService) : WorkbenchPagedList :=
  let contextKeyService := createScopedContextKeyService PagedListC in
  mkWorkbenchPagedList [] contextKeyService
    (useAltAsMultipleSelectionModifier configurationService)
    [].

Definition WorkbenchTree_new (configurationService : IConfigurationService) : WorkbenchTree :=
  let contextKeyService := createScopedContextKeyService TreeC in
  let contextKeyService := bindTo WorkbenchListDoubleSelection contextKeyService in
  mkWorkbenchTree JNull [] contextKeyService
    (useSingleClickToOpen configurationService)
    (useAltAsMultipleSelectionModifier configurationService)
    [DoubleSelectionListener]
    [].

(** The listener
    [() => this.listDoubleSelection.set(this.getSelection().length === 2)]
    of [WorkbenchList]. *)
Definition WorkbenchList_doubleSelection (l : WorkbenchList) : WorkbenchList :=
  mkWorkbenchList (list_selection l)
    (contextKey_set WorkbenchListDoubleSelection (Z.of_nat (length (list_selection l)) =? 2)
       (list_contextKeyService l))
    (list_useAltAsMultipleSelectionModifier l) (list_onSelectionChange l).

(** The listener of [WorkbenchTree.registerListeners]; [getSelection]
    returns an array, which is truthy, so [selection && ...] is its right
    operand. *)
Definition WorkbenchTree_doubleSelection (t : WorkbenchTree) : WorkbenchTree :=
  mkWorkbenchTree (focus t) (selection t)
    (contextKey_set WorkbenchListDoubleSelection (Z.of_nat (length (selection t)) =? 2)
       (contextKeyService t))
    (_openOnSingleClick t) (_useAltAsMultipleSelectionModifier t)
    (onDidChangeSelection t) (onDidChangeFocus t).

(** A listener subscribed to the selection-change event of a list runs.
    Only the wrapper's own listener is ever subscribed to it. *)
Definition WorkbenchList_runListener (l : WorkbenchList) (listener : SelectionListener)
  : WorkbenchList :=
  match listener with
  | DoubleSelectionListener => WorkbenchList_doubleSelection l
  | NavigationSelectionListener => l
  end.

(** The paged list has no listener of its own to run. *)
Definition WorkbenchPagedList_runListener (p : WorkbenchPagedList) (listener : SelectionListener)
  : WorkbenchPagedList := p.

(** The selection of a list or paged list changes to [indexes]; the base
    widget then fires the selection-change event. *)
Definition WorkbenchList_selectionChange (indexes : list Z) (l : WorkbenchList) : WorkbenchList :=
  let l := mkWorkbenchList indexes (list_contextKeyService l)
             (list_useAltAsMultipleSelectionModifier l) (list_onSelectionChange l) in
  foldl WorkbenchList_runListener l (list_onSelectionChange l).

Definition WorkbenchPagedList_selectionChange (indexes : list Z) (p : WorkbenchPagedList)
  : WorkbenchPagedList :=
  let p := mkWorkbenchPagedList indexes (paged_contextKeyService p)
             (paged_useAltAsMultipleSelectionModifier p) (paged_onSelectionChange p) in
  foldl WorkbenchPagedList_runListener p (paged_onSelectionChange p).

(** The configuration listener of [WorkbenchTree.registerListeners];
    [configurationService] is the state of the service when the
    notification is delivered. *)
Definition WorkbenchTree_onDidChangeConfiguration
    (configurationService : IConfigurationService) (e : IConfigurationChangeEvent)
    (t : WorkbenchTree) : WorkbenchTree :=
  let t :=
    if affectsConfiguration e openModeSettingKey
    then mkWorkbenchTree (focus t) (selection t) (contextKeyService t)
           (useSingleClickToOpen configurationService)
           (_useAltAsMultipleSelectionModifier t) (onDidChangeSelection t) (onDidChangeFocus t)
    else t in
  if affectsConfiguration e multiSelectModifierSettingKey
  then mkWorkbenchTree (focus t) (selection t) (contextKeyService t)
         (_openOnSingleClick t)
         (useAltAsMultipleSelectionModifier configurationService)
         (onDidChangeSelection t) (onDidChangeFocus t)
  else t.

(** The getters of [WorkbenchTree]. *)
Definition openOnSingleClick (t : WorkbenchTree) : bool := _openOnSingleClick t.
Definition tree_useAltAsMultipleSelectionModifier (t : WorkbenchTree) : bool :=
  _useAltAsMultipleSelectionModifier t.

(** ** List options and [handleListControllers] *)

(** The controller objects an options bag can hold: the two classes of this
    file, built over a configuration service, and any object a caller made.
    [ref] is the identity of the object. *)
Inductive Controller :=
| MultipleSelectionController (ref : nat) (configurationService : IConfigurationService)
| OpenController (ref : nat) (configurationService : IConfigurationService)
| SuppliedController (ref : nat).

Definition controller_ref (c : Controller) : nat :=
  match c with
  | MultipleSelectionController r _ | OpenController r _ | SuppliedController r => r
  end.

(** The value of an option: plain data or a controller object. *)
Inductive OptionValue :=
| Plain (v : JsVal)
| Object (c : Controller).

(** [IListOptions]: an object; a property it lacks reads [undefined]. *)
Abbreviation IListOptions := (gmap string OptionValue).

Definition option_truthy (v : option OptionValue) : bool :=
  match v with
  | None => false
  | Some (Plain v) => truthy v
  | Some (Object _) => true
  end.

Definition option_is_true (v : option OptionValue) : bool :=
  match v with
  | Some (Plain v) => strict_eq_true v
  | _ => false
  end.

(** [new C(...)] takes the next unused object reference. *)
Definition newObject : M nat nat := fun next => Ok next (S next).

Definition handleListControllers (options : IListOptions) (configurationService : IConfigurationService)
  : M nat IListOptions :=
  let* options :=
    if option_is_true (options !! "multipleSelectionSupport")
       && negb (option_truthy (options !! "multipleSelectionController"))
    then
      let* r := newObject in
      ret (<[ "multipleSelectionController" := Object (MultipleSelectionController r configurationService) ]> options)
    else ret options in
  let* r := newObject in
  ret (<[ "openController" := Object (OpenController r configurationService) ]> options).

(** ** The resource navigation adapter: [ResourceResultsNavigation] *)

Record IEditorOptions := mkEditorOptions {
  preserveFocus : JsVal;
  pinned : JsVal;
  revealIfVisible : JsVal
}.

Record IOpenResourceOptions := mkOpenResourceOptions {
  editorOptions : IEditorOptions;
  sideBySide : JsVal;
  element : JsVal;
  payload : JsVal
}.

(** The adapter and what it acts on: its tree, the events fired so far on
    its [_openResource] emitter, the payloads of the selection-change
    events the tree has fired, and the DOM events whose [preventDefault]
    has been called. *)
Record Navigation := mkNavigation {
  tree : WorkbenchTree;
  _openResource : list IOpenResourceOptions;
  selectionChanges : list JsVal;
  defaultPrevented : list DomEvent
}.

Definition set_tree (f : WorkbenchTree -> WorkbenchTree) (n : Navigation) : Navigation :=
  mkNavigation (f (tree n)) (_openResource n) (selectionChanges n) (defaultPrevented n).

(** [this._openResource.fire(e)]. *)
Definition fire (e : IOpenResourceOptions) : M Navigation unit :=
  modify (fun n => mkNavigation (tree n) (_openResource n ++ [e]) (selectionChanges n) (defaultPrevented n)).

(** [event.preventDefault()]: a method of DOM events only. *)
Definition preventDefault (event : JsVal) : M Navigation unit :=
  match event with
  | JEvent e =>
      modify (fun n => mkNavigation (tree n) (_openResource n) (selectionChanges n) (defaultPrevented n ++ [e]))
  | _ => throw TypeError
  end.

(** [v.name === 'lit']. *)
Definition get_is {S} (v : JsVal) (name lit : string) : M S JsVal :=
  let* x := get v name in ret (JBool (strict_eq_str x lit)).

Definition onSelection (payload : JsVal) : M Navigation unit :=
  let* fromFocus := ret payload &&& get payload "fromFocus" in
  if truthy fromFocus then ret tt
  else
    let* originalEvent := ret payload &&& get payload "originalEvent" in
    let* isMouseEvent := ret payload &&& get_is payload "origin" "mouse" in
    let* isDoubleClick :=
      ret isMouseEvent &&& ret originalEvent
        &&& (let* d := get originalEvent "detail" in ret (JBool (strict_eq_num d 2))) in
    let* gate :=
      ret (js_not isMouseEvent)
        ||| gets (fun n => JBool (openOnSingleClick (tree n)))
        ||| ret isDoubleClick in
    if truthy gate then
      (let* c := ret isDoubleClick &&& ret originalEvent in
       if truthy c then preventDefault originalEvent else ret tt) ;;
      let* isFromKeyboard := ret payload &&& get_is payload "origin" "keyboard" in
      let* sideBySide :=
        ret originalEvent
          &&& (get originalEvent "ctrlKey" ||| get originalEvent "metaKey" ||| get originalEvent "altKey") in
      let* blocked :=
        (ret isFromKeyboard
           &&& (ret (js_not payload)
                  ||| (let* p := get payload "preserveFocus" in ret (js_not p))))
          ||| ret isDoubleClick
          ||| (ret payload &&& get payload "focusEditor") in
      let preserveFocus := js_not blocked in
      let* sel := gets (fun n => selection (tree n)) in
      fire (mkOpenResourceOptions
              (mkEditorOptions preserveFocus isDoubleClick (JBool true))
              sideBySide
              (default JUndefined (head sel))
              payload)
    else ret tt.

(** One listener of the tree's selection-change event runs. *)
Definition runSelectionListener (payload : JsVal) (l : SelectionListener) : M Navigation unit :=
  match l with
  | DoubleSelectionListener => modify (set_tree WorkbenchTree_doubleSelection)
  | NavigationSelectionListener => onSelection payload
  end.

(** Modelled from the spec: [Emitter.fire] of vs/base/common/event, which
    is not under src.  The listeners run in delivery order; an exception
    thrown by a listener is caught by the emitter and does not reach the
    caller of [fire], and the listeners after it still run, on the state
    the failed listener left. *)
Fixpoint fireEach {L} (run : L -> M Navigation unit) (ls : list L) : M Navigation unit :=
  match ls with
  | [] => ret tt
  | l :: ls => fun n => fireEach run ls (final_state (run l n))
  end.

(** The tree fires its selection-change event with [payload]. *)
Definition fireDidChangeSelection (payload : JsVal) : M Navigation unit :=
  modify (fun n => mkNavigation (tree n) (_openResource n) (selectionChanges n ++ [payload]) (defaultPrevented n)) ;;
  let* ls := gets (fun n => onDidChangeSelection (tree n)) in
  fireEach (runSelectionListener payload) ls.

(** Modelled from the spec: [Tree.setSelection(elements, eventPayload)] of
    vs/base/parts/tree.  The selection becomes [elements], and the
    selection-change event that results carries [eventPayload]. *)
Definition setSelection (elements : list JsVal) (eventPayload : JsVal) : M Navigation unit :=
  modify (set_tree (fun t =>
    mkWorkbenchTree (focus t) elements (contextKeyService t) (_openOnSingleClick t)
      (_useAltAsMultipleSelectionModifier t) (onDidChangeSelection t) (onDidChangeFocus t))) ;;
  fireDidChangeSelection eventPayload.

(** The object literal [{ fromFocus: true }]. *)
Definition fromFocusPayload : JsVal := JObj {[ "fromFocus" := JBool true ]}.

Definition onFocus (payload : JsVal) : M Navigation unit :=
  let* element := gets (fun n => focus (tree n)) in
  setSelection [element] fromFocusPayload ;;
  let* originalEvent := ret payload &&& get payload "originalEvent" in
  let* isMouseEvent := ret payload &&& get_is payload "origin" "mouse" in
  let* isDoubleClick :=
    ret isMouseEvent &&& ret originalEvent
      &&& (let* d := get originalEvent "detail" in ret (JBool (strict_eq_num d 2))) in
  let* gate :=
    ret (js_not isMouseEvent)
      ||| gets (fun n => JBool (openOnSingleClick (tree n)))
      ||| ret isDoubleClick in
  if truthy gate then
    fire (mkOpenResourceOptions
            (mkEditorOptions (JBool true) (JBool false) (JBool true))
            (JBool false)
            element
            payload)
  else ret tt.

(** One listener of the tree's focus-change event runs. *)
Definition runFocusListener (payload : JsVal) (l : TreeFocusListener) : M Navigation unit :=
  match l with
  | NavigationFocusListener => onFocus payload
  end.

(** The tree fires its focus-change event with [payload]. *)
Definition fireDidChangeFocus (payload : JsVal) : M Navigation unit :=
  let* ls := gets (fun n => onDidChangeFocus (tree n)) in
  fireEach (runFocusListener payload) ls.

(** The constructor and [registerListeners]: [onFocus] is subscribed only
    under the option [openOnFocus], [onSelection] always.  [options] is
    [None] when the argument is left out. *)
Definition ResourceResultsNavigation_new (t : WorkbenchTree) (options : option bool) : Navigation :=
  let t :=
    if default false options
    then mkWorkbenchTree (focus t) (selection t) (contextKeyService t) (_openOnSingleClick t)
           (_useAltAsMultipleSelectionModifier t) (onDidChangeSelection t)
           (onDidChangeFocus t ++ [NavigationFocusListener])
    else t in
  let t :=
    mkWorkbenchTree (focus t) (selection t) (contextKeyService t) (_openOnSingleClick t)
      (_useAltAsMultipleSelectionModifier t)
      (onDidChangeSelection t ++ [NavigationSelectionListener])
      (onDidChangeFocus t) in
  mkNavigation t [] [] [].

(** * Vocabulary of the properties *)

(** ** Sample configuration *)

(** The user has chosen "alt" and "doubleClick". *)
Definition altDoubleClickConfiguration : IConfigurationService :=
  mkConfig (<[ "workbench.list.multiSelectModifier" := JStr "alt" ]>
            (<[ "workbench.list.openMode" := JStr "doubleClick" ]> ∅)).

(** ** Frames of computations *)

(** [m] relates every state it starts in to the state it leaves, whether it
    completes or throws. *)
Definition keeps {S A} (R : S -> S -> Prop) (m : M S A) : Prop :=
  forall s, R s (final_state (m s)).

(** ** What a payload says

    The vocabulary of the specification, read off a payload.  A payload
    that is [undefined] or [null], and a property that is missing, say
    nothing. *)

Definition carriesFromFocus (payload : JsVal) : bool :=
  truthy (property payload "fromFocus").

Definition mouseOrigin (payload : JsVal) : bool :=
  strict_eq_str (property payload "origin") "mouse".

Definition keyboardOrigin (payload : JsVal) : bool :=
  strict_eq_str (property payload "origin") "keyboard".

Definition originatingEvent (payload : JsVal) : JsVal :=
  property payload "originalEvent".

(** A mouse-origin event whose originating event has click count 2. *)
Definition doubleClick (payload : JsVal) : bool :=
  mouseOrigin payload && strict_eq_num (property (originatingEvent payload) "detail") 2.

(** Ctrl, cmd/meta or alt was held on the originating event. *)
Definition modifierHeld (payload : JsVal) : bool :=
  truthy (property (originatingEvent payload) "ctrlKey")
  || truthy (property (originatingEvent payload) "metaKey")
  || truthy (property (originatingEvent payload) "altKey").

Definition preserveFocusInstruction (payload : JsVal) : bool :=
  truthy (property payload "preserveFocus").

Definition focusEditorInstruction (payload : JsVal) : bool :=
  truthy (property payload "focusEditor").

(** The open gate: not a mouse-origin event, or open-on-single-click is
    active, or a double-click. *)
Definition openGate (singleClick : bool) (payload : JsVal) : bool :=
  negb (mouseOrigin payload) || singleClick || doubleClick payload.

(** The originating event is what its declared type
    [KeyboardEvent | MouseEvent] says, when there is one. *)
Definition originatingEventTyped (payload : JsVal) : bool :=
  match originatingEvent payload with
  | JUndefined | JNull | JEvent _ => true
  | _ => false
  end.

(** ** Relations between states of the navigation adapter *)

Definition same_tree (n n' : Navigation) : Prop :=
  tree n' = tree n /\ selectionChanges n' = selectionChanges n.

(** The double-selection key of a tree agrees with its selection. *)
Definition flag_agrees (t : WorkbenchTree) : Prop :=
  contextKeyService t !! "listDoubleSelection"
  = Some (Z.of_nat (length (selection t)) =? 2).

(** Selection and subscriptions stay; an agreeing key keeps agreeing. *)
Definition tree_steady (n n' : Navigation) : Prop :=
  selection (tree n') = selection (tree n)
  /\ onDidChangeSelection (tree n') = onDidChangeSelection (tree n)
  /\ (flag_agrees (tree n) -> flag_agrees (tree n')).

(** ** Sample list options *)

(** A caller asks for multiple selection and brings an open controller of
    its own. *)
Definition sampleListOptions : IListOptions :=
  <[ "multipleSelectionSupport" := Plain (JBool true) ]>
  (<[ "openController" := Object (SuppliedController 3) ]>
   (<[ "ariaLabel" := Plain (JStr "Files") ]> ∅)).

(** ** The invariant of the focus registry *)

(** What holds of the service, and of the disposables handed out, after
    any calls: no widget and no entry object occurs twice in [lists];
    entries are older than the next reference; every entry still has its
    focus listener subscribed; a disposable's listener and entry come from
    the same call. *)
Record registry_inv (st : ListService * list IDisposable) : Prop := mkRegistryInv {
  inv_widgets : NoDup (registered st.1);
  inv_refs : NoDup (entry_ref <$> lists st.1);
  inv_fresh : forall e, e ∈ lists st.1 -> (entry_ref e < nextRef st.1)%nat;
  inv_listening : forall e, e ∈ lists st.1 -> (entry_ref e, widget e) ∈ focusListeners st.1;
  inv_issued : forall d, d ∈ st.2 -> d_listener d = entry_ref (d_registeredList d)
}.

(** Widget 1 is registered, disposed twice, registered again beside
    widget 2. *)
Definition sampleCalls : list Call :=
  [CallRegister 1%nat None true; CallRegister 2%nat None false; CallDispose 0; CallDispose 0;
   CallRegister 1%nat None false; CallRegister 2%nat None false].

(** A call after which no widget has gained focus: a disposal, or a
    registration of a widget that does not report DOM focus. *)
Definition gains_no_focus (c : Call) : bool :=
  match c with
  | CallRegister _ _ isDOMFocused => negb isDOMFocused
  | CallDispose _ => true
  | FocusGained _ => false
  end.

(** ** Values of the constants of the handlers *)

(** [payload && e]: [e] when there is a payload, the payload otherwise. *)
Definition guarded (payload v : JsVal) : JsVal := if truthy payload then v else payload.

(** The values of the constants [originalEvent], [isMouseEvent],
    [isDoubleClick] and of the condition of the [if], in both handlers. *)
Definition originalEventOf (p : JsVal) : JsVal := guarded p (property p "originalEvent").

Definition isMouseEventOf (p : JsVal) : JsVal :=
  guarded p (JBool (strict_eq_str (property p "origin") "mouse")).

Definition isDoubleClickOf (p : JsVal) : JsVal :=
  if truthy (isMouseEventOf p)
  then if truthy (originalEventOf p)
       then JBool (strict_eq_num (property (originalEventOf p) "detail") 2)
       else originalEventOf p
  else isMouseEventOf p.

Definition gateOf (singleClick : bool) (p : JsVal) : JsVal :=
  if negb (truthy (isMouseEventOf p)) then JBool true
  else if singleClick then JBool true
  else isDoubleClickOf p.

(** The values of [isFromKeyboard], [sideBySide] and of the operand of the
    negation in [preserveFocus]. *)
Definition isFromKeyboardOf (p : JsVal) : JsVal :=
  guarded p (JBool (strict_eq_str (property p "origin") "keyboard")).

Definition sideBySideOf (p : JsVal) : JsVal :=
  let oe := originalEventOf p in
  if truthy oe then
    if truthy (property oe "ctrlKey") then property oe "ctrlKey"
    else if truthy (property oe "metaKey") then property oe "metaKey"
    else property oe "altKey"
  else oe.

Definition blockedOf (p : JsVal) : JsVal :=
  let a :=
    if truthy (isFromKeyboardOf p)
    then if truthy (js_not p) then js_not p else js_not (property p "preserveFocus")
    else isFromKeyboardOf p in
  if truthy a then a
  else if truthy (isDoubleClickOf p) then isDoubleClickOf p
  else guarded p (property p "focusEditor").

(** ** Sample navigation *)

(** A double-click with ctrl held, on a tree with two elements selected
    whose open mode is double-click. *)
Definition doubleClickPayload : JsVal :=
  JObj (<[ "origin" := JStr "mouse" ]>
        {[ "originalEvent" := JEvent (mkDomEvent 7 MouseEventC 2 true false false) ]}).

Definition sampleNavigation : Navigation :=
  mkNavigation
    (mkWorkbenchTree (JStr "b.ts") [JStr "a.ts"; JStr "b.ts"] ∅ false false
       [DoubleSelectionListener; NavigationSelectionListener] [])
    [] [] [].

(** * Further parts of the file *)

(** ** [MultipleSelectionController] *)

Section MultipleSelectionControllerMethods.

(** The events of a list, and the two rules of the list widget
    (vs/base/browser/ui/list/listWidget) the controller falls back on. *)
Context {IListMouseEvent : Type}.
Variable browserEvent : IListMouseEvent -> DomEvent.
Variable listWidget_isSelectionSingleChangeEvent : IListMouseEvent -> bool.
Variable listWidget_isSelectionRangeChangeEvent : IListMouseEvent -> bool.

Definition isSelectionSingleChangeEvent (configurationService : IConfigurationService)
    (event : IListMouseEvent) : bool :=
  if useAltAsMultipleSelectionModifier configurationService
  then altKey (browserEvent event)
  else listWidget_isSelectionSingleChangeEvent event.

Definition isSelectionRangeChangeEvent (configurationService : IConfigurationService)
    (event : IListMouseEvent) : bool :=
  listWidget_isSelectionRangeChangeEvent event.

End MultipleSelectionControllerMethods.

(** ** Configuration listeners of the list wrappers *)

(** The listener of [WorkbenchList.registerListeners]. *)
Definition WorkbenchList_onDidChangeConfiguration
    (configurationService : IConfigurationService) (e : IConfigurationChangeEvent)
    (l : WorkbenchList) : WorkbenchList :=
  if affectsConfiguration e multiSelectModifierSettingKey
  then mkWorkbenchList (list_selection l) (list_contextKeyService l)
         (useAltAsMultipleSelectionModifier configurationService) (list_onSelectionChange l)
  else l.

(** The listener of [WorkbenchPagedList.registerListeners]. *)
Definition WorkbenchPagedList_onDidChangeConfiguration
    (configurationService : IConfigurationService) (e : IConfigurationChangeEvent)
    (p : WorkbenchPagedList) : WorkbenchPagedList :=
  if affectsConfiguration e multiSelectModifierSettingKey
  then mkWorkbenchPagedList (paged_selection p) (paged_contextKeyService p)
         (useAltAsMultipleSelectionModifier configurationService) (paged_onSelectionChange p)
  else p.

(** ** The settings schema *)

(** The ['enum'] entries of the schema handed to
    [configurationRegistry.registerConfiguration]. *)
Definition registeredEnum : gmap string (list JsVal) :=
  <[ "workbench.list.multiSelectModifier" := [JStr "ctrlCmd"; JStr "alt"] ]>
  (<[ "workbench.list.openMode" := [JStr "singleClick"; JStr "doubleClick"] ]> ∅).

(** ** [WorkbenchTreeController] *)

(** [OpenMode] of vs/base/parts/tree/browser/treeDefaults. *)
Inductive OpenMode := SINGLE_CLICK | DOUBLE_CLICK.

(** The controller: [this.options.openMode] ([None] when it is undefined
    or null), [this.disposables], the listeners it has subscribed to
    [configurationService.onDidChangeConfiguration], and the next unused
    reference. *)
Record WorkbenchTreeController := mkWorkbenchTreeController {
  options_openMode : option OpenMode;
  controller_disposables : list nat;
  controller_listeners : list nat;
  controller_nextRef : nat
}.

Definition getOpenModeSetting (configurationService : IConfigurationService) : OpenMode :=
  if useSingleClickToOpen configurationService then SINGLE_CLICK else DOUBLE_CLICK.

(** Modelled from the spec: [DefaultController.setOpenMode] of
    vs/base/parts/tree/browser/treeDefaults, which stores the open mode in
    the options of the controller. *)
Definition setOpenMode (openMode : OpenMode) (c : WorkbenchTreeController) : WorkbenchTreeController :=
  mkWorkbenchTreeController (Some openMode) (controller_disposables c) (controller_listeners c)
    (controller_nextRef c).

(** [WorkbenchTreeController.registerListeners]: a new listener is
    subscribed and its subscription pushed on [disposables]. *)
Definition WorkbenchTreeController_registerListeners (c : WorkbenchTreeController)
  : WorkbenchTreeController :=
  let r := controller_nextRef c in
  mkWorkbenchTreeController (options_openMode c) (controller_disposables c ++ [r])
    (controller_listeners c ++ [r]) (S r).

(** The constructor; [openMode] is [options.openMode]. *)
Definition WorkbenchTreeController_new (openMode : option OpenMode)
    (configurationService : IConfigurationService) : WorkbenchTreeController :=
  let c := mkWorkbenchTreeController openMode [] [] 0%nat in
  match openMode with
  | None =>
      WorkbenchTreeController_registerListeners
        (setOpenMode (getOpenModeSetting configurationService) c)
  | Some _ => c
  end.

(** The configuration service fires a change: every subscribed listener
    of the controller runs.  [configurationService] is the state of the
    service when the notification is delivered. *)
Definition WorkbenchTreeController_onDidChangeConfiguration
    (configurationService : IConfigurationService) (e : IConfigurationChangeEvent)
    (c : WorkbenchTreeController) : WorkbenchTreeController :=
  foldl (fun c (_ : nat) =>
           if affectsConfiguration e openModeSettingKey
           then setOpenMode (getOpenModeSetting configurationService) c
           else c) c (controller_listeners c).

(** [WorkbenchTreeController.dispose].  Modelled from the spec: [dispose]
    of vs/base/common/lifecycle disposes every member of the array, which
    for a subscription unsubscribes its listener, and returns an empty
    array. *)
Definition WorkbenchTreeController_dispose (c : WorkbenchTreeController) : WorkbenchTreeController :=
  let listeners :=
    foldl (fun ls d => filter (fun l => l ≠ d) ls) (controller_listeners c)
      (controller_disposables c) in
  mkWorkbenchTreeController (options_openMode c) [] listeners (controller_nextRef c).

(** ** Vocabulary of the further properties *)

(** The configuration changes from [old] to [new] and the notification
    says so: it affects each of the two setting keys whose value differs. *)
Definition reports (old new : IConfigurationService) (e : IConfigurationChangeEvent) : Prop :=
  forall key,
    key ∈ [multiSelectModifierSettingKey; openModeSettingKey] ->
    getValue old key <> getValue new key -> affectsConfiguration e key = true.

(** A history of configuration changes, each given by the new state of
    the service and the notification sent for it, all reported. *)
Fixpoint reported (cfg : IConfigurationService)
    (changes : list (IConfigurationService * IConfigurationChangeEvent)) : Prop :=
  match changes with
  | [] => True
  | c :: rest => reports cfg c.1 c.2 /\ reported c.1 rest
  end.

(** The state of the service after a history of changes. *)
Definition currentConfiguration (cfg : IConfigurationService)
    (changes : list (IConfigurationService * IConfigurationChangeEvent)) : IConfigurationService :=
  foldl (fun _ c => c.1) cfg changes.

(** The indexes of the disposables a client invokes. *)
Definition disposed_indexes (cs : list Call) : list nat :=
  omap (fun c => match c with CallDispose k => Some k | _ => None end) cs.

(** The intent [onSelection] fires for a payload. *)
Definition selectionIntent (p : JsVal) (n : Navigation) : IOpenResourceOptions :=
  mkOpenResourceOptions
    (mkEditorOptions (js_not (blockedOf p)) (isDoubleClickOf p) (JBool true))
    (sideBySideOf p)
    (default JUndefined (head (selection (tree n))))
    p.

(** What [onSelection] may do to the adapter: the tree and the record of
    its selection changes stay, and what was fired or prevented before
    stays in front of what is added. *)
Definition navigation_grows (n n' : Navigation) : Prop :=
  tree n' = tree n
  /\ selectionChanges n' = selectionChanges n
  /\ _openResource n `prefix_of` _openResource n'
  /\ defaultPrevented n `prefix_of` defaultPrevented n'.

(** The context keys of two trees agree except on listDoubleSelection. *)
Definition same_keys_but_double_selection (n n' : Navigation) : Prop :=
  forall key, key <> "listDoubleSelection" ->
    contextKeyService (tree n') !! key = contextKeyService (tree n) !! key.

(** A tree built under "alt" and "doubleClick" in which a.ts and c.ts are
    selected and b.ts has the focus. *)
Definition focusedTree : WorkbenchTree :=
  let t := WorkbenchTree_new altDoubleClickConfiguration in
  mkWorkbenchTree (JStr "b.ts") [JStr "a.ts"; JStr "c.ts"]
    (contextKey_set WorkbenchListDoubleSelection true (contextKeyService t))
    (_openOnSingleClick t) (_useAltAsMultipleSelectionModifier t)
    (onDidChangeSelection t) (onDidChangeFocus t).

(** * Properties *)

(** ** Strict equality and truthiness *)

Lemma strict_eq_str_true (v : JsVal) (lit : string) :
  strict_eq_str v lit = true <-> v = JStr lit.
Proof.
  destruct v; simpl; try (split; [discriminate | intros H; discriminate H]).
  rewrite String.eqb_eq. split; [intros -> | intros [= ->]]; reflexivity.
Qed.

Lemma strict_eq_num_true (v : JsVal) (lit : Z) :
  strict_eq_num v lit = true <-> v = JNum lit.
Proof.
  destruct v; simpl; try (split; [discriminate | intros H; discriminate H]).
  rewrite Z.eqb_eq. split; [intros -> | intros [= ->]]; reflexivity.
Qed.

Lemma strict_eq_true_true (v : JsVal) : strict_eq_true v = true <-> v = JBool true.
Proof.
  destruct v; simpl; try (split; [discriminate | intros H; discriminate H]).
  split; [intros -> | intros [= ->]]; reflexivity.
Qed.

(** ** Modifier policy and the open controller *)

Lemma getValue_default_multiSelectModifier :
  getValue defaultConfiguration multiSelectModifierSettingKey = JStr "ctrlCmd".
Proof. reflexivity. Qed.

Lemma getValue_default_openMode :
  getValue defaultConfiguration openModeSettingKey = JStr "singleClick".
Proof. reflexivity. Qed.

Lemma useSingleClickToOpen_false (cfg : IConfigurationService) :
  useSingleClickToOpen cfg = false <-> getValue cfg openModeSettingKey = JStr "doubleClick".
Proof.
  unfold useSingleClickToOpen. rewrite negb_false_iff. apply strict_eq_str_true.
Qed.

(** C4. The multi-select-modifier query answers true exactly when the
    value of workbench.list.multiSelectModifier is "alt", hence false under
    the default "ctrlCmd"; the single-click-to-open query answers true
    exactly when the value of workbench.list.openMode is not "doubleClick",
    hence true under the default "singleClick".  Both are functions of the
    configuration alone: each answer is determined by the value of its own
    key, and no state is passed through them. *)
Theorem policy_queries (cfg : IConfigurationService) :
  (useAltAsMultipleSelectionModifier cfg = true
     <-> getValue cfg multiSelectModifierSettingKey = JStr "alt")
  /\ (useSingleClickToOpen cfg = true
     <-> getValue cfg openModeSettingKey <> JStr "doubleClick")
  /\ (getValue cfg multiSelectModifierSettingKey = JStr "ctrlCmd"
     -> useAltAsMultipleSelectionModifier cfg = false)
  /\ (getValue cfg openModeSettingKey = JStr "singleClick"
     -> useSingleClickToOpen cfg = true)
  /\ useAltAsMultipleSelectionModifier defaultConfiguration = false
  /\ useSingleClickToOpen defaultConfiguration = true
  /\ (forall cfg',
       getValue cfg' multiSelectModifierSettingKey = getValue cfg multiSelectModifierSettingKey
       -> useAltAsMultipleSelectionModifier cfg' = useAltAsMultipleSelectionModifier cfg)
  /\ (forall cfg',
       getValue cfg' openModeSettingKey = getValue cfg openModeSettingKey
       -> useSingleClickToOpen cfg' = useSingleClickToOpen cfg).
Proof.
  repeat split.
  - apply strict_eq_str_true.
  - apply strict_eq_str_true.
  - intros Htrue Hdbl. apply useSingleClickToOpen_false in Hdbl. congruence.
  - intros Hne. destruct (useSingleClickToOpen cfg) eqn:E; [reflexivity |].
    apply useSingleClickToOpen_false in E. contradiction.
  - intros H. unfold useAltAsMultipleSelectionModifier. rewrite H. reflexivity.
  - intros H. unfold useSingleClickToOpen. rewrite H. reflexivity.
  - intros cfg' H. unfold useAltAsMultipleSelectionModifier. rewrite H. reflexivity.
  - intros cfg' H. unfold useSingleClickToOpen. rewrite H. reflexivity.
Qed.

Lemma policy_queries_witness :
  useAltAsMultipleSelectionModifier altDoubleClickConfiguration = true
  /\ useSingleClickToOpen altDoubleClickConfiguration = false
  /\ useAltAsMultipleSelectionModifier defaultConfiguration = false
  /\ useSingleClickToOpen defaultConfiguration = true.
Proof.
  destruct (policy_queries altDoubleClickConfiguration) as (Halt & _ & _).
  destruct (policy_queries defaultConfiguration) as (_ & _ & Hctrl & Hsingle & _).
  split; [apply Halt; reflexivity |].
  split; [reflexivity |].
  split; [apply Hctrl; reflexivity | apply Hsingle; reflexivity].
Defined.

(** C3. [shouldOpen] accepts every non-mouse event; it accepts a mouse
    event exactly when single-click-to-open is active or the click count is
    2.  So a double-click is accepted under every configuration, and under
    openMode "doubleClick" a mouse event with another click count (a single
    click) is rejected. *)
Theorem shouldOpen_gate (cfg : IConfigurationService) (event : DomEvent) :
  (ev_class event <> MouseEventC -> shouldOpen cfg event = true)
  /\ (ev_class event = MouseEventC ->
      (shouldOpen cfg event = true <-> useSingleClickToOpen cfg = true \/ detail event = 2))
  /\ (detail event = 2 -> shouldOpen cfg event = true)
  /\ (getValue cfg openModeSettingKey = JStr "doubleClick" ->
      ev_class event = MouseEventC -> detail event <> 2 ->
      shouldOpen cfg event = false).
Proof.
  unfold shouldOpen. repeat split.
  - destruct (ev_class event); [contradiction | reflexivity | reflexivity].
  - rewrite H, orb_true_iff, Z.eqb_eq. tauto.
  - rewrite H, orb_true_iff, Z.eqb_eq. tauto.
  - intros Hd. destruct (ev_class event); [| reflexivity | reflexivity].
    apply orb_true_iff. right. apply Z.eqb_eq, Hd.
  - intros Hmode Hmouse Hd. rewrite Hmouse.
    apply useSingleClickToOpen_false in Hmode. rewrite Hmode. simpl.
    apply Z.eqb_neq, Hd.
Qed.

Lemma shouldOpen_gate_witness :
  shouldOpen altDoubleClickConfiguration (mkDomEvent 0 KeyboardEventC 0 false false false) = true
  /\ shouldOpen altDoubleClickConfiguration (mkDomEvent 1 MouseEventC 2 false false false) = true
  /\ shouldOpen altDoubleClickConfiguration (mkDomEvent 2 MouseEventC 1 false false false) = false.
Proof.
  split; [| split].
  - destruct (shouldOpen_gate altDoubleClickConfiguration
                (mkDomEvent 0 KeyboardEventC 0 false false false)) as (H & _).
    apply H. simpl. discriminate.
  - destruct (shouldOpen_gate altDoubleClickConfiguration
                (mkDomEvent 1 MouseEventC 2 false false false)) as (_ & _ & H & _).
    apply H. reflexivity.
  - destruct (shouldOpen_gate altDoubleClickConfiguration
                (mkDomEvent 2 MouseEventC 1 false false false)) as (_ & _ & _ & H).
    apply H; [reflexivity | reflexivity | simpl; lia].
Defined.

(** ** Configuration changes on a [WorkbenchTree] *)

(** C8.  On a configuration-change notification the cached
    open-on-single-click field is recomputed exactly when the notification
    affects workbench.list.openMode, and whether it does has no bearing on
    the cached alt-as-multi-select field; the alt field is recomputed
    exactly when the notification affects
    workbench.list.multiSelectModifier, and whether it does has no bearing
    on the open-on-single-click field.  A notification affecting neither
    key leaves the tree as it is.  Nothing else in the tree changes, and
    only the answers of the notification for the two setting keys count:
    what it says of other keys, however close to these two, is never
    asked. *)
Theorem config_change_refresh (cfg : IConfigurationService) (e : IConfigurationChangeEvent)
    (t : WorkbenchTree) :
  let t' := WorkbenchTree_onDidChangeConfiguration cfg e t in
  openOnSingleClick t' =
    (if affectsConfiguration e openModeSettingKey
     then useSingleClickToOpen cfg else openOnSingleClick t)
  /\ tree_useAltAsMultipleSelectionModifier t' =
    (if affectsConfiguration e multiSelectModifierSettingKey
     then useAltAsMultipleSelectionModifier cfg else tree_useAltAsMultipleSelectionModifier t)
  /\ focus t' = focus t
  /\ selection t' = selection t
  /\ contextKeyService t' = contextKeyService t
  /\ onDidChangeSelection t' = onDidChangeSelection t
  /\ onDidChangeFocus t' = onDidChangeFocus t
  /\ (affectsConfiguration e openModeSettingKey = false ->
      affectsConfiguration e multiSelectModifierSettingKey = false ->
      t' = t)
  /\ (forall e' : IConfigurationChangeEvent,
        affectsConfiguration e' openModeSettingKey = affectsConfiguration e openModeSettingKey ->
        affectsConfiguration e' multiSelectModifierSettingKey
        = affectsConfiguration e multiSelectModifierSettingKey ->
        WorkbenchTree_onDidChangeConfiguration cfg e' t = t').
Proof.
  unfold WorkbenchTree_onDidChangeConfiguration, openOnSingleClick,
    tree_useAltAsMultipleSelectionModifier.
  split; [| split; [| split; [| split; [| split; [| split; [| split; [| split]]]]]]].
  8: { intros -> ->. reflexivity. }
  8: { intros e' -> ->. reflexivity. }
  all: destruct (affectsConfiguration e openModeSettingKey),
         (affectsConfiguration e multiSelectModifierSettingKey); reflexivity.
Qed.

(** A notification for workbench.list.openMode alone recomputes the
    open-on-single-click field and leaves the alt field, though the
    configuration now says "alt"; a notification that says yes for keys
    that resemble the two setting keys, and no for these, changes
    nothing. *)
Lemma config_change_refresh_witness :
  let t := WorkbenchTree_new defaultConfiguration in
  let openModeOnly := mkChangeEvent (fun key => String.eqb key "workbench.list.openMode") in
  let lookalikes :=
    mkChangeEvent (fun key =>
      bool_decide (key ∈ ["workbench.list.openModeExtra"; "list.openMode"; "openMode";
                          "workbench.list.multiSelectModifiers"])) in
  openOnSingleClick (WorkbenchTree_onDidChangeConfiguration altDoubleClickConfiguration openModeOnly t)
  = false
  /\ tree_useAltAsMultipleSelectionModifier
       (WorkbenchTree_onDidChangeConfiguration altDoubleClickConfiguration openModeOnly t)
     = tree_useAltAsMultipleSelectionModifier t
  /\ WorkbenchTree_onDidChangeConfiguration altDoubleClickConfiguration lookalikes t = t.
Proof.
  intros t openModeOnly lookalikes.
  destruct (config_change_refresh altDoubleClickConfiguration openModeOnly t)
    as (Hopen & Halt & _).
  destruct (config_change_refresh altDoubleClickConfiguration lookalikes t)
    as (_ & _ & _ & _ & _ & _ & _ & Hneither & _).
  split; [rewrite Hopen; reflexivity |].
  split; [rewrite Halt; reflexivity |].
  apply Hneither; vm_compute; reflexivity.
Defined.

(** ** The double-selection context key *)

Lemma WorkbenchList_runListeners_frame (ls : list SelectionListener) (l : WorkbenchList) :
  list_onSelectionChange (foldl WorkbenchList_runListener l ls) = list_onSelectionChange l
  /\ list_selection (foldl WorkbenchList_runListener l ls) = list_selection l.
Proof.
  revert l. induction ls as [| x ls IH]; intros l; simpl; [done |].
  destruct (IH (WorkbenchList_runListener l x)) as [-> ->].
  destruct x; done.
Qed.

Lemma WorkbenchList_runListeners_flag (ls : list SelectionListener) (l : WorkbenchList) :
  DoubleSelectionListener ∈ ls
  \/ list_contextKeyService l !! "listDoubleSelection"
     = Some (Z.of_nat (length (list_selection l)) =? 2) ->
  list_contextKeyService (foldl WorkbenchList_runListener l ls) !! "listDoubleSelection"
  = Some (Z.of_nat (length (list_selection l)) =? 2).
Proof.
  revert l. induction ls as [| x ls IH]; intros l H; simpl.
  - destruct H as [H | H]; [inversion H | exact H].
  - destruct x; simpl.
    + rewrite IH; [reflexivity |]. right. apply lookup_insert_eq.
    + apply IH. destruct H as [H | H]; [left | right; exact H].
      apply elem_of_cons in H as [H | H]; [discriminate | exact H].
Qed.

(** ** Reasoning about computations *)

Section Frame.
Context {S : Type} (R : S -> S -> Prop).
Hypothesis R_refl : forall s, R s s.
Hypothesis R_trans : forall a b c, R a b -> R b c -> R a c.

Lemma keeps_ret {A} (a : A) : keeps R (ret a).
Proof using R_refl. intros s. apply R_refl. Qed.

Lemma keeps_throw {A} (e : JsError) : keeps R (@throw S A e).
Proof using R_refl. intros s. apply R_refl. Qed.

Lemma keeps_gets {A} (f : S -> A) : keeps R (gets f).
Proof using R_refl. intros s. apply R_refl. Qed.

Lemma keeps_bind {A B} (m : M S A) (k : A -> M S B) :
  keeps R m -> (forall a, keeps R (k a)) -> keeps R (bind m k).
Proof using R_trans.
  intros Hm Hk s. unfold bind. specialize (Hm s).
  destruct (m s) as [a s' | e s']; simpl in *; [| exact Hm].
  eapply R_trans; [exact Hm | apply Hk].
Qed.

Lemma keeps_get (v : JsVal) (name : string) : keeps R (@get S v name).
Proof using R_refl. intros st. destruct v; apply R_refl. Qed.

Lemma keeps_and (ma mb : M S JsVal) : keeps R ma -> keeps R mb -> keeps R (ma &&& mb).
Proof using R_refl R_trans.
  intros Ha Hb. apply keeps_bind; [exact Ha |].
  intros a. destruct (truthy a); [exact Hb | apply keeps_ret].
Qed.

Lemma keeps_or (ma mb : M S JsVal) : keeps R ma -> keeps R mb -> keeps R (ma ||| mb).
Proof using R_refl R_trans.
  intros Ha Hb. apply keeps_bind; [exact Ha |].
  intros a. destruct (truthy a); [apply keeps_ret | exact Hb].
Qed.

Lemma keeps_if {A} (b : bool) (m1 m2 : M S A) :
  keeps R m1 -> keeps R m2 -> keeps R (if b then m1 else m2).
Proof. destruct b; tauto. Qed.

Lemma keeps_modify (f : S -> S) : (forall s, R s (f s)) -> keeps R (modify f).
Proof. intros H s. apply H. Qed.
End Frame.

Ltac keeps_step :=
  first
    [ apply keeps_ret; [assumption]
    | apply keeps_throw; [assumption]
    | apply keeps_gets; [assumption]
    | apply keeps_get; [assumption]
    | apply keeps_and; [assumption | assumption | |]
    | apply keeps_or; [assumption | assumption | |]
    | apply keeps_if
    | apply keeps_bind; [assumption | | intros ?] ].

(** ** The navigation adapter leaves the tree alone *)

Lemma same_tree_refl (n : Navigation) : same_tree n n.
Proof. split; reflexivity. Qed.

Lemma same_tree_trans (a b c : Navigation) : same_tree a b -> same_tree b c -> same_tree a c.
Proof. intros [H1 H2] [H3 H4]. split; congruence. Qed.

Lemma onSelection_same_tree (payload : JsVal) : keeps same_tree (onSelection payload).
Proof.
  pose proof same_tree_refl as Hr. pose proof same_tree_trans as Ht.
  unfold onSelection, get_is, fire.
  repeat keeps_step.
  all: try (apply keeps_modify; intros s; split; reflexivity).
  unfold preventDefault.
  match goal with |- context [match ?v with _ => _ end] => destruct v end;
    try (apply keeps_throw; assumption).
  apply keeps_modify; intros s; split; reflexivity.
Qed.

Lemma fireEach_keeps {L} (R : Navigation -> Navigation -> Prop) (run : L -> M Navigation unit)
    (ls : list L) :
  (forall n, R n n) -> (forall a b c, R a b -> R b c -> R a c) ->
  (forall l, keeps R (run l)) -> keeps R (fireEach run ls).
Proof.
  intros Hr Ht Hrun. induction ls as [| l ls IH]; simpl.
  - apply keeps_ret, Hr.
  - intros n. eapply Ht; [apply Hrun | apply IH].
Qed.

Lemma tree_steady_refl (n : Navigation) : tree_steady n n.
Proof. repeat split; auto. Qed.

Lemma tree_steady_trans (a b c : Navigation) :
  tree_steady a b -> tree_steady b c -> tree_steady a c.
Proof. intros (H1 & H2 & H3) (H4 & H5 & H6). repeat split; try congruence. auto. Qed.

Lemma doubleSelection_agrees (t : WorkbenchTree) :
  flag_agrees (WorkbenchTree_doubleSelection t).
Proof. unfold flag_agrees. simpl. apply lookup_insert_eq. Qed.

Lemma runSelectionListener_steady (payload : JsVal) (l : SelectionListener) :
  keeps tree_steady (runSelectionListener payload l).
Proof.
  destruct l; simpl.
  - apply keeps_modify. intros n. repeat split. intros _. apply doubleSelection_agrees.
  - intros n. destruct (onSelection_same_tree payload n) as [Ht _].
    unfold tree_steady. rewrite Ht. repeat split; auto.
Qed.

(** [setSelection], unfolded to the run of the listeners. *)
Lemma setSelection_unfold (elements : list JsVal) (eventPayload : JsVal) (n : Navigation) :
  setSelection elements eventPayload n
  = fireEach (runSelectionListener eventPayload) (onDidChangeSelection (tree n))
      (mkNavigation
         (mkWorkbenchTree (focus (tree n)) elements (contextKeyService (tree n))
            (_openOnSingleClick (tree n)) (_useAltAsMultipleSelectionModifier (tree n))
            (onDidChangeSelection (tree n)) (onDidChangeFocus (tree n)))
         (_openResource n) (selectionChanges n ++ [eventPayload]) (defaultPrevented n)).
Proof. reflexivity. Qed.

Lemma setSelection_flag (elements : list JsVal) (payload : JsVal) (n : Navigation)
    (rest : list SelectionListener) :
  onDidChangeSelection (tree n) = DoubleSelectionListener :: rest ->
  let n' := final_state (setSelection elements payload n) in
  selection (tree n') = elements
  /\ onDidChangeSelection (tree n') = onDidChangeSelection (tree n)
  /\ flag_agrees (tree n').
Proof.
  intros Hls. rewrite setSelection_unfold, Hls.
  set (n1 := mkNavigation _ _ _ _).
  change (fireEach (runSelectionListener payload) (DoubleSelectionListener :: rest) n1)
    with (fireEach (runSelectionListener payload) rest (set_tree WorkbenchTree_doubleSelection n1)).
  destruct (fireEach_keeps tree_steady (runSelectionListener payload) rest
              tree_steady_refl tree_steady_trans (runSelectionListener_steady payload)
              (set_tree WorkbenchTree_doubleSelection n1)) as (H1 & H2 & H3).
  cbv zeta. rewrite H1, H2.
  split; [reflexivity | split; [simpl; congruence |]].
  apply H3, doubleSelection_agrees.
Qed.

Lemma navigation_new_listeners (cfg : IConfigurationService) (options : option bool) :
  exists rest,
    onDidChangeSelection (tree (ResourceResultsNavigation_new (WorkbenchTree_new cfg) options))
    = DoubleSelectionListener :: rest.
Proof.
  exists [NavigationSelectionListener].
  unfold ResourceResultsNavigation_new. destruct (default false options); reflexivity.
Qed.

Lemma setSelection_sequence_listeners (changes : list (list JsVal * JsVal)) (n : Navigation)
    (rest : list SelectionListener) :
  onDidChangeSelection (tree n) = DoubleSelectionListener :: rest ->
  onDidChangeSelection
    (tree (foldl (fun n c => final_state (setSelection c.1 c.2 n)) n changes))
  = DoubleSelectionListener :: rest.
Proof.
  revert n. induction changes as [| c changes IH]; intros n Hls; simpl; [exact Hls |].
  apply IH. destruct (setSelection_flag c.1 c.2 n rest Hls) as (_ & -> & _). exact Hls.
Qed.

Lemma WorkbenchList_sequence_listeners (changes : list (list Z)) (l : WorkbenchList) :
  list_onSelectionChange (foldl (fun l c => WorkbenchList_selectionChange c l) l changes)
  = list_onSelectionChange l.
Proof.
  revert l. induction changes as [| c changes IH]; intros l; simpl; [reflexivity |].
  rewrite IH. unfold WorkbenchList_selectionChange.
  destruct (WorkbenchList_runListeners_frame (list_onSelectionChange l)
              (mkWorkbenchList c (list_contextKeyService l)
                 (list_useAltAsMultipleSelectionModifier l) (list_onSelectionChange l)))
    as [H _].
  exact H.
Qed.

Lemma WorkbenchPagedList_selectionChange_eq (indexes : list Z) (p : WorkbenchPagedList) :
  WorkbenchPagedList_selectionChange indexes p
  = mkWorkbenchPagedList indexes (paged_contextKeyService p)
      (paged_useAltAsMultipleSelectionModifier p) (paged_onSelectionChange p).
Proof.
  unfold WorkbenchPagedList_selectionChange. cbv zeta.
  assert (H : forall ls q, foldl WorkbenchPagedList_runListener q ls = q).
  { intros ls. induction ls as [| x ls IH]; intros q; simpl; [reflexivity | apply IH]. }
  apply H.
Qed.

Lemma WorkbenchPagedList_sequence (changes : list (list Z)) (p : WorkbenchPagedList) :
  let p' := foldl (fun p c => WorkbenchPagedList_selectionChange c p) p changes in
  paged_onSelectionChange p' = paged_onSelectionChange p
  /\ paged_contextKeyService p' = paged_contextKeyService p.
Proof.
  revert p. induction changes as [| c changes IH]; intros p; simpl; [done |].
  destruct (IH (WorkbenchPagedList_selectionChange c p)) as [H1 H2].
  rewrite H1, H2, WorkbenchPagedList_selectionChange_eq. done.
Qed.

Lemma Z_of_nat_eqb_2 (k : nat) : (Z.of_nat k =? 2) = true <-> k = 2%nat.
Proof. rewrite Z.eqb_eq. lia. Qed.

(** C9, as amended.  The list and the tree wrapper subscribe a listener to
    their own selection-change event, and after every selection change
    their listDoubleSelection key is true exactly when the selection has
    two elements.  The paged-list wrapper subscribes no such listener and
    never holds the key. *)
Theorem double_selection_flag (cfg : IConfigurationService) :
  (DoubleSelectionListener ∈ list_onSelectionChange (WorkbenchList_new cfg)
   /\ forall (changes : list (list Z)) (indexes : list Z),
       let l := WorkbenchList_selectionChange indexes
                  (foldl (fun l c => WorkbenchList_selectionChange c l)
                     (WorkbenchList_new cfg) changes) in
       list_selection l = indexes
       /\ exists b, list_contextKeyService l !! "listDoubleSelection" = Some b
                    /\ (b = true <-> length indexes = 2%nat))
  /\ (DoubleSelectionListener ∈ onDidChangeSelection (WorkbenchTree_new cfg)
   /\ forall (options : option bool) (changes : list (list JsVal * JsVal))
        (elements : list JsVal) (payload : JsVal),
       let n := final_state (setSelection elements payload
                  (foldl (fun n c => final_state (setSelection c.1 c.2 n))
                     (ResourceResultsNavigation_new (WorkbenchTree_new cfg) options) changes)) in
       selection (tree n) = elements
       /\ exists b, contextKeyService (tree n) !! "listDoubleSelection" = Some b
                    /\ (b = true <-> length elements = 2%nat))
  /\ (paged_onSelectionChange (WorkbenchPagedList_new cfg) = []
   /\ forall (changes : list (list Z)) (indexes : list Z),
       let p := WorkbenchPagedList_selectionChange indexes
                  (foldl (fun p c => WorkbenchPagedList_selectionChange c p)
                     (WorkbenchPagedList_new cfg) changes) in
       paged_selection p = indexes
       /\ paged_contextKeyService p !! "listDoubleSelection" = None).
Proof.
  split; [| split].
  - split; [simpl; apply list_elem_of_singleton; reflexivity |].
    intros changes indexes l.
    set (l0 := foldl _ _ changes) in l.
    assert (Hls : DoubleSelectionListener ∈ list_onSelectionChange l0).
    { unfold l0. rewrite WorkbenchList_sequence_listeners. simpl.
      apply list_elem_of_singleton. reflexivity. }
    unfold l, WorkbenchList_selectionChange.
    set (l1 := mkWorkbenchList indexes _ _ _).
    destruct (WorkbenchList_runListeners_frame (list_onSelectionChange l0) l1) as [_ Hsel].
    split; [exact Hsel |].
    exists (Z.of_nat (length indexes) =? 2). split; [| apply Z_of_nat_eqb_2].
    apply (WorkbenchList_runListeners_flag (list_onSelectionChange l0) l1). left. exact Hls.
  - split; [simpl; apply list_elem_of_singleton; reflexivity |].
    intros options changes elements payload n.
    destruct (navigation_new_listeners cfg options) as [rest Hrest].
    pose proof (setSelection_sequence_listeners changes _ rest Hrest) as Hls.
    destruct (setSelection_flag elements payload _ rest Hls) as (Hsel & _ & Hflag).
    fold n in Hsel, Hflag.
    split; [exact Hsel |].
    exists (Z.of_nat (length elements) =? 2). split; [| apply Z_of_nat_eqb_2].
    unfold flag_agrees in Hflag. rewrite Hsel in Hflag. exact Hflag.
  - split; [reflexivity |].
    intros changes indexes p.
    destruct (WorkbenchPagedList_sequence changes (WorkbenchPagedList_new cfg))
      as [_ Hctx].
    unfold p. rewrite WorkbenchPagedList_selectionChange_eq. simpl.
    split; [reflexivity |]. rewrite Hctx. reflexivity.
Qed.

(** C9 as stated fails for the paged list: two rows get selected and the
    key is not true; the wrapper has subscribed nothing to the event. *)
Lemma paged_list_double_selection :
  let p := WorkbenchPagedList_selectionChange [0; 1] (WorkbenchPagedList_new defaultConfiguration) in
  length (paged_selection p) = 2%nat
  /\ paged_contextKeyService p !! "listDoubleSelection" <> Some true
  /\ paged_onSelectionChange (WorkbenchPagedList_new defaultConfiguration) = [].
Proof. vm_compute. repeat split. discriminate. Qed.

(** ** [handleListControllers] *)

(** C10.  [handleListControllers] always completes.  The openController
    field of its result is a new [OpenController] over the configuration
    service, whatever the caller had put there; the
    multipleSelectionController field is a new [MultipleSelectionController]
    over the configuration service when multipleSelectionSupport is exactly
    [true] and no multipleSelectionController was supplied, and is the
    caller's otherwise; every other field is the caller's.  New objects
    take references from [next] on, which no earlier object has. *)
Theorem handleListControllers_fields (options : IListOptions) (cfg : IConfigurationService)
    (next : nat) :
  exists (options' : IListOptions) (next' : nat),
    handleListControllers options cfg next = Ok options' next'
    /\ (exists r, (next <= r < next')%nat
                  /\ options' !! "openController" = Some (Object (OpenController r cfg)))
    /\ (forall c, options !! "openController" = Some (Object c) ->
                  (controller_ref c < next)%nat ->
                  options' !! "openController" <> Some (Object c))
    /\ (options !! "multipleSelectionSupport" = Some (Plain (JBool true)) ->
        option_truthy (options !! "multipleSelectionController") = false ->
        exists r, (next <= r < next')%nat
                  /\ options' !! "multipleSelectionController"
                     = Some (Object (MultipleSelectionController r cfg)))
    /\ (options !! "multipleSelectionSupport" <> Some (Plain (JBool true))
        \/ option_truthy (options !! "multipleSelectionController") = true ->
        options' !! "multipleSelectionController" = options !! "multipleSelectionController")
    /\ (forall key, key <> "openController" -> key <> "multipleSelectionController" ->
                    options' !! key = options !! key).
Proof.
  unfold handleListControllers, bind, newObject, ret.
  assert (Hsupport : option_is_true (options !! "multipleSelectionSupport") = true
                     <-> options !! "multipleSelectionSupport" = Some (Plain (JBool true))).
  { destruct (options !! "multipleSelectionSupport") as [[v | c] |]; simpl;
      try (split; [discriminate | intros H; discriminate H]).
    rewrite strict_eq_true_true. split; [intros -> | intros [= ->]]; reflexivity. }
  destruct (option_is_true (options !! "multipleSelectionSupport")) eqn:Es;
    destruct (option_truthy (options !! "multipleSelectionController")) eqn:Ec; simpl.
  2: {
    eexists _, _. split; [reflexivity |].
    split; [exists (S next); split; [lia | apply lookup_insert_eq] |].
    split; [intros c _ Hlt; rewrite lookup_insert_eq; intros [= <-]; simpl in Hlt; lia |].
    split; [intros _ _; exists next; split; [lia |];
            rewrite lookup_insert_ne by discriminate; apply lookup_insert_eq |].
    split; [intros [Hn | Hn]; [destruct Hn; apply Hsupport; reflexivity | discriminate] |].
    intros key H1 H2. rewrite !lookup_insert_ne by congruence. reflexivity. }
  all: eexists _, _; (split; [reflexivity |]);
    (split; [exists next; split; [lia | apply lookup_insert_eq] |]);
    (split; [intros c _ Hlt; rewrite lookup_insert_eq; intros [= <-]; simpl in Hlt; lia |]);
    (split; [intros Hs Hc; first [discriminate Hc | apply Hsupport in Hs; discriminate Hs] |]);
    (split; [intros _; rewrite lookup_insert_ne by discriminate; reflexivity |]);
    intros key H1 H2; rewrite lookup_insert_ne by congruence; reflexivity.
Qed.

Lemma handleListControllers_fields_witness :
  exists (options' : IListOptions) (next' : nat),
    handleListControllers sampleListOptions defaultConfiguration 4%nat = Ok options' next'
    /\ options' !! "openController" <> Some (Object (SuppliedController 3))
    /\ (exists r, (4 <= r < next')%nat
                  /\ options' !! "multipleSelectionController"
                     = Some (Object (MultipleSelectionController r defaultConfiguration)))
    /\ options' !! "ariaLabel" = Some (Plain (JStr "Files")).
Proof.
  destruct (handleListControllers_fields sampleListOptions defaultConfiguration 4%nat)
    as (options' & next' & Hrun & _ & Hdiscard & Hinstall & _ & Hother).
  exists options', next'.
  split; [exact Hrun |].
  split; [apply Hdiscard; [reflexivity | simpl; lia] |].
  split; [apply Hinstall; reflexivity |].
  rewrite Hother by discriminate. reflexivity.
Defined.

(** ** The focus registry *)

Lemma splice_sublist {A} (l : list A) (start deleteCount : Z) :
  splice l start deleteCount `sublist_of` l.
Proof.
  unfold splice.
  set (a := Z.to_nat _). set (b := Z.to_nat (_ + _)).
  assert (Hab : (a <= b)%nat) by (unfold a, b; destruct (Z.ltb_spec start 0); lia).
  rewrite <- (take_drop a l) at 3.
  apply sublist_app; [reflexivity |].
  replace b with (a + (b - a))%nat by lia.
  rewrite <- drop_drop. apply sublist_drop.
Qed.

Lemma splice_at {A} (l : list A) (i : nat) :
  (i < length l)%nat -> splice l (Z.of_nat i) 1 = delete i l.
Proof.
  intros Hi. unfold splice. rewrite delete_take_drop.
  replace (Z.of_nat i <? 0) with false by (symmetry; apply Z.ltb_ge; lia).
  f_equal; f_equal; lia.
Qed.

(** [splice(-1, 1)] takes the last element away, whichever it is. *)
Lemma splice_minus_one {A} (l : list A) :
  splice l (-1) 1 = take (length l - 1) l.
Proof.
  unfold splice. change (-1 <? 0) with true. cbv iota zeta.
  destruct l as [| x l]; [reflexivity |].
  set (len := length (x :: l)).
  assert (Hlen : (1 <= len)%nat) by (unfold len; simpl; lia).
  replace (Z.to_nat (Z.max (Z.of_nat len + -1) 0)) with (len - 1)%nat by lia.
  rewrite drop_ge by (fold len; lia).
  apply app_nil_r.
Qed.

Lemma indexOf_cases (l : list IRegisteredList) (x : IRegisteredList) :
  (indexOf l x = -1 /\ entry_ref x ∉ entry_ref <$> l)
  \/ (exists i y, indexOf l x = Z.of_nat i /\ l !! i = Some y /\ entry_ref y = entry_ref x).
Proof.
  unfold indexOf.
  destruct (list_find (fun y => entry_ref y = entry_ref x) l) as [[i y] |] eqn:E.
  - right. apply list_find_Some in E as (Hi & Hy & _). eauto.
  - left. split; [reflexivity |].
    apply list_find_None in E. rewrite Forall_forall in E.
    intros (y & Hy & Hin)%list_elem_of_fmap. apply (E y Hin). symmetry. exact Hy.
Qed.

Lemma NoDup_delete_lookup {A} (l : list A) (i : nat) (x : A) :
  NoDup l -> l !! i = Some x -> x ∉ delete i l.
Proof.
  intros Hl. revert i. induction Hl as [| y l Hy Hl IH]; intros i Hi; [done |].
  destruct i as [| i]; simpl in *.
  - injection Hi as <-. exact Hy.
  - intros [-> | Hin]%elem_of_cons.
    + apply Hy. eapply list_elem_of_lookup_2. exact Hi.
    + exact (IH i Hi Hin).
Qed.

(** After the splice of [dispose], no entry has the reference of the
    disposed one. *)
Lemma splice_indexOf_gone (l : list IRegisteredList) (x : IRegisteredList) :
  NoDup (entry_ref <$> l) ->
  entry_ref x ∉ entry_ref <$> splice l (indexOf l x) 1.
Proof.
  intros Hl. destruct (indexOf_cases l x) as [[-> Hnot] | (i & y & -> & Hi & Hy)].
  - intros Hin. apply Hnot. eapply elem_of_sublist; [exact Hin |].
    apply fmap_sublist, splice_sublist.
  - rewrite splice_at by (eapply lookup_lt_Some; exact Hi).
    rewrite list_fmap_delete. apply NoDup_delete_lookup; [exact Hl |].
    rewrite list_lookup_fmap, Hi. simpl. congruence.
Qed.

(** The outcomes of the three operations. *)

Lemma existsb_widget (w : ListWidget) (l : list IRegisteredList) :
  existsb (fun e => bool_decide (widget e = w)) l = true <-> w ∈ widget <$> l.
Proof.
  rewrite existsb_exists, list_elem_of_fmap. split.
  - intros (e & Hin & He). apply bool_decide_eq_true in He.
    exists e. split; [congruence | apply list_elem_of_In, Hin].
  - intros (e & He & Hin). exists e. split; [apply list_elem_of_In, Hin |].
    apply bool_decide_eq_true. congruence.
Qed.

Lemma register_throws (w : ListWidget) (extra : option (list string)) (f : bool) (s : ListService) :
  w ∈ registered s ->
  register w extra f s = Throw (Error "Cannot register the same widget multiple times") s.
Proof.
  intros Hin. apply existsb_widget in Hin.
  unfold register, bind, gets. rewrite Hin. reflexivity.
Qed.

Lemma register_completes (w : ListWidget) (extra : option (list string)) (f : bool) (s : ListService) :
  w ∉ registered s ->
  register w extra f s
  = Ok (mkDisposable (nextRef s) (mkRegisteredList (nextRef s) w extra))
       (mkListService (lists s ++ [mkRegisteredList (nextRef s) w extra])
          (if f then Some w else _lastFocusedWidget s)
          (focusListeners s ++ [(nextRef s, w)])
          (S (nextRef s))).
Proof.
  intros Hin.
  assert (E : existsb (fun e => bool_decide (widget e = w)) (lists s) = false).
  { destruct (existsb _ (lists s)) eqn:E; [| reflexivity].
    apply existsb_widget in E. contradiction. }
  unfold register, bind, gets. rewrite E. destruct f; reflexivity.
Qed.

Lemma dispose_completes (d : IDisposable) (s : ListService) :
  dispose d s
  = Ok tt (mkListService
             (splice (lists s) (indexOf (lists s) (d_registeredList d)) 1)
             (_lastFocusedWidget s)
             (filter (fun l => l.1 ≠ d_listener d) (focusListeners s))
             (nextRef s)).
Proof. reflexivity. Qed.

Lemma fireDidFocus_fold (w : ListWidget) (fl : list FocusListener) (s : ListService) :
  let s' := foldl (fun s (l : FocusListener) =>
                     if bool_decide (l.2 = w) then set_lastFocusedWidget l.2 s else s) s fl in
  lists s' = lists s /\ focusListeners s' = focusListeners s /\ nextRef s' = nextRef s
  /\ (_lastFocusedWidget s' = _lastFocusedWidget s \/ _lastFocusedWidget s' = Some w)
  /\ ((exists r, (r, w) ∈ fl) -> _lastFocusedWidget s' = Some w)
  /\ ((forall r, (r, w) ∉ fl) -> _lastFocusedWidget s' = _lastFocusedWidget s).
Proof.
  revert s. induction fl as [| [r v] fl IH]; intros s; simpl.
  - repeat split; auto. intros [r Hr]. inversion Hr.
  - destruct (IH (if bool_decide (v = w) then set_lastFocusedWidget v s else s))
      as (H1 & H2 & H3 & H4 & H5 & H6).
    rewrite H1, H2, H3. case_bool_decide as Hv; simpl in *.
    + subst v. repeat split; auto.
      * destruct H4 as [-> | ->]; auto.
      * intros _. destruct H4 as [-> | ->]; reflexivity.
      * intros Hno. destruct (Hno r). left.
    + repeat split; auto.
      * intros [r' Hr']. apply H5. exists r'.
        apply elem_of_cons in Hr' as [[= -> ->] | Hr']; [contradiction | exact Hr'].
      * intros Hno. apply H6. intros r' Hr'. apply (Hno r'). right. exact Hr'.
Qed.

Lemma fireDidFocus_completes (w : ListWidget) (s : ListService) :
  exists s', fireDidFocus w s = Ok tt s'
    /\ lists s' = lists s /\ focusListeners s' = focusListeners s /\ nextRef s' = nextRef s
    /\ ((exists r, (r, w) ∈ focusListeners s) -> _lastFocusedWidget s' = Some w)
    /\ ((forall r, (r, w) ∉ focusListeners s) -> _lastFocusedWidget s' = _lastFocusedWidget s).
Proof.
  eexists. split; [reflexivity |].
  destruct (fireDidFocus_fold w (focusListeners s) s) as (H1 & H2 & H3 & _ & H5 & H6).
  auto.
Qed.

Lemma registry_inv_init : registry_inv (newListService, []).
Proof.
  split; simpl; try apply NoDup_nil_2; intros x Hx; inversion Hx.
Qed.

Lemma registry_inv_register (st : ListService * list IDisposable) (w : ListWidget)
    (extra : option (list string)) (f : bool) :
  registry_inv st -> registry_inv (step st (CallRegister w extra f)).
Proof.
  intros [Hw Hr Hf Hl Hi]. destruct st as [s ds]. simpl in *.
  destruct (decide (w ∈ registered s)) as [Hin | Hin].
  { rewrite register_throws by exact Hin. split; assumption. }
  rewrite register_completes by exact Hin.
  split; simpl.
  - unfold registered in *. simpl. rewrite fmap_app. apply NoDup_app.
    split; [exact Hw |]. split; [| apply NoDup_singleton].
    intros x Hx ->%list_elem_of_singleton. contradiction.
  - rewrite fmap_app. apply NoDup_app.
    split; [exact Hr |]. split; [| apply NoDup_singleton].
    intros x (e & -> & He)%list_elem_of_fmap Hx%list_elem_of_singleton.
    apply Hf in He. simpl in Hx. lia.
  - intros e [He | ->%list_elem_of_singleton]%elem_of_app; [| simpl; lia].
    apply Hf in He. lia.
  - intros e [He | ->%list_elem_of_singleton]%elem_of_app; apply elem_of_app.
    + left. apply Hl, He.
    + right. simpl. apply list_elem_of_singleton. reflexivity.
  - intros d [Hd | ->%list_elem_of_singleton]%elem_of_app; [apply Hi, Hd | reflexivity].
Qed.

Lemma registry_inv_dispose (s : ListService) (ds : list IDisposable) (d : IDisposable) :
  registry_inv (s, ds) -> d ∈ ds -> registry_inv (final_state (dispose d s), ds).
Proof.
  intros [Hw Hr Hf Hl Hi] Hd. rewrite dispose_completes. simpl in *.
  pose proof (splice_sublist (lists s) (indexOf (lists s) (d_registeredList d)) 1) as Hsub.
  split; simpl.
  - unfold registered in *. simpl.
    eapply sublist_NoDup; [exact Hw | apply fmap_sublist, Hsub].
  - eapply sublist_NoDup; [exact Hr | apply fmap_sublist, Hsub].
  - intros e He. apply Hf. eapply elem_of_sublist; [exact He | exact Hsub].
  - intros e He. apply list_elem_of_filter. split.
    + simpl. rewrite (Hi d Hd). intros Heq.
      apply (splice_indexOf_gone (lists s) (d_registeredList d) Hr).
      rewrite <- Heq. apply list_elem_of_fmap_2, He.
    + apply Hl. eapply elem_of_sublist; [exact He | exact Hsub].
  - exact Hi.
Qed.

Lemma registry_inv_step (st : ListService * list IDisposable) (c : Call) :
  registry_inv st -> registry_inv (step st c).
Proof.
  intros Hinv. destruct c as [w extra f | k | w].
  - apply registry_inv_register, Hinv.
  - destruct st as [s ds]. simpl. destruct (ds !! k) as [d |] eqn:Ek; [| exact Hinv].
    apply registry_inv_dispose; [exact Hinv |]. eapply list_elem_of_lookup_2, Ek.
  - destruct st as [s ds].
    change (step (s, ds) (FocusGained w)) with (final_state (fireDidFocus w s), ds).
    destruct (fireDidFocus_completes w s) as (s' & -> & H1 & H2 & H3 & _).
    destruct Hinv as [Hw Hr Hf Hl Hi]. simpl in *.
    split; simpl; unfold registered in *; rewrite ?H1, ?H2, ?H3; assumption.
Qed.

Lemma run_snoc (cs : list Call) (c : Call) : run (cs ++ [c]) = step (run cs) c.
Proof. unfold run. apply foldl_snoc. Qed.

Lemma run_app (cs cs' : list Call) : run (cs ++ cs') = foldl step (run cs) cs'.
Proof. unfold run. apply foldl_app. Qed.

Lemma registry_inv_run (cs : list Call) : registry_inv (run cs).
Proof.
  induction cs as [| c cs IH] using rev_ind.
  - apply registry_inv_init.
  - rewrite run_snoc. apply registry_inv_step, IH.
Qed.

(** C5.  After any sequence of register and dispose calls (and focus
    events) no widget has two entries in the registry; registering a
    widget that is registered throws, and the state the throw leaves is
    the state before the call, entries and last-focused reference
    included. *)
Theorem registry_no_duplicates (cs : list Call) :
  NoDup (registered (run cs).1)
  /\ forall (w : ListWidget) (extra : option (list string)) (isDOMFocused : bool),
       w ∈ registered (run cs).1 ->
       exists e, register w extra isDOMFocused (run cs).1 = Throw e (run cs).1.
Proof.
  split.
  - apply registry_inv_run.
  - intros w extra f Hin. eexists. apply register_throws, Hin.
Qed.

Lemma registry_no_duplicates_witness :
  NoDup (registered (run sampleCalls).1)
  /\ exists e, register 1%nat None true (run sampleCalls).1 = Throw e (run sampleCalls).1.
Proof.
  destruct (registry_no_duplicates sampleCalls) as [Hnodup Hthrow].
  split; [exact Hnodup |].
  apply Hthrow. vm_compute. apply list_elem_of_In. simpl. tauto.
Defined.

(** C6.  A widget that is not yet registered and reports DOM focus when
    [register] is called is the last-focused widget as soon as the call
    returns.  After any calls, a focus-gained event of a registered widget
    makes that widget the last-focused one, whatever the reference held
    before. *)
Theorem focus_last_writer_wins (cs : list Call) (w : ListWidget) :
  (forall extra : option (list string),
     w ∉ registered (run cs).1 ->
     exists d s', register w extra true (run cs).1 = Ok d s'
                  /\ lastFocusedList s' = Some w)
  /\ (w ∈ registered (run cs).1 ->
      exists s', fireDidFocus w (run cs).1 = Ok tt s'
                 /\ lastFocusedList s' = Some w).
Proof.
  split.
  - intros extra Hnot. rewrite register_completes by exact Hnot.
    eexists _, _. split; reflexivity.
  - intros (e & -> & He)%list_elem_of_fmap.
    destruct (fireDidFocus_completes (widget e) (run cs).1) as (s' & Hrun & _ & _ & _ & Hlast & _).
    exists s'. split; [exact Hrun |]. apply Hlast.
    exists (entry_ref e). apply (inv_listening _ (registry_inv_run cs)), He.
Qed.

Lemma focus_last_writer_wins_witness :
  (exists d s', register 3%nat None true (run sampleCalls).1 = Ok d s'
                /\ lastFocusedList s' = Some 3%nat)
  /\ lastFocusedList (run sampleCalls).1 = Some 1%nat
  /\ (exists s', fireDidFocus 2%nat (run sampleCalls).1 = Ok tt s'
                 /\ lastFocusedList s' = Some 2%nat).
Proof.
  split; [| split].
  - destruct (focus_last_writer_wins sampleCalls 3%nat) as [H _].
    apply H. vm_compute. intros Hin. apply list_elem_of_In in Hin. simpl in Hin.
    repeat destruct Hin as [Hin | Hin]; try discriminate Hin; exact Hin.
  - reflexivity.
  - destruct (focus_last_writer_wins sampleCalls 2%nat) as [_ H].
    apply H. vm_compute. apply list_elem_of_In. simpl. tauto.
Defined.

(** ** Disposal *)

Lemma step_gains_no_focus (st : ListService * list IDisposable) (c : Call) :
  gains_no_focus c = true -> lastFocusedList (step st c).1 = lastFocusedList st.1.
Proof.
  destruct st as [s ds]. destruct c as [w extra f | k | w]; simpl; intros Hc.
  - apply negb_true_iff in Hc. subst f.
    destruct (decide (w ∈ registered s)) as [Hin | Hin].
    + rewrite register_throws by exact Hin. reflexivity.
    + rewrite register_completes by exact Hin. reflexivity.
  - destruct (ds !! k); reflexivity.
  - discriminate.
Qed.

Lemma steps_gain_no_focus (cs : list Call) (st : ListService * list IDisposable) :
  forallb gains_no_focus cs = true ->
  lastFocusedList (foldl step st cs).1 = lastFocusedList st.1.
Proof.
  revert st. induction cs as [| c cs IH]; intros st Hcs; simpl in *; [reflexivity |].
  apply andb_true_iff in Hcs as [Hc Hcs].
  rewrite IH by exact Hcs. apply step_gains_no_focus, Hc.
Qed.

(** C7.  Invoking a disposable that [register] returned leaves no entry of
    that registration in the registry (an entry still there is taken out,
    and with it its widget), leaves its focus listener unsubscribed, and
    leaves the last-focused reference as it was.  [lastFocusedList] keeps
    returning that reference, the disposed widget included, through every
    later call in which no widget gains focus. *)
Theorem dispose_keeps_last_focused (cs : list Call) (k : nat) (d : IDisposable) :
  (run cs).2 !! k = Some d ->
  let s := (run cs).1 in
  exists s',
    dispose d s = Ok tt s'
    /\ (d_registeredList d ∉ lists s')
    /\ (d_registeredList d ∈ lists s -> widget (d_registeredList d) ∉ registered s')
    /\ (forall l, l ∈ focusListeners s' -> l.1 ≠ d_listener d)
    /\ lastFocusedList s' = lastFocusedList s
    /\ (forall later : list Call,
         forallb gains_no_focus later = true ->
         lastFocusedList (run (cs ++ CallDispose k :: later)).1 = lastFocusedList s).
Proof.
  intros Hk s. pose proof (registry_inv_run cs) as [Hw Hr Hf Hl Hi]. fold s in Hw, Hr, Hf, Hl.
  eexists. split; [apply dispose_completes |]. simpl.
  split; [| split; [| split; [| split]]].
  - intros Hin. apply (splice_indexOf_gone (lists s) (d_registeredList d) Hr).
    apply list_elem_of_fmap_2, Hin.
  - intros Hin. unfold registered. simpl.
    destruct (indexOf_cases (lists s) (d_registeredList d)) as [[_ Hnot] | (i & y & -> & Hi' & Hy)].
    { destruct Hnot. apply list_elem_of_fmap_2, Hin. }
    assert (y = d_registeredList d) as ->.
    { apply list_elem_of_lookup in Hin as [j Hj].
      assert (i = j) as ->; [| congruence].
      eapply (NoDup_lookup _ _ _ _ Hr); rewrite list_lookup_fmap.
      - rewrite Hi'. simpl. reflexivity.
      - rewrite Hj. simpl. congruence. }
    rewrite splice_at by (eapply lookup_lt_Some; exact Hi').
    rewrite list_fmap_delete. apply NoDup_delete_lookup; [exact Hw |].
    unfold registered. rewrite list_lookup_fmap, Hi'. reflexivity.
  - intros l Hin. apply list_elem_of_filter in Hin as [Hne _]. exact Hne.
  - reflexivity.
  - intros later Hlater.
    rewrite run_app. simpl. rewrite steps_gain_no_focus by exact Hlater.
    fold s. rewrite Hk. reflexivity.
Qed.

(** Widget 1 had focus when it was registered; it is disposed and stays
    the last-focused widget while widget 2 comes and goes. *)
Lemma dispose_keeps_last_focused_witness :
  let cs := [CallRegister 1%nat None true] in
  exists d s',
    (run cs).2 !! 0%nat = Some d
    /\ dispose d (run cs).1 = Ok tt s'
    /\ registered s' = []
    /\ lastFocusedList s' = Some 1%nat
    /\ lastFocusedList
         (run (cs ++ CallDispose 0 :: [CallRegister 2%nat None false; CallDispose 1])).1
       = Some 1%nat.
Proof.
  intros cs.
  exists (mkDisposable 0 (mkRegisteredList 0 1%nat None)).
  destruct (dispose_keeps_last_focused cs 0%nat
              (mkDisposable 0 (mkRegisteredList 0 1%nat None)) eq_refl)
    as (s' & Hrun & _ & _ & _ & Hlast & Hlater).
  exists s'. split; [reflexivity |]. split; [exact Hrun |].
  split; [injection Hrun as <-; reflexivity |].
  split; [rewrite Hlast; reflexivity |].
  rewrite (Hlater [CallRegister 2%nat None false; CallDispose 1] eq_refl). reflexivity.
Defined.

(** ** Evaluating the handlers of the navigation adapter *)

Lemma bind_ok {S A B} (m : M S A) (k : A -> M S B) (s s' : S) (a : A) :
  m s = Ok a s' -> bind m k s = k a s'.
Proof. intros H. unfold bind. rewrite H. reflexivity. Qed.

Lemma get_truthy {S} (v : JsVal) (name : string) (s : S) :
  truthy v = true -> get v name s = Ok (property v name) s.
Proof. destruct v; simpl; intros H; try discriminate H; reflexivity. Qed.

Lemma falsy_property (v : JsVal) (name : string) :
  truthy v = false -> property v name = JUndefined.
Proof. destruct v; simpl; intros H; try discriminate H; reflexivity. Qed.

Lemma guarded_truthy (p : JsVal) (name : string) :
  truthy (guarded p (property p name)) = truthy (property p name).
Proof.
  unfold guarded. destruct (truthy p) eqn:E; [reflexivity |].
  rewrite (falsy_property p name E). exact E.
Qed.

Lemma eval_guard_get {S} (p : JsVal) (name : string) (s : S) :
  (ret p &&& get p name) s = Ok (guarded p (property p name)) s.
Proof.
  unfold js_and, bind, ret, guarded.
  destruct (truthy p) eqn:E; [apply get_truthy, E | reflexivity].
Qed.

Lemma eval_guard_get_is {S} (p : JsVal) (name lit : string) (s : S) :
  (ret p &&& get_is p name lit) s
  = Ok (guarded p (JBool (strict_eq_str (property p name) lit))) s.
Proof.
  unfold js_and, get_is, bind, ret, guarded.
  destruct (truthy p) eqn:E; [rewrite (get_truthy p name s E) |]; reflexivity.
Qed.

Lemma eval_isDoubleClick {S} (p : JsVal) (s : S) :
  (ret (isMouseEventOf p) &&& ret (originalEventOf p)
     &&& (let* d := get (originalEventOf p) "detail" in ret (JBool (strict_eq_num d 2)))) s
  = Ok (isDoubleClickOf p) s.
Proof.
  unfold js_and, bind, ret, isDoubleClickOf.
  destruct (truthy (isMouseEventOf p)) eqn:Em; cbv beta iota.
  - destruct (truthy (originalEventOf p)) eqn:E; rewrite ?E; [| reflexivity].
    rewrite (get_truthy _ "detail" s E). reflexivity.
  - rewrite Em. reflexivity.
Qed.

Lemma eval_gate (p : JsVal) (n : Navigation) :
  (ret (js_not (isMouseEventOf p))
     ||| gets (fun n => JBool (openOnSingleClick (tree n)))
     ||| ret (isDoubleClickOf p)) n
  = Ok (gateOf (openOnSingleClick (tree n)) p) n.
Proof.
  unfold js_or, bind, ret, gets, gateOf, js_not. simpl.
  destruct (truthy (isMouseEventOf p)); simpl; [| reflexivity].
  destruct (openOnSingleClick (tree n)); reflexivity.
Qed.

Lemma truthy_isMouseEventOf (p : JsVal) : truthy (isMouseEventOf p) = mouseOrigin p.
Proof.
  unfold isMouseEventOf, guarded, mouseOrigin.
  destruct (truthy p) eqn:E; [reflexivity |].
  rewrite (falsy_property p "origin" E). exact E.
Qed.

Lemma originalEventOf_mouse (p : JsVal) :
  mouseOrigin p = true -> originalEventOf p = originatingEvent p.
Proof.
  unfold originalEventOf, guarded, originatingEvent, mouseOrigin.
  destruct (truthy p) eqn:E; [reflexivity |].
  rewrite (falsy_property p "origin" E). discriminate.
Qed.

Lemma isDoubleClickOf_cases (p : JsVal) :
  (doubleClick p = true /\ isDoubleClickOf p = JBool true)
  \/ (doubleClick p = false /\ truthy (isDoubleClickOf p) = false).
Proof.
  unfold isDoubleClickOf, doubleClick. rewrite truthy_isMouseEventOf.
  destruct (mouseOrigin p) eqn:Em; simpl.
  - rewrite (originalEventOf_mouse p Em).
    destruct (truthy (originatingEvent p)) eqn:Eo.
    + destruct (strict_eq_num _ 2); [left | right]; split; reflexivity.
    + right. rewrite (falsy_property _ "detail" Eo). split; [reflexivity | exact Eo].
  - right. split; [reflexivity |]. rewrite truthy_isMouseEventOf. exact Em.
Qed.

Lemma truthy_isDoubleClickOf (p : JsVal) : truthy (isDoubleClickOf p) = doubleClick p.
Proof. destruct (isDoubleClickOf_cases p) as [[-> ->] | [-> ->]]; reflexivity. Qed.

Lemma truthy_gateOf (singleClick : bool) (p : JsVal) :
  truthy (gateOf singleClick p) = openGate singleClick p.
Proof.
  unfold gateOf, openGate. rewrite truthy_isMouseEventOf.
  destruct (mouseOrigin p); simpl; [| reflexivity].
  destruct singleClick; simpl; [reflexivity | apply truthy_isDoubleClickOf].
Qed.

(** ** Focus changes *)

(** A selection-change event that carries the from-focus marker makes
    [onSelection] return at once. *)
Lemma onSelection_fromFocus (p : JsVal) (n : Navigation) :
  carriesFromFocus p = true -> onSelection p n = Ok tt n.
Proof.
  intros Hp. unfold onSelection.
  erewrite bind_ok by apply eval_guard_get.
  rewrite guarded_truthy. unfold carriesFromFocus in Hp. rewrite Hp. reflexivity.
Qed.

Lemma fireEach_fromFocus (p : JsVal) (ls : list SelectionListener) (n : Navigation) :
  carriesFromFocus p = true ->
  exists n', fireEach (runSelectionListener p) ls n = Ok tt n'
    /\ _openResource n' = _openResource n
    /\ selectionChanges n' = selectionChanges n
    /\ defaultPrevented n' = defaultPrevented n
    /\ selection (tree n') = selection (tree n)
    /\ focus (tree n') = focus (tree n)
    /\ openOnSingleClick (tree n') = openOnSingleClick (tree n).
Proof.
  intros Hp. revert n. induction ls as [| l ls IH]; intros n; simpl.
  - exists n. repeat split.
  - destruct l; simpl.
    + destruct (IH (set_tree WorkbenchTree_doubleSelection n)) as (n' & Hrun & H).
      exists n'. split; [exact Hrun | exact H].
    + rewrite (onSelection_fromFocus p n Hp). apply IH.
Qed.

(** C2.  [onFocus] always completes.  It sets the selection of the tree to
    exactly the focused element, and the selection-change event this
    causes carries the from-focus marker; [onSelection] answers every event
    carrying the marker by doing nothing.  On the whole [onFocus] fires
    one open intent, with preserveFocus true, pinned false, revealIfVisible
    true and sideBySide false, when the open gate passes, and none when it
    does not; never two. *)
Theorem onFocus_single_intent (n : Navigation) (p : JsVal) :
  let element := focus (tree n) in
  let intent :=
    mkOpenResourceOptions (mkEditorOptions (JBool true) (JBool false) (JBool true))
      (JBool false) element p in
  (exists n',
     onFocus p n = Ok tt n'
     /\ selection (tree n') = [element]
     /\ selectionChanges n' = selectionChanges n ++ [fromFocusPayload]
     /\ carriesFromFocus fromFocusPayload = true
     /\ _openResource n' =
        _openResource n ++ (if openGate (openOnSingleClick (tree n)) p then [intent] else [])
     /\ defaultPrevented n' = defaultPrevented n)
  /\ (forall (q : JsVal) (m : Navigation),
        carriesFromFocus q = true -> onSelection q m = Ok tt m).
Proof.
  intros element intent. split; [| intros q m; apply onSelection_fromFocus].
  assert (Hmark : carriesFromFocus fromFocusPayload = true) by reflexivity.
  unfold onFocus.
  erewrite bind_ok by reflexivity. fold element.
  rewrite (bind_ok (setSelection [element] fromFocusPayload)) with (a := tt)
    (s' := final_state (setSelection [element] fromFocusPayload n)).
  2: { rewrite setSelection_unfold.
       match goal with |- fireEach ?r ?ls ?s = _ =>
         destruct (fireEach_fromFocus fromFocusPayload ls s Hmark) as (n1 & -> & _)
       end. reflexivity. }
  rewrite setSelection_unfold.
  match goal with |- context [fireEach ?r ?ls ?s] =>
    destruct (fireEach_fromFocus fromFocusPayload ls s Hmark)
      as (n1 & -> & Hopen & Hsel & Hprev & Htree & _ & Hsingle)
  end.
  simpl in Hopen, Hsel, Hprev, Htree, Hsingle. simpl final_state.
  erewrite bind_ok by apply eval_guard_get.
  erewrite bind_ok by apply eval_guard_get_is.
  erewrite bind_ok by apply eval_isDoubleClick.
  erewrite bind_ok by apply eval_gate.
  rewrite truthy_gateOf, Hsingle.
  change (openOnSingleClick (tree n)) with (_openOnSingleClick (tree n)).
  destruct (openGate (_openOnSingleClick (tree n)) p).
  - eexists. split; [reflexivity |]. simpl.
    rewrite Htree, Hsel, Hopen, Hprev. repeat split.
  - eexists. split; [reflexivity |].
    rewrite Htree, Hsel, Hopen, Hprev, app_nil_r. repeat split.
Qed.

(** ** Selection changes *)

Lemma eval_sideBySide {S} (p : JsVal) (s : S) :
  (ret (originalEventOf p)
     &&& (get (originalEventOf p) "ctrlKey" ||| get (originalEventOf p) "metaKey"
            ||| get (originalEventOf p) "altKey")) s
  = Ok (sideBySideOf p) s.
Proof.
  unfold js_and, js_or, bind, ret, sideBySideOf. cbv zeta.
  destruct (truthy (originalEventOf p)) eqn:E; [| reflexivity].
  rewrite !(get_truthy _ _ s E).
  destruct (truthy (property (originalEventOf p) "ctrlKey")) eqn:Ec; cbv beta iota;
    rewrite ?Ec; [reflexivity |].
  rewrite (get_truthy _ _ s E).
  destruct (truthy (property (originalEventOf p) "metaKey")); [reflexivity |].
  apply get_truthy, E.
Qed.

Lemma eval_blocked {S} (p : JsVal) (s : S) :
  ((ret (isFromKeyboardOf p)
      &&& (ret (js_not p) ||| (let* x := get p "preserveFocus" in ret (js_not x))))
     ||| ret (isDoubleClickOf p)
     ||| (ret p &&& get p "focusEditor")) s
  = Ok (blockedOf p) s.
Proof.
  assert (Ha : (ret (isFromKeyboardOf p)
                  &&& (ret (js_not p) ||| (let* x := get p "preserveFocus" in ret (js_not x)))) s
               = Ok (if truthy (isFromKeyboardOf p)
                     then if truthy (js_not p) then js_not p
                          else js_not (property p "preserveFocus")
                     else isFromKeyboardOf p) s).
  { unfold js_and, js_or, bind, ret.
    destruct (truthy (isFromKeyboardOf p)); [| reflexivity].
    destruct (truthy (js_not p)) eqn:E; [reflexivity |].
    unfold js_not in E. simpl in E. apply negb_false_iff in E.
    rewrite (get_truthy p _ s E). reflexivity. }
  set (a := if truthy (isFromKeyboardOf p) then _ else _) in Ha.
  assert (Hb : ((ret (isFromKeyboardOf p)
                   &&& (ret (js_not p) ||| (let* x := get p "preserveFocus" in ret (js_not x))))
                  ||| ret (isDoubleClickOf p)) s
               = Ok (if truthy a then a else isDoubleClickOf p) s).
  { unfold js_or. erewrite bind_ok by exact Ha. destruct (truthy a); reflexivity. }
  unfold js_or at 1. erewrite bind_ok by exact Hb.
  unfold blockedOf. cbv zeta. fold a.
  destruct (truthy a) eqn:Ea; rewrite ?Ea; [reflexivity |].
  destruct (truthy (isDoubleClickOf p)); [reflexivity |].
  apply eval_guard_get.
Qed.

Lemma truthy_isFromKeyboardOf (p : JsVal) : truthy (isFromKeyboardOf p) = keyboardOrigin p.
Proof.
  unfold isFromKeyboardOf, guarded, keyboardOrigin.
  destruct (truthy p) eqn:E; [reflexivity |].
  rewrite (falsy_property p "origin" E). exact E.
Qed.

Lemma keyboardOrigin_truthy (p : JsVal) : keyboardOrigin p = true -> truthy p = true.
Proof.
  unfold keyboardOrigin. destruct (truthy p) eqn:E; [reflexivity |].
  rewrite (falsy_property p "origin" E). discriminate.
Qed.

Lemma truthy_blockedOf (p : JsVal) :
  truthy (blockedOf p)
  = (keyboardOrigin p && negb (preserveFocusInstruction p))
    || doubleClick p || focusEditorInstruction p.
Proof.
  unfold blockedOf. cbv zeta. rewrite truthy_isFromKeyboardOf.
  assert (Ha : truthy (if keyboardOrigin p
                       then if truthy (js_not p) then js_not p
                            else js_not (property p "preserveFocus")
                       else isFromKeyboardOf p)
               = keyboardOrigin p && negb (preserveFocusInstruction p)).
  { destruct (keyboardOrigin p) eqn:Ek; [| rewrite truthy_isFromKeyboardOf; exact Ek].
    unfold js_not. simpl. rewrite (keyboardOrigin_truthy p Ek). reflexivity. }
  set (a := if keyboardOrigin p then _ else _) in *.
  destruct (truthy a) eqn:Et; rewrite <- Ha; [rewrite Et; reflexivity |].
  simpl. rewrite <- truthy_isDoubleClickOf.
  destruct (truthy (isDoubleClickOf p)) eqn:Ed; [exact Ed |].
  simpl. apply guarded_truthy.
Qed.

Lemma sideBySideOf_typed (p : JsVal) :
  originatingEventTyped p = true ->
  (sideBySideOf p = JBool true <-> modifierHeld p = true).
Proof.
  unfold originatingEventTyped, sideBySideOf, modifierHeld, originalEventOf, guarded,
    originatingEvent.
  destruct (truthy p) eqn:Ep.
  - destruct (property p "originalEvent") as [| | | | | e |]; try discriminate; intros _;
      simpl; try (split; discriminate).
    destruct (ctrlKey e), (metaKey e), (altKey e); simpl; split; auto; discriminate.
  - intros _. rewrite Ep, (falsy_property p _ Ep). simpl.
    split; [| discriminate]. intros ->. discriminate Ep.
Qed.

Lemma eval_preventDefault (p : JsVal) (n : Navigation) :
  originatingEventTyped p = true ->
  (let* c := ret (isDoubleClickOf p) &&& ret (originalEventOf p) in
   if truthy c then preventDefault (originalEventOf p) else ret tt) n
  = Ok tt (mkNavigation (tree n) (_openResource n) (selectionChanges n)
             (defaultPrevented n ++
                (if doubleClick p
                 then match originatingEvent p with JEvent e => [e] | _ => [] end
                 else []))).
Proof.
  intros Ht. unfold js_and, bind, ret.
  destruct (isDoubleClickOf_cases p) as [[Hd Hv] | [Hd Hv]]; rewrite Hd.
  - rewrite Hv. simpl.
    unfold doubleClick in Hd. apply andb_true_iff in Hd as [Hm Hdetail].
    rewrite (originalEventOf_mouse p Hm).
    unfold originatingEventTyped in Ht.
    destruct (originatingEvent p); try discriminate; reflexivity.
  - rewrite Hv. cbv beta iota. rewrite Hv. rewrite app_nil_r. destruct n; reflexivity.
Qed.

(** C1, as amended.  A selection-change event whose originating event,
    when the payload has one, is a DOM event as its declared type
    [KeyboardEvent | MouseEvent] says, whose payload does not carry the
    from-focus marker and passes the open gate, makes [onSelection] fire
    exactly one open intent.  Its pinned flag is true exactly for a mouse
    double-click, and then [preventDefault] is called on the originating
    event (and on nothing otherwise); its sideBySide flag is true exactly
    when ctrl, cmd/meta or alt was held on the originating event; its
    preserveFocus flag is false when the event came from the keyboard
    without a preserve-focus instruction, or was a double-click, or came
    with a focus-editor instruction, and true otherwise; its element is
    the first selected element of the tree. *)
Theorem onSelection_open_intent (n : Navigation) (p : JsVal) :
  originatingEventTyped p = true ->
  carriesFromFocus p = false ->
  openGate (openOnSingleClick (tree n)) p = true ->
  exists intent : IOpenResourceOptions,
    onSelection p n
    = Ok tt (mkNavigation (tree n) (_openResource n ++ [intent]) (selectionChanges n)
               (defaultPrevented n ++
                  (if doubleClick p
                   then match originatingEvent p with JEvent e => [e] | _ => [] end
                   else [])))
    /\ (pinned (editorOptions intent) = JBool true <-> doubleClick p = true)
    /\ (doubleClick p = true -> exists e, originatingEvent p = JEvent e)
    /\ (sideBySide intent = JBool true <-> modifierHeld p = true)
    /\ preserveFocus (editorOptions intent)
       = JBool (negb ((keyboardOrigin p && negb (preserveFocusInstruction p))
                      || doubleClick p || focusEditorInstruction p))
    /\ revealIfVisible (editorOptions intent) = JBool true
    /\ element intent = default JUndefined (head (selection (tree n)))
    /\ payload intent = p.
Proof.
  intros Htyped Hmark Hgate.
  unfold onSelection.
  erewrite bind_ok by apply eval_guard_get.
  rewrite guarded_truthy. fold (carriesFromFocus p). rewrite Hmark.
  erewrite bind_ok by apply eval_guard_get.
  erewrite bind_ok by apply eval_guard_get_is.
  erewrite bind_ok by apply eval_isDoubleClick.
  erewrite bind_ok by apply eval_gate.
  rewrite truthy_gateOf, Hgate.
  erewrite bind_ok by (apply eval_preventDefault; exact Htyped).
  erewrite bind_ok by apply eval_guard_get_is.
  erewrite bind_ok by apply eval_sideBySide.
  erewrite bind_ok by apply eval_blocked.
  erewrite bind_ok by reflexivity.
  eexists. split; [reflexivity |]. simpl.
  split; [| split; [| split; [| split]]].
  - destruct (isDoubleClickOf_cases p) as [[-> ->] | [-> Hv]]; [tauto |].
    split; [| discriminate]. intros Heq. rewrite Heq in Hv. discriminate Hv.
  - intros Hd. unfold doubleClick in Hd. apply andb_true_iff in Hd as [_ Hd].
    unfold originatingEventTyped in Htyped.
    destruct (originatingEvent p); try discriminate; eauto.
  - apply sideBySideOf_typed, Htyped.
  - unfold js_not. rewrite truthy_blockedOf. reflexivity.
  - repeat split.
Qed.

Lemma onSelection_open_intent_witness :
  exists intent : IOpenResourceOptions,
    onSelection doubleClickPayload sampleNavigation
    = Ok tt (mkNavigation (tree sampleNavigation) [intent] []
               [mkDomEvent 7 MouseEventC 2 true false false])
    /\ pinned (editorOptions intent) = JBool true
    /\ sideBySide intent = JBool true
    /\ preserveFocus (editorOptions intent) = JBool false
    /\ element intent = JStr "a.ts".
Proof.
  assert (Htyped : originatingEventTyped doubleClickPayload = true) by (vm_compute; reflexivity).
  assert (Hmark : carriesFromFocus doubleClickPayload = false) by (vm_compute; reflexivity).
  assert (Hgate : openGate (openOnSingleClick (tree sampleNavigation)) doubleClickPayload = true)
    by (vm_compute; reflexivity).
  destruct (onSelection_open_intent sampleNavigation doubleClickPayload Htyped Hmark Hgate)
    as (intent & Hrun & Hpinned & _ & Hside & Hpreserve & _ & Helement & _).
  exists intent.
  split; [exact Hrun |].
  split; [apply Hpinned; vm_compute; reflexivity |].
  split; [apply Hside; vm_compute; reflexivity |].
  split; [rewrite Hpreserve; vm_compute; reflexivity |].
  rewrite Helement. reflexivity.
Defined.

(** C1 as stated fails when the originating event is not a DOM event.  The
    payload of the scenario, taken as the object literal it is written as,
    carries no from-focus marker and passes the open gate, and
    [onSelection] fires nothing on it: the call of [preventDefault]
    throws. *)
Lemma onSelection_plain_object_scenario :
  let p :=
    JObj (<[ "origin" := JStr "mouse" ]>
          {[ "originalEvent" := JObj (<[ "detail" := JNum 2 ]> {[ "ctrlKey" := JBool true ]}) ]}) in
  carriesFromFocus p = false
  /\ openGate (openOnSingleClick (tree sampleNavigation)) p = true
  /\ onSelection p sampleNavigation = Throw TypeError sampleNavigation
  /\ _openResource (final_state (onSelection p sampleNavigation)) = [].
Proof. vm_compute. repeat split. Qed.

(** * Further properties *)

(** ** The focus registry, continued *)

Lemma step_register_throws (s : ListService) (ds : list IDisposable) (w : ListWidget)
    (extra : option (list string)) (f : bool) :
  w ∈ registered s -> step (s, ds) (CallRegister w extra f) = (s, ds).
Proof. intros Hin. simpl. rewrite register_throws by exact Hin. reflexivity. Qed.

Lemma step_register_completes (s : ListService) (ds : list IDisposable) (w : ListWidget)
    (extra : option (list string)) (f : bool) :
  w ∉ registered s ->
  step (s, ds) (CallRegister w extra f)
  = (mkListService (lists s ++ [mkRegisteredList (nextRef s) w extra])
       (if f then Some w else _lastFocusedWidget s)
       (focusListeners s ++ [(nextRef s, w)])
       (S (nextRef s)),
     ds ++ [mkDisposable (nextRef s) (mkRegisteredList (nextRef s) w extra)]).
Proof. intros Hin. simpl. rewrite register_completes by exact Hin. reflexivity. Qed.

Lemma step_dispose (s : ListService) (ds : list IDisposable) (k : nat) (d : IDisposable) :
  ds !! k = Some d ->
  step (s, ds) (CallDispose k)
  = (mkListService
       (splice (lists s) (indexOf (lists s) (d_registeredList d)) 1)
       (_lastFocusedWidget s)
       (filter (fun l => l.1 ≠ d_listener d) (focusListeners s))
       (nextRef s),
     ds).
Proof. intros Hk. simpl. rewrite Hk. reflexivity. Qed.

Lemma step_dispose_none (s : ListService) (ds : list IDisposable) (k : nat) :
  ds !! k = None -> step (s, ds) (CallDispose k) = (s, ds).
Proof. intros Hk. simpl. rewrite Hk. reflexivity. Qed.

Lemma step_focus (s : ListService) (ds : list IDisposable) (w : ListWidget) :
  exists s', step (s, ds) (FocusGained w) = (s', ds)
    /\ lists s' = lists s /\ focusListeners s' = focusListeners s /\ nextRef s' = nextRef s
    /\ ((exists r, (r, w) ∈ focusListeners s) -> _lastFocusedWidget s' = Some w)
    /\ ((forall r, (r, w) ∉ focusListeners s) -> _lastFocusedWidget s' = _lastFocusedWidget s).
Proof.
  destruct (fireDidFocus_completes w s) as (s' & Hrun & H).
  exists s'. split; [| exact H].
  change (step (s, ds) (FocusGained w)) with (final_state (fireDidFocus w s), ds).
  rewrite Hrun. reflexivity.
Qed.

(** References handed out are older than the next one. *)
Lemma refs_fresh_run (cs : list Call) :
  (forall l, l ∈ focusListeners (run cs).1 -> (l.1 < nextRef (run cs).1)%nat)
  /\ (forall d, d ∈ (run cs).2 -> (d_listener d < nextRef (run cs).1)%nat).
Proof.
  induction cs as [| c cs [IHl IHd]] using rev_ind.
  - split; intros x Hx; inversion Hx.
  - rewrite run_snoc. destruct (run cs) as [s ds]. simpl in IHl, IHd.
    destruct c as [w extra f | k | w].
    + destruct (decide (w ∈ registered s)) as [Hin | Hin].
      * rewrite step_register_throws by exact Hin. split; assumption.
      * rewrite step_register_completes by exact Hin. simpl. split.
        -- intros l [Hl | ->%list_elem_of_singleton]%elem_of_app; [| simpl; lia].
           apply IHl in Hl. lia.
        -- intros d [Hd | ->%list_elem_of_singleton]%elem_of_app; [| simpl; lia].
           apply IHd in Hd. lia.
    + destruct (ds !! k) as [d |] eqn:Ek.
      * rewrite (step_dispose s ds k d Ek). simpl. split; [| exact IHd].
        intros l [_ Hl]%list_elem_of_filter. apply IHl, Hl.
      * rewrite step_dispose_none by exact Ek. split; assumption.
    + destruct (step_focus s ds w) as (s' & -> & _ & Hfl & Hn & _). simpl.
      rewrite Hfl, Hn. split; assumption.
Qed.

Lemma indexOf_snoc (l : list IRegisteredList) (e : IRegisteredList) :
  entry_ref e ∉ entry_ref <$> l -> indexOf (l ++ [e]) e = Z.of_nat (length l).
Proof.
  intros Hnot.
  destruct (indexOf_cases (l ++ [e]) e) as [[_ Habs] | (i & y & -> & Hi & Hy)].
  - destruct Habs. rewrite fmap_app. apply elem_of_app. right.
    apply list_elem_of_singleton. reflexivity.
  - f_equal. destruct (decide (i < length l)%nat) as [Hlt | Hge].
    + rewrite lookup_app_l in Hi by exact Hlt.
      destruct Hnot. rewrite <- Hy. apply list_elem_of_fmap_2.
      eapply list_elem_of_lookup_2, Hi.
    + apply lookup_lt_Some in Hi. rewrite length_app in Hi. simpl in Hi. lia.
Qed.

Lemma filter_all {A} (P : A -> Prop) `{!forall x, Decision (P x)} (l : list A) :
  (forall x, x ∈ l -> P x) -> filter P l = l.
Proof.
  induction l as [| x l IH]; intros Hall; [reflexivity |].
  rewrite filter_cons_True by (apply Hall; left).
  f_equal. apply IH. intros y Hy. apply Hall. right. exact Hy.
Qed.

(** X1.  After any calls, registering a widget that is not registered and
    invoking the disposable it returns right away gives the entries and
    the focus subscriptions back as they were; the widget is then not
    registered and can be registered again. *)
Theorem register_dispose_round_trip (cs : list Call) (w : ListWidget)
    (extra : option (list string)) (isDOMFocused : bool) :
  w ∉ registered (run cs).1 ->
  exists d s1 s2,
    register w extra isDOMFocused (run cs).1 = Ok d s1
    /\ dispose d s1 = Ok tt s2
    /\ lists s2 = lists (run cs).1
    /\ focusListeners s2 = focusListeners (run cs).1
    /\ exists d' s3, register w extra isDOMFocused s2 = Ok d' s3.
Proof.
  intros Hnot. set (s := (run cs).1) in *.
  pose proof (registry_inv_run cs) as [_ _ Hf _ _]. fold s in Hf.
  destruct (refs_fresh_run cs) as [Hl _]. fold s in Hl.
  rewrite register_completes by exact Hnot.
  eexists _, _, _. split; [reflexivity |]. split; [apply dispose_completes |]. simpl.
  assert (Hfresh : entry_ref (mkRegisteredList (nextRef s) w extra) ∉ entry_ref <$> lists s).
  { simpl. intros (e & He & Hin)%list_elem_of_fmap. apply Hf in Hin. lia. }
  assert (Hlists : splice (lists s ++ [mkRegisteredList (nextRef s) w extra])
                     (indexOf (lists s ++ [mkRegisteredList (nextRef s) w extra])
                        (mkRegisteredList (nextRef s) w extra)) 1 = lists s).
  { rewrite indexOf_snoc by exact Hfresh.
    rewrite splice_at by (rewrite length_app; simpl; lia).
    rewrite delete_middle. apply app_nil_r. }
  split; [exact Hlists |]. split.
  - rewrite filter_app, filter_all.
    + rewrite filter_cons_False by (simpl; intros H; apply H; reflexivity).
      apply app_nil_r.
    + intros l Hin. apply Hl in Hin. simpl. lia.
  - eexists _, _. apply register_completes. unfold registered. simpl.
    rewrite Hlists. exact Hnot.
Qed.

Lemma register_dispose_round_trip_witness :
  exists d s1 s2,
    register 3%nat None true (run sampleCalls).1 = Ok d s1
    /\ dispose d s1 = Ok tt s2
    /\ lists s2 = lists (run sampleCalls).1
    /\ focusListeners s2 = focusListeners (run sampleCalls).1.
Proof.
  destruct (register_dispose_round_trip sampleCalls 3%nat None true)
    as (d & s1 & s2 & H1 & H2 & H3 & H4 & _).
  - vm_compute. intros Hin. apply list_elem_of_In in Hin. simpl in Hin.
    repeat destruct Hin as [Hin | Hin]; try discriminate Hin; exact Hin.
  - exists d, s1, s2. auto.
Defined.

Lemma NoDup_delete_elem {A} (l : list A) (i : nat) (x y : A) :
  NoDup l -> l !! i = Some x -> (y ∈ delete i l <-> y ∈ l /\ y <> x).
Proof.
  intros Hl. revert i. induction Hl as [| z l Hz Hl IH]; intros i Hi; [done |].
  destruct i as [| i]; simpl in *.
  - injection Hi as ->. split.
    + intros Hy. split; [right; exact Hy | intros ->; contradiction].
    + intros [[-> | Hy]%elem_of_cons Hne]; [contradiction | exact Hy].
  - rewrite !elem_of_cons, (IH i Hi). split.
    + intros [-> | [Hy Hne]]; [| tauto].
      split; [left; reflexivity |]. intros ->. apply Hz.
      eapply list_elem_of_lookup_2, Hi.
    + intros [[-> | Hy] Hne]; [left; reflexivity | right; tauto].
Qed.

(** The entry of a disposable that is still in [lists] sits where
    [indexOf] finds it, and the splice deletes exactly that place. *)
Lemma splice_live_entry (l : list IRegisteredList) (x : IRegisteredList) :
  entry_ref x ∈ entry_ref <$> l ->
  exists i y, l !! i = Some y /\ entry_ref y = entry_ref x
              /\ splice l (indexOf l x) 1 = delete i l.
Proof.
  intros Hin. destruct (indexOf_cases l x) as [[_ Hnot] | (i & y & Hidx & Hi & Hy)].
  - contradiction.
  - exists i, y. split; [exact Hi |]. split; [exact Hy |].
    rewrite Hidx. apply splice_at. eapply lookup_lt_Some, Hi.
Qed.

(** X2.  Invoking a disposable whose entry is in the registry takes out
    that widget and no other: every other widget is registered afterwards
    exactly when it was before, and the order of the entries is kept. *)
Theorem dispose_leaves_others (cs : list Call) (k : nat) (d : IDisposable) :
  (run cs).2 !! k = Some d ->
  d_registeredList d ∈ lists (run cs).1 ->
  exists s',
    dispose d (run cs).1 = Ok tt s'
    /\ lists s' `sublist_of` lists (run cs).1
    /\ length (lists s') = (length (lists (run cs).1) - 1)%nat
    /\ forall w, w ∈ registered s' <->
                 w ∈ registered (run cs).1 /\ w <> widget (d_registeredList d).
Proof.
  intros Hk Hin. set (s := (run cs).1) in *.
  pose proof (registry_inv_run cs) as [Hw Hr _ _ _]. fold s in Hw, Hr.
  eexists. split; [apply dispose_completes |]. simpl.
  split; [apply splice_sublist |].
  destruct (splice_live_entry (lists s) (d_registeredList d)) as (i & y & Hi & Hy & ->).
  { apply list_elem_of_fmap_2, Hin. }
  split.
  { rewrite length_delete by (rewrite Hi; eauto). reflexivity. }
  assert (y = d_registeredList d) as ->.
  { apply list_elem_of_lookup in Hin as [j Hj].
    assert (i = j) as ->; [| congruence].
    eapply (NoDup_lookup _ _ _ _ Hr); rewrite list_lookup_fmap.
    - rewrite Hi. simpl. reflexivity.
    - rewrite Hj. simpl. congruence. }
  intros w. unfold registered. simpl. rewrite list_fmap_delete.
  apply NoDup_delete_elem; [exact Hw |].
  rewrite list_lookup_fmap, Hi. reflexivity.
Qed.

(** Widgets 1, 2 and 3 are registered; the disposable of widget 2 is
    invoked. *)
Lemma dispose_leaves_others_witness :
  let cs := [CallRegister 1%nat None false; CallRegister 2%nat None false;
             CallRegister 3%nat None false] in
  exists d s',
    (run cs).2 !! 1%nat = Some d
    /\ dispose d (run cs).1 = Ok tt s'
    /\ registered s' = [1%nat; 3%nat].
Proof.
  intros cs.
  exists (mkDisposable 1 (mkRegisteredList 1 2%nat None)).
  destruct (dispose_leaves_others cs 1%nat (mkDisposable 1 (mkRegisteredList 1 2%nat None))
              eq_refl) as (s' & Hrun & _ & _ & _).
  - vm_compute. apply list_elem_of_In. simpl. tauto.
  - exists s'. split; [reflexivity |]. split; [exact Hrun |].
    injection Hrun as <-. reflexivity.
Defined.

(** X3.  Invoking a disposable whose entry is no longer in the registry
    (it has been invoked before) takes the last entry of the registry
    away instead, whichever widget it belongs to.  The focus listener of
    that widget stays subscribed, so the widget, though no longer
    registered, still becomes the last-focused widget when it gains
    focus. *)
Theorem dispose_again_removes_last (cs : list Call) (k : nat) (d : IDisposable)
    (l : list IRegisteredList) (e : IRegisteredList) :
  (run cs).2 !! k = Some d ->
  entry_ref (d_registeredList d) ∉ entry_ref <$> lists (run cs).1 ->
  lists (run cs).1 = l ++ [e] ->
  exists s',
    dispose d (run cs).1 = Ok tt s'
    /\ lists s' = l
    /\ (widget e ∉ registered s')
    /\ (entry_ref e, widget e) ∈ focusListeners s'
    /\ exists s'', fireDidFocus (widget e) s' = Ok tt s''
                   /\ lastFocusedList s'' = Some (widget e).
Proof.
  intros Hk Hnot Hlists. set (s := (run cs).1) in *.
  pose proof (registry_inv_run cs) as [Hw _ _ Hl Hi]. fold s in Hw, Hl.
  assert (Hd : d ∈ (run cs).2) by (eapply list_elem_of_lookup_2, Hk).
  apply Hi in Hd.
  eexists. split; [apply dispose_completes |]. simpl.
  assert (Hsplice : splice (lists s) (indexOf (lists s) (d_registeredList d)) 1 = l).
  { destruct (indexOf_cases (lists s) (d_registeredList d))
      as [[-> _] | (i & y & _ & Hy & Href)].
    - rewrite splice_minus_one, Hlists, length_app. simpl.
      replace (length l + 1 - 1)%nat with (length l) by lia.
      apply take_app_length.
    - destruct Hnot. rewrite <- Href. apply list_elem_of_fmap_2.
      eapply list_elem_of_lookup_2, Hy. }
  assert (Hlistening : (entry_ref e, widget e)
                       ∈ filter (fun x : FocusListener => x.1 ≠ d_listener d) (focusListeners s)).
  { apply list_elem_of_filter. split.
    - simpl. rewrite Hd. intros Heq. apply Hnot. rewrite <- Heq.
      apply list_elem_of_fmap_2. rewrite Hlists. apply elem_of_app. right.
      apply list_elem_of_singleton. reflexivity.
    - apply Hl. rewrite Hlists. apply elem_of_app. right.
      apply list_elem_of_singleton. reflexivity. }
  split; [exact Hsplice |]. split; [| split; [exact Hlistening |]].
  - unfold registered in *. simpl. rewrite Hsplice.
    rewrite Hlists, fmap_app in Hw. apply NoDup_app in Hw as (_ & Hdisj & _).
    intros Hin. apply (Hdisj _ Hin). simpl. apply list_elem_of_singleton. reflexivity.
  - match goal with |- context [fireDidFocus ?w ?st] =>
      destruct (fireDidFocus_completes w st) as (s'' & Hrun & _ & _ & _ & Hlast & _)
    end.
    exists s''. split; [exact Hrun |]. apply Hlast. eexists. exact Hlistening.
Qed.

(** Widgets 1 and 2 are registered and the disposable of widget 1 is
    invoked; invoking it once more unregisters widget 2. *)
Lemma dispose_again_removes_last_witness :
  let cs := [CallRegister 1%nat None false; CallRegister 2%nat None false; CallDispose 0] in
  registered (run cs).1 = [2%nat]
  /\ exists d s',
       (run cs).2 !! 0%nat = Some d
       /\ dispose d (run cs).1 = Ok tt s'
       /\ registered s' = []
       /\ exists s'', fireDidFocus 2%nat s' = Ok tt s'' /\ lastFocusedList s'' = Some 2%nat.
Proof.
  intros cs. split; [reflexivity |].
  exists (mkDisposable 0 (mkRegisteredList 0 1%nat None)).
  destruct (dispose_again_removes_last cs 0%nat (mkDisposable 0 (mkRegisteredList 0 1%nat None))
              [] (mkRegisteredList 1 2%nat None) eq_refl)
    as (s' & Hrun & Hlists & _ & _ & Hfocus).
  - vm_compute. intros Hin. apply list_elem_of_In in Hin. simpl in Hin.
    repeat destruct Hin as [Hin | Hin]; try discriminate Hin; exact Hin.
  - reflexivity.
  - exists s'. split; [reflexivity |]. split; [exact Hrun |].
    split; [unfold registered; rewrite Hlists; reflexivity |]. exact Hfocus.
Defined.

(** X4.  The last-focused widget, when there is one, has been registered
    by some earlier call, and some earlier call made it gain focus: a
    focus-gained event of that widget, or a registration at which it
    reported DOM focus.  So [lastFocusedList] is undefined as long as no
    widget has gained focus, and never names a widget the service has not
    been given. *)
Theorem last_focused_provenance (cs : list Call) (w : ListWidget) :
  lastFocusedList (run cs).1 = Some w ->
  (exists extra f, CallRegister w extra f ∈ cs)
  /\ (FocusGained w ∈ cs \/ exists extra, CallRegister w extra true ∈ cs).
Proof.
  assert (Hinv : (forall l, l ∈ focusListeners (run cs).1 ->
                            exists extra f, CallRegister l.2 extra f ∈ cs)
                 /\ forall w, lastFocusedList (run cs).1 = Some w ->
                      (exists extra f, CallRegister w extra f ∈ cs)
                      /\ (FocusGained w ∈ cs \/ exists extra, CallRegister w extra true ∈ cs)).
  { clear w. induction cs as [| c cs [IHl IHw]] using rev_ind.
    - split; [intros l Hl; inversion Hl | intros w Hw; discriminate Hw].
    - assert (Hmono1 : forall v, (exists extra f, CallRegister v extra f ∈ cs) ->
                                 exists extra f, CallRegister v extra f ∈ cs ++ [c]).
      { intros v (extra & f & H). exists extra, f. apply elem_of_app. left. exact H. }
      assert (Hmono2 : forall v,
                 (FocusGained v ∈ cs \/ exists extra, CallRegister v extra true ∈ cs) ->
                 FocusGained v ∈ cs ++ [c] \/ exists extra, CallRegister v extra true ∈ cs ++ [c]).
      { intros v [H | (extra & H)]; [left | right; exists extra]; apply elem_of_app; left; exact H. }
      rewrite run_snoc. destruct (run cs) as [s ds]. simpl in IHl, IHw.
      destruct c as [v extra f | k | v].
      + destruct (decide (v ∈ registered s)) as [Hin | Hin].
        * rewrite step_register_throws by exact Hin. simpl. split.
          -- intros l Hl. apply Hmono1, IHl, Hl.
          -- intros w Hw. destruct (IHw w Hw). split; [apply Hmono1 | apply Hmono2]; assumption.
        * rewrite step_register_completes by exact Hin. simpl.
          assert (Hnew : CallRegister v extra f ∈ cs ++ [CallRegister v extra f]).
          { apply elem_of_app. right. apply list_elem_of_singleton. reflexivity. }
          split.
          -- intros l [Hl | ->%list_elem_of_singleton]%elem_of_app;
               [apply Hmono1, IHl, Hl | simpl; eauto].
          -- intros w Hw. unfold lastFocusedList in Hw. simpl in Hw. destruct f.
             ++ injection Hw as <-. split; [eauto | right; eauto].
             ++ destruct (IHw w Hw). split; [apply Hmono1 | apply Hmono2]; assumption.
      + destruct (ds !! k) as [d |] eqn:Ek.
        * rewrite (step_dispose s ds k d Ek). simpl. split.
          -- intros l [_ Hl]%list_elem_of_filter. apply Hmono1, IHl, Hl.
          -- intros w Hw. destruct (IHw w Hw). split; [apply Hmono1 | apply Hmono2]; assumption.
        * rewrite step_dispose_none by exact Ek. simpl. split.
          -- intros l Hl. apply Hmono1, IHl, Hl.
          -- intros w Hw. destruct (IHw w Hw). split; [apply Hmono1 | apply Hmono2]; assumption.
      + destruct (step_focus s ds v) as (s' & -> & _ & Hfl & _ & Hyes & Hno). simpl.
        rewrite Hfl. split; [intros l Hl; apply Hmono1, IHl, Hl |].
        intros w Hw. unfold lastFocusedList in Hw.
        destruct (decide (v ∈ (focusListeners s).*2)) as [Hex | Hnex].
        * apply list_elem_of_fmap in Hex as ([r v'] & Hv & Hr). simpl in Hv. subst v'.
          rewrite Hyes in Hw by eauto. injection Hw as <-. split.
          -- apply Hmono1. apply (IHl _ Hr).
          -- left. apply elem_of_app. right. apply list_elem_of_singleton. reflexivity.
        * rewrite Hno in Hw
            by (intros r Hr; apply Hnex; apply (list_elem_of_fmap_2 snd _ _ Hr)).
          destruct (IHw w Hw). split; [apply Hmono1 | apply Hmono2]; assumption. }
  apply Hinv.
Qed.

Lemma last_focused_provenance_witness :
  lastFocusedList (run sampleCalls).1 = Some 1%nat
  /\ (exists extra f, CallRegister 1%nat extra f ∈ sampleCalls)
  /\ (FocusGained 1%nat ∈ sampleCalls \/ exists extra, CallRegister 1%nat extra true ∈ sampleCalls).
Proof.
  split; [reflexivity |].
  apply (last_focused_provenance sampleCalls 1%nat). reflexivity.
Defined.

Lemma disposed_indexes_snoc (cs : list Call) (c : Call) :
  disposed_indexes (cs ++ [c])
  = disposed_indexes cs ++ match c with CallDispose k => [k] | _ => [] end.
Proof. unfold disposed_indexes. rewrite omap_app. destruct c; reflexivity. Qed.

Lemma elem_of_delete_other {A} (l : list A) (i : nat) (x y : A) :
  l !! i = Some y -> x ∈ l -> x <> y -> x ∈ delete i l.
Proof.
  revert i. induction l as [| z l IH]; intros i Hi Hx Hne; [inversion Hx |].
  destruct i as [| i]; simpl in *.
  - injection Hi as ->. apply elem_of_cons in Hx as [-> | Hx]; [contradiction | exact Hx].
  - apply elem_of_cons in Hx as [-> | Hx]; [left | right; eauto].
Qed.

(** When no disposable is invoked twice: every subscribed focus listener
    belongs to an entry of the registry, the listener of a disposable that
    has not been invoked is subscribed, and disposables differ in their
    listeners. *)
Lemma disciplined_run (cs : list Call) :
  NoDup (disposed_indexes cs) ->
  (forall l, l ∈ focusListeners (run cs).1 ->
             exists e, e ∈ lists (run cs).1 /\ entry_ref e = l.1 /\ widget e = l.2)
  /\ (forall k d, (run cs).2 !! k = Some d -> k ∉ disposed_indexes cs ->
                  (d_listener d, widget (d_registeredList d)) ∈ focusListeners (run cs).1)
  /\ (forall k k' d d', (run cs).2 !! k = Some d -> (run cs).2 !! k' = Some d' ->
                        d_listener d = d_listener d' -> k = k').
Proof.
  induction cs as [| c cs IH] using rev_ind.
  - intros _. split; [intros l Hl; inversion Hl |]. split; intros k; intros; discriminate.
  - rewrite disposed_indexes_snoc. intros Hnodup.
    apply NoDup_app in Hnodup as (Hnodup & Hdisj & _).
    destruct (IH Hnodup) as (Hb & Hc & He). clear IH.
    pose proof (registry_inv_run cs) as [_ Hr Hf _ Hi].
    destruct (refs_fresh_run cs) as [_ Hdf].
    rewrite run_snoc. destruct (run cs) as [s ds]. simpl in Hb, Hc, He, Hr, Hf, Hi, Hdf.
    destruct c as [v extra f | k | v].
    + rewrite app_nil_r.
      destruct (decide (v ∈ registered s)) as [Hin | Hin].
      * rewrite step_register_throws by exact Hin. auto.
      * rewrite step_register_completes by exact Hin. simpl. split; [| split].
        -- intros l [Hl | ->%list_elem_of_singleton]%elem_of_app.
           ++ destruct (Hb l Hl) as (e & He1 & He2). exists e.
              split; [apply elem_of_app; left; exact He1 | exact He2].
           ++ eexists. split; [apply elem_of_app; right; apply list_elem_of_singleton;
                               reflexivity | split; reflexivity].
        -- intros k d Hk Hnot. apply elem_of_app.
           apply lookup_snoc_Some in Hk as [[Hlt Hk] | [_ <-]].
           ++ left. apply (Hc k d Hk Hnot).
           ++ right. apply list_elem_of_singleton. reflexivity.
        -- intros k k' d d' Hk Hk' Heq.
           apply lookup_snoc_Some in Hk as [[Hlt Hk] | [-> <-]];
             apply lookup_snoc_Some in Hk' as [[Hlt' Hk'] | [-> <-]].
           ++ apply (He k k' d d' Hk Hk' Heq).
           ++ simpl in Heq. assert (Hd : d ∈ ds) by (eapply list_elem_of_lookup_2, Hk).
              apply Hdf in Hd. lia.
           ++ simpl in Heq. assert (Hd : d' ∈ ds) by (eapply list_elem_of_lookup_2, Hk').
              apply Hdf in Hd. lia.
           ++ reflexivity.
    + destruct (ds !! k) as [d |] eqn:Ek.
      * rewrite (step_dispose s ds k d Ek). simpl.
        assert (Hkfresh : k ∉ disposed_indexes cs).
        { intros Hin. apply (Hdisj k Hin). apply list_elem_of_singleton. reflexivity. }
        pose proof (Hc k d Ek Hkfresh) as Hlive.
        destruct (Hb _ Hlive) as (e & He1 & He2 & He3). simpl in He2, He3.
        assert (Hd : d ∈ ds) by (eapply list_elem_of_lookup_2, Ek).
        pose proof (Hi d Hd) as Hdl.
        destruct (splice_live_entry (lists s) (d_registeredList d)) as (i & y & Hy & Hyref & ->).
        { rewrite <- Hdl, <- He2. apply list_elem_of_fmap_2, He1. }
        split; [| split].
        -- intros l [Hne Hl]%list_elem_of_filter.
           destruct (Hb l Hl) as (e' & He'1 & He'2 & He'3). exists e'.
           split; [| split; assumption].
           eapply elem_of_delete_other; [exact Hy | exact He'1 |].
           intros ->. apply Hne. congruence.
        -- intros k' d' Hk' Hnot. apply list_elem_of_filter.
           assert (Hkk : k' <> k).
           { intros ->. apply Hnot. apply elem_of_app. right.
             apply list_elem_of_singleton. reflexivity. }
           split.
           ++ simpl. intros Heq. apply Hkk. apply (He k' k d' d Hk' Ek Heq).
           ++ apply (Hc k' d' Hk'). intros Hin. apply Hnot. apply elem_of_app. left. exact Hin.
        -- exact He.
      * rewrite step_dispose_none by exact Ek. simpl. split; [exact Hb |]. split; [| exact He].
        intros k' d' Hk' Hnot. apply (Hc k' d' Hk').
        intros Hin. apply Hnot. apply elem_of_app. left. exact Hin.
    + rewrite app_nil_r.
      destruct (step_focus s ds v) as (s' & -> & Hl & Hfl & _). simpl.
      rewrite Hl, Hfl. auto.
Qed.

(** X5.  As long as no disposable is invoked twice, the widgets in the
    registry are exactly the widgets with a focus listener subscribed; a
    focus-gained event of a widget that is not registered then changes
    nothing. *)
Theorem disposed_once_registry_matches_listeners (cs : list Call) (w : ListWidget) :
  NoDup (disposed_indexes cs) ->
  (w ∈ registered (run cs).1 <-> exists r, (r, w) ∈ focusListeners (run cs).1)
  /\ (w ∉ registered (run cs).1 ->
      exists s', fireDidFocus w (run cs).1 = Ok tt s'
                 /\ lastFocusedList s' = lastFocusedList (run cs).1
                 /\ lists s' = lists (run cs).1).
Proof.
  intros Hnodup. destruct (disciplined_run cs Hnodup) as (Hb & _ & _).
  pose proof (registry_inv_run cs) as [_ _ _ Hl _].
  assert (Hiff : w ∈ registered (run cs).1 <-> exists r, (r, w) ∈ focusListeners (run cs).1).
  { split.
    - intros (e & -> & He)%list_elem_of_fmap. exists (entry_ref e). apply Hl, He.
    - intros (r & Hr). destruct (Hb _ Hr) as (e & He & _ & Hw). simpl in Hw. subst w.
      apply list_elem_of_fmap_2, He. }
  split; [exact Hiff |].
  intros Hnot.
  destruct (fireDidFocus_completes w (run cs).1) as (s' & Hrun & Hlists & _ & _ & _ & Hsame).
  exists s'. split; [exact Hrun |]. split; [| exact Hlists].
  apply Hsame. intros r Hr. apply Hnot, Hiff. eauto.
Qed.

Lemma disposed_once_registry_matches_listeners_witness :
  let cs := [CallRegister 1%nat None true; CallRegister 2%nat None false; CallDispose 1] in
  registered (run cs).1 = [1%nat]
  /\ exists s', fireDidFocus 2%nat (run cs).1 = Ok tt s'
                /\ lastFocusedList s' = Some 1%nat.
Proof.
  intros cs. split; [reflexivity |].
  destruct (disposed_once_registry_matches_listeners cs 2%nat) as [_ H].
  - vm_compute. apply NoDup_singleton.
  - destruct H as (s' & Hrun & Hlast & _).
    + vm_compute. intros Hin. apply list_elem_of_In in Hin. simpl in Hin.
      repeat destruct Hin as [Hin | Hin]; try discriminate Hin; exact Hin.
    + exists s'. split; [exact Hrun |]. rewrite Hlast. reflexivity.
Defined.

(** ** Cached policies under configuration changes *)

Lemma reports_useAlt (old new : IConfigurationService) (e : IConfigurationChangeEvent) :
  reports old new e ->
  affectsConfiguration e multiSelectModifierSettingKey = false ->
  useAltAsMultipleSelectionModifier new = useAltAsMultipleSelectionModifier old.
Proof.
  intros Hrep Hno. unfold useAltAsMultipleSelectionModifier.
  destruct (strict_eq_str (getValue new multiSelectModifierSettingKey) "alt") eqn:En,
    (strict_eq_str (getValue old multiSelectModifierSettingKey) "alt") eqn:Eo;
    try reflexivity; exfalso.
  all: assert (Hne : getValue old multiSelectModifierSettingKey
                     <> getValue new multiSelectModifierSettingKey)
         by (intros Heq; rewrite Heq in Eo; congruence).
  all: rewrite (Hrep multiSelectModifierSettingKey) in Hno;
         [discriminate | left | exact Hne].
Qed.

Lemma reports_useSingleClick (old new : IConfigurationService) (e : IConfigurationChangeEvent) :
  reports old new e ->
  affectsConfiguration e openModeSettingKey = false ->
  useSingleClickToOpen new = useSingleClickToOpen old.
Proof.
  intros Hrep Hno. unfold useSingleClickToOpen. f_equal.
  destruct (strict_eq_str (getValue new openModeSettingKey) "doubleClick") eqn:En,
    (strict_eq_str (getValue old openModeSettingKey) "doubleClick") eqn:Eo;
    try reflexivity; exfalso.
  all: assert (Hne : getValue old openModeSettingKey <> getValue new openModeSettingKey)
         by (intros Heq; rewrite Heq in Eo; congruence).
  all: rewrite (Hrep openModeSettingKey) in Hno;
         [discriminate | right; left | exact Hne].
Qed.

(** X6.  A tree whose notifications report every change of the two
    settings always holds the current policy: after any such history its
    cached open-on-single-click and alt-as-multi-select fields are what
    the two queries answer on the current configuration. *)
Theorem tree_policy_cache_current (cfg : IConfigurationService)
    (changes : list (IConfigurationService * IConfigurationChangeEvent)) :
  reported cfg changes ->
  let t := foldl (fun t c => WorkbenchTree_onDidChangeConfiguration c.1 c.2 t)
             (WorkbenchTree_new cfg) changes in
  openOnSingleClick t = useSingleClickToOpen (currentConfiguration cfg changes)
  /\ tree_useAltAsMultipleSelectionModifier t
     = useAltAsMultipleSelectionModifier (currentConfiguration cfg changes).
Proof.
  assert (Hgen : forall (t : WorkbenchTree) (cfg : IConfigurationService),
             openOnSingleClick t = useSingleClickToOpen cfg ->
             tree_useAltAsMultipleSelectionModifier t = useAltAsMultipleSelectionModifier cfg ->
             reported cfg changes ->
             let t' := foldl (fun t c => WorkbenchTree_onDidChangeConfiguration c.1 c.2 t)
                         t changes in
             openOnSingleClick t' = useSingleClickToOpen (currentConfiguration cfg changes)
             /\ tree_useAltAsMultipleSelectionModifier t'
                = useAltAsMultipleSelectionModifier (currentConfiguration cfg changes)).
  { clear cfg. induction changes as [| [cfg' e] changes IH]; intros t cfg Ho Ha Hrep; simpl.
    - split; assumption.
    - destruct Hrep as [Hrep Hrest]. simpl in Hrep, Hrest.
      apply IH; [| | exact Hrest].
      + unfold WorkbenchTree_onDidChangeConfiguration, openOnSingleClick in *.
        destruct (affectsConfiguration e openModeSettingKey) eqn:E1,
          (affectsConfiguration e multiSelectModifierSettingKey); simpl; try reflexivity.
        all: rewrite Ho; symmetry; apply (reports_useSingleClick cfg cfg' e Hrep E1).
      + unfold WorkbenchTree_onDidChangeConfiguration,
          tree_useAltAsMultipleSelectionModifier in *.
        destruct (affectsConfiguration e openModeSettingKey),
          (affectsConfiguration e multiSelectModifierSettingKey) eqn:E2; simpl;
          try reflexivity.
        all: rewrite Ha; symmetry; apply (reports_useAlt cfg cfg' e Hrep E2). }
  intros Hrep. apply Hgen; [reflexivity | reflexivity | exact Hrep].
Qed.

(** The user switches to "alt" and "doubleClick"; then back to the
    defaults, one setting at a time. *)
Lemma sample_changes_reported :
  reported defaultConfiguration
    [(altDoubleClickConfiguration,
      changeEventOf [multiSelectModifierSettingKey; openModeSettingKey]);
     (mkConfig {[ "workbench.list.openMode" := JStr "doubleClick" ]},
      changeEventOf [multiSelectModifierSettingKey])].
Proof.
  simpl. split; [| split; [| exact I]].
  - intros key Hkey _. unfold changeEventOf. simpl. apply bool_decide_eq_true_2, Hkey.
  - intros key [-> | [-> | Hin]%elem_of_cons]%elem_of_cons Hne.
    + reflexivity.
    + destruct Hne. reflexivity.
    + inversion Hin.
Qed.

Lemma tree_policy_cache_current_witness :
  let t := foldl (fun t c => WorkbenchTree_onDidChangeConfiguration c.1 c.2 t)
             (WorkbenchTree_new defaultConfiguration)
             [(altDoubleClickConfiguration,
               changeEventOf [multiSelectModifierSettingKey; openModeSettingKey]);
              (mkConfig {[ "workbench.list.openMode" := JStr "doubleClick" ]},
               changeEventOf [multiSelectModifierSettingKey])] in
  openOnSingleClick t = false /\ tree_useAltAsMultipleSelectionModifier t = false.
Proof.
  intros t.
  destruct (tree_policy_cache_current defaultConfiguration _ sample_changes_reported)
    as [Hopen Halt].
  fold t in Hopen, Halt. rewrite Hopen, Halt. split; reflexivity.
Defined.

(** X7.  The same for the list and the paged list, which cache the
    alt-as-multi-select answer only: after any history of reported
    changes the cached field is the answer on the current configuration. *)
Theorem list_policy_cache_current (cfg : IConfigurationService)
    (changes : list (IConfigurationService * IConfigurationChangeEvent)) :
  reported cfg changes ->
  list_useAltAsMultipleSelectionModifier
    (foldl (fun l c => WorkbenchList_onDidChangeConfiguration c.1 c.2 l)
       (WorkbenchList_new cfg) changes)
  = useAltAsMultipleSelectionModifier (currentConfiguration cfg changes)
  /\ paged_useAltAsMultipleSelectionModifier
       (foldl (fun p c => WorkbenchPagedList_onDidChangeConfiguration c.1 c.2 p)
          (WorkbenchPagedList_new cfg) changes)
     = useAltAsMultipleSelectionModifier (currentConfiguration cfg changes).
Proof.
  intros Hrep. split.
  - assert (Hl : list_useAltAsMultipleSelectionModifier (WorkbenchList_new cfg)
                 = useAltAsMultipleSelectionModifier cfg) by reflexivity.
    revert Hl Hrep. generalize (WorkbenchList_new cfg). revert cfg.
    induction changes as [| [cfg' e] changes IH]; intros cfg l Hl Hrep; simpl; [exact Hl |].
    destruct Hrep as [Hrep Hrest]. simpl in Hrep, Hrest.
    apply IH; [| exact Hrest].
    unfold WorkbenchList_onDidChangeConfiguration.
    destruct (affectsConfiguration e multiSelectModifierSettingKey) eqn:E; [reflexivity |].
    rewrite Hl. symmetry. apply (reports_useAlt cfg cfg' e Hrep E).
  - assert (Hp : paged_useAltAsMultipleSelectionModifier (WorkbenchPagedList_new cfg)
                 = useAltAsMultipleSelectionModifier cfg) by reflexivity.
    revert Hp Hrep. generalize (WorkbenchPagedList_new cfg). revert cfg.
    induction changes as [| [cfg' e] changes IH]; intros cfg p Hp Hrep; simpl; [exact Hp |].
    destruct Hrep as [Hrep Hrest]. simpl in Hrep, Hrest.
    apply IH; [| exact Hrest].
    unfold WorkbenchPagedList_onDidChangeConfiguration.
    destruct (affectsConfiguration e multiSelectModifierSettingKey) eqn:E; [reflexivity |].
    rewrite Hp. symmetry. apply (reports_useAlt cfg cfg' e Hrep E).
Qed.

Lemma list_policy_cache_current_witness :
  list_useAltAsMultipleSelectionModifier
    (foldl (fun l c => WorkbenchList_onDidChangeConfiguration c.1 c.2 l)
       (WorkbenchList_new defaultConfiguration)
       [(altDoubleClickConfiguration,
         changeEventOf [multiSelectModifierSettingKey; openModeSettingKey]);
        (mkConfig {[ "workbench.list.openMode" := JStr "doubleClick" ]},
         changeEventOf [multiSelectModifierSettingKey])])
  = false.
Proof.
  destruct (list_policy_cache_current defaultConfiguration _ sample_changes_reported)
    as [Hlist _].
  rewrite Hlist. reflexivity.
Defined.

(** ** Settings and the schema *)

(** X8.  The registered defaults are values of the registered
    enumerations.  On a value of the enumeration the single-click query
    answers true exactly for "singleClick"; on every other value of
    workbench.list.openMode, whatever it is, it answers true as well, and
    on every value of workbench.list.multiSelectModifier outside the
    enumeration the alt query answers false: settings that are not valid
    fall back to the default behaviour. *)
Theorem policy_on_schema_values (cfg : IConfigurationService) :
  (forall key values, registeredEnum !! key = Some values ->
     exists v, registeredDefaults !! key = Some v /\ v ∈ values)
  /\ (forall values, registeredEnum !! openModeSettingKey = Some values ->
        getValue cfg openModeSettingKey ∈ values ->
        (useSingleClickToOpen cfg = true
         <-> getValue cfg openModeSettingKey = JStr "singleClick"))
  /\ (forall values, registeredEnum !! openModeSettingKey = Some values ->
        getValue cfg openModeSettingKey ∉ values -> useSingleClickToOpen cfg = true)
  /\ (forall values, registeredEnum !! multiSelectModifierSettingKey = Some values ->
        getValue cfg multiSelectModifierSettingKey ∉ values ->
        useAltAsMultipleSelectionModifier cfg = false).
Proof.
  split; [| split; [| split]].
  - intros key values Hkey. unfold registeredEnum, registeredDefaults in *.
    destruct (decide (key = "workbench.list.multiSelectModifier")) as [-> | Hk1].
    { rewrite lookup_insert_eq in Hkey. injection Hkey as <-.
      rewrite lookup_insert_eq. eexists. split; [reflexivity | left]. }
    rewrite lookup_insert_ne in Hkey by congruence.
    rewrite lookup_insert_ne by congruence.
    destruct (decide (key = "workbench.list.openMode")) as [-> | Hk2].
    { rewrite lookup_insert_eq in Hkey. injection Hkey as <-.
      rewrite lookup_insert_eq. eexists. split; [reflexivity | left]. }
    rewrite lookup_insert_ne in Hkey by congruence. rewrite lookup_empty in Hkey.
    discriminate Hkey.
  - intros values [= <-] Hin. unfold useSingleClickToOpen.
    apply elem_of_cons in Hin as [-> | Hin]; [simpl; tauto |].
    apply list_elem_of_singleton in Hin as ->. simpl. split; discriminate.
  - intros values [= <-] Hnot.
    destruct (useSingleClickToOpen cfg) eqn:E; [reflexivity |].
    apply useSingleClickToOpen_false in E. destruct Hnot. rewrite E. right. left.
  - intros values [= <-] Hnot.
    destruct (useAltAsMultipleSelectionModifier cfg) eqn:E; [| reflexivity].
    apply strict_eq_str_true in E. destruct Hnot. rewrite E. right. left.
Qed.

(** A misspelt open mode. *)
Lemma policy_on_schema_values_witness :
  useSingleClickToOpen (mkConfig {[ "workbench.list.openMode" := JStr "doubleclick" ]}) = true.
Proof.
  destruct (policy_on_schema_values
              (mkConfig {[ "workbench.list.openMode" := JStr "doubleclick" ]}))
    as (_ & _ & Hoff & _).
  apply (Hoff [JStr "singleClick"; JStr "doubleClick"]); [reflexivity |].
  vm_compute. intros Hin. apply list_elem_of_In in Hin. simpl in Hin.
  repeat destruct Hin as [Hin | Hin]; try discriminate Hin; exact Hin.
Defined.

(** ** [MultipleSelectionController] *)

Section MultipleSelectionControllerProperties.

Context {IListMouseEvent : Type}.
Variable browserEvent : IListMouseEvent -> DomEvent.
Variable toolkitSingle toolkitRange : IListMouseEvent -> bool.

(** X9.  With "alt" as the multi-select modifier an event toggles a single
    item exactly when alt is held on its browser event, whatever the rule
    of the list widget says; with any other value of the setting the rule
    of the list widget decides.  Whether an event extends a range is the
    rule of the list widget under every configuration. *)
Theorem multiple_selection_modifier
    (cfg : IConfigurationService) (event : IListMouseEvent) :
  (getValue cfg multiSelectModifierSettingKey = JStr "alt" ->
   isSelectionSingleChangeEvent browserEvent toolkitSingle cfg event
   = altKey (browserEvent event))
  /\ (getValue cfg multiSelectModifierSettingKey <> JStr "alt" ->
      isSelectionSingleChangeEvent browserEvent toolkitSingle cfg event = toolkitSingle event)
  /\ isSelectionRangeChangeEvent toolkitRange cfg event = toolkitRange event.
Proof.
  unfold isSelectionSingleChangeEvent. split; [| split; [| reflexivity]].
  - intros H. apply strict_eq_str_true in H.
    unfold useAltAsMultipleSelectionModifier. rewrite H. reflexivity.
  - intros H. destruct (useAltAsMultipleSelectionModifier cfg) eqn:E; [| reflexivity].
    apply strict_eq_str_true in E. contradiction.
Qed.

End MultipleSelectionControllerProperties.

(** A ctrl-click: a single toggle by the rule of the list widget on Windows
    and Linux, not under "alt"; with the alt key as the range rule, no
    range extension under either configuration. *)
Lemma multiple_selection_modifier_witness :
  let click := mkDomEvent 0 MouseEventC 1 true false false in
  isSelectionSingleChangeEvent (fun e => e) ctrlKey altDoubleClickConfiguration click = false
  /\ isSelectionSingleChangeEvent (fun e => e) ctrlKey defaultConfiguration click = true
  /\ isSelectionRangeChangeEvent ctrlKey altDoubleClickConfiguration click = true
  /\ isSelectionRangeChangeEvent altKey altDoubleClickConfiguration click = false.
Proof.
  intros click.
  destruct (multiple_selection_modifier (fun e => e) ctrlKey ctrlKey
              altDoubleClickConfiguration click) as (Halt & _ & Hrange).
  destruct (multiple_selection_modifier (fun e => e) ctrlKey altKey
              altDoubleClickConfiguration click) as (_ & _ & Hrange').
  destruct (multiple_selection_modifier (fun e => e) ctrlKey ctrlKey
              defaultConfiguration click) as (_ & Hdefault & _).
  split; [rewrite Halt by reflexivity; reflexivity |].
  split; [rewrite Hdefault by (vm_compute; discriminate); reflexivity |].
  split; [rewrite Hrange; reflexivity | rewrite Hrange'; reflexivity].
Defined.

(** ** [WorkbenchTreeController] *)

Lemma controller_notify_fold (cfg : IConfigurationService) (e : IConfigurationChangeEvent)
    (ls : list nat) (c : WorkbenchTreeController) :
  foldl (fun c (_ : nat) =>
           if affectsConfiguration e openModeSettingKey
           then setOpenMode (getOpenModeSetting cfg) c else c) c ls
  = if affectsConfiguration e openModeSettingKey && negb (bool_decide (ls = []))
    then setOpenMode (getOpenModeSetting cfg) c else c.
Proof.
  destruct (affectsConfiguration e openModeSettingKey); simpl.
  - revert c. induction ls as [| l ls IH]; intros c; simpl; [reflexivity |].
    rewrite IH. destruct ls; reflexivity.
  - revert c. induction ls as [| l ls IH]; intros c; simpl; [reflexivity | apply IH].
Qed.

Lemma controller_notify (cfg : IConfigurationService) (e : IConfigurationChangeEvent)
    (c : WorkbenchTreeController) :
  WorkbenchTreeController_onDidChangeConfiguration cfg e c
  = if affectsConfiguration e openModeSettingKey && negb (bool_decide (controller_listeners c = []))
    then setOpenMode (getOpenModeSetting cfg) c else c.
Proof. apply controller_notify_fold. Qed.

Lemma controller_history_subscriptions (openMode : option OpenMode) (cfg : IConfigurationService)
    (changes : list (IConfigurationService * IConfigurationChangeEvent)) :
  let c := foldl (fun c ch => WorkbenchTreeController_onDidChangeConfiguration ch.1 ch.2 c)
             (WorkbenchTreeController_new openMode cfg) changes in
  controller_disposables c = controller_listeners c
  /\ controller_listeners c = match openMode with None => [0%nat] | Some _ => [] end.
Proof.
  assert (Hgen : forall c : WorkbenchTreeController,
             controller_disposables
               (foldl (fun c ch => WorkbenchTreeController_onDidChangeConfiguration ch.1 ch.2 c)
                  c changes) = controller_disposables c
             /\ controller_listeners
                  (foldl (fun c ch => WorkbenchTreeController_onDidChangeConfiguration ch.1 ch.2 c)
                     c changes) = controller_listeners c).
  { induction changes as [| ch changes IH]; intros c; simpl; [done |].
    destruct (IH (WorkbenchTreeController_onDidChangeConfiguration ch.1 ch.2 c)) as [-> ->].
    rewrite controller_notify. destruct (_ && _); done. }
  intros c. destruct (Hgen (WorkbenchTreeController_new openMode cfg)) as [Hd Hl].
  unfold c. rewrite Hd, Hl. destruct openMode; done.
Qed.

(** X10.  A controller that was given an open mode keeps it: it subscribes
    to no configuration change, and no history of notifications, reported
    or not, changes its open mode. *)
Theorem controller_explicit_open_mode (openMode : OpenMode) (cfg : IConfigurationService)
    (changes : list (IConfigurationService * IConfigurationChangeEvent)) :
  let c := foldl (fun c ch => WorkbenchTreeController_onDidChangeConfiguration ch.1 ch.2 c)
             (WorkbenchTreeController_new (Some openMode) cfg) changes in
  options_openMode c = Some openMode /\ controller_listeners c = [].
Proof.
  intros c.
  destruct (controller_history_subscriptions (Some openMode) cfg changes) as [_ Hl].
  fold c in Hl. split; [| exact Hl].
  unfold c. clear c Hl.
  assert (Hgen : forall c : WorkbenchTreeController,
             controller_listeners c = [] ->
             options_openMode
               (foldl (fun c ch => WorkbenchTreeController_onDidChangeConfiguration ch.1 ch.2 c)
                  c changes) = options_openMode c).
  { induction changes as [| ch changes IH]; intros c Hc; simpl; [reflexivity |].
    rewrite controller_notify, Hc, andb_false_r. apply IH, Hc. }
  apply (Hgen (WorkbenchTreeController_new (Some openMode) cfg)). reflexivity.
Qed.

(** X11.  A controller that was given no open mode takes it from the
    settings and follows them: after any history of reported changes its
    open mode is single click exactly when the single-click query answers
    true on the current configuration. *)
Theorem controller_follows_settings (cfg : IConfigurationService)
    (changes : list (IConfigurationService * IConfigurationChangeEvent)) :
  reported cfg changes ->
  options_openMode
    (foldl (fun c ch => WorkbenchTreeController_onDidChangeConfiguration ch.1 ch.2 c)
       (WorkbenchTreeController_new None cfg) changes)
  = Some (getOpenModeSetting (currentConfiguration cfg changes)).
Proof.
  assert (Hgen : forall (c : WorkbenchTreeController) (cfg : IConfigurationService),
             controller_listeners c <> [] ->
             options_openMode c = Some (getOpenModeSetting cfg) ->
             reported cfg changes ->
             options_openMode
               (foldl (fun c ch => WorkbenchTreeController_onDidChangeConfiguration ch.1 ch.2 c)
                  c changes)
             = Some (getOpenModeSetting (currentConfiguration cfg changes))).
  { clear cfg. induction changes as [| [cfg' e] changes IH]; intros c cfg Hc Hm Hrep; simpl;
      [exact Hm |].
    destruct Hrep as [Hrep Hrest]. simpl in Hrep, Hrest.
    rewrite controller_notify. rewrite (bool_decide_eq_false_2 _ Hc), andb_true_r.
    apply IH; [| | exact Hrest].
    - destruct (affectsConfiguration e openModeSettingKey); exact Hc.
    - destruct (affectsConfiguration e openModeSettingKey) eqn:E; [reflexivity |].
      rewrite Hm. unfold getOpenModeSetting.
      rewrite (reports_useSingleClick cfg cfg' e Hrep E). reflexivity. }
  intros Hrep. apply Hgen; [discriminate | reflexivity | exact Hrep].
Qed.

Lemma controller_follows_settings_witness :
  options_openMode
    (foldl (fun c ch => WorkbenchTreeController_onDidChangeConfiguration ch.1 ch.2 c)
       (WorkbenchTreeController_new None defaultConfiguration)
       [(altDoubleClickConfiguration,
         changeEventOf [multiSelectModifierSettingKey; openModeSettingKey]);
        (mkConfig {[ "workbench.list.openMode" := JStr "doubleClick" ]},
         changeEventOf [multiSelectModifierSettingKey])])
  = Some DOUBLE_CLICK.
Proof.
  rewrite (controller_follows_settings defaultConfiguration _ sample_changes_reported).
  reflexivity.
Defined.

(** X12.  Disposing a controller, whatever it was given and whatever
    notifications it has seen, leaves it without subscription; from then
    on no notification changes its open mode, and disposing it again
    changes nothing. *)
Theorem controller_dispose (openMode : option OpenMode) (cfg : IConfigurationService)
    (changes later : list (IConfigurationService * IConfigurationChangeEvent)) :
  let c := WorkbenchTreeController_dispose
             (foldl (fun c ch => WorkbenchTreeController_onDidChangeConfiguration ch.1 ch.2 c)
                (WorkbenchTreeController_new openMode cfg) changes) in
  controller_listeners c = []
  /\ controller_disposables c = []
  /\ WorkbenchTreeController_dispose c = c
  /\ foldl (fun c ch => WorkbenchTreeController_onDidChangeConfiguration ch.1 ch.2 c) c later = c.
Proof.
  intros c.
  destruct (controller_history_subscriptions openMode cfg changes) as [Hd Hl].
  assert (Hls : controller_listeners c = []).
  { unfold c, WorkbenchTreeController_dispose. simpl. rewrite Hd, Hl.
    destruct openMode; reflexivity. }
  assert (Hds : controller_disposables c = []) by reflexivity.
  clearbody c. clear Hd Hl.
  split; [exact Hls |]. split; [exact Hds |]. split.
  - unfold WorkbenchTreeController_dispose. rewrite Hds. simpl.
    destruct c; simpl in *. congruence.
  - induction later as [| ch later IH]; simpl; [reflexivity |].
    rewrite controller_notify, Hls, andb_false_r. exact IH.
Qed.

(** ** The navigation adapter, continued *)

Lemma openGate_doubleClick (singleClick : bool) (p : JsVal) :
  doubleClick p = true -> openGate singleClick p = true.
Proof. intros H. unfold openGate. rewrite H. apply orb_true_r. Qed.

(** [onSelection] up to the test of the gate. *)
Lemma onSelection_to_gate (p : JsVal) (n : Navigation) :
  carriesFromFocus p = false ->
  onSelection p n
  = (if openGate (openOnSingleClick (tree n)) p then
       (let* c := ret (isDoubleClickOf p) &&& ret (originalEventOf p) in
        if truthy c then preventDefault (originalEventOf p) else ret tt) ;;
       let* isFromKeyboard := ret p &&& get_is p "origin" "keyboard" in
       let* sideBySide :=
         ret (originalEventOf p)
           &&& (get (originalEventOf p) "ctrlKey" ||| get (originalEventOf p) "metaKey"
                  ||| get (originalEventOf p) "altKey") in
       let* blocked :=
         (ret isFromKeyboard
            &&& (ret (js_not p)
                   ||| (let* x := get p "preserveFocus" in ret (js_not x))))
           ||| ret (isDoubleClickOf p)
           ||| (ret p &&& get p "focusEditor") in
       let preserveFocus := js_not blocked in
       let* sel := gets (fun n => selection (tree n)) in
       fire (mkOpenResourceOptions
               (mkEditorOptions preserveFocus (isDoubleClickOf p) (JBool true))
               sideBySide
               (default JUndefined (head sel))
               p)
     else ret tt) n.
Proof.
  intros Hmark. unfold onSelection.
  erewrite bind_ok by apply eval_guard_get.
  rewrite guarded_truthy. fold (carriesFromFocus p). rewrite Hmark.
  erewrite bind_ok by apply eval_guard_get.
  erewrite bind_ok by apply eval_guard_get_is.
  erewrite bind_ok by apply eval_isDoubleClick.
  erewrite bind_ok by apply eval_gate.
  rewrite truthy_gateOf. reflexivity.
Qed.

(** [onSelection] at a closed gate. *)
Lemma onSelection_closed (n : Navigation) (p : JsVal) :
  openGate (openOnSingleClick (tree n)) p = false ->
  onSelection p n = Ok tt n.
Proof.
  intros Hgate. destruct (carriesFromFocus p) eqn:Hmark.
  - apply onSelection_fromFocus, Hmark.
  - rewrite (onSelection_to_gate p n Hmark), Hgate. reflexivity.
Qed.

(** X13.  A selection-change event that does not pass the open gate, a
    single mouse click while open-on-single-click is off, leaves the
    adapter as it is: [onSelection] completes, fires nothing and prevents
    nothing. *)
Theorem onSelection_gate_closed (n : Navigation) (p : JsVal) :
  mouseOrigin p = true ->
  openOnSingleClick (tree n) = false ->
  doubleClick p = false ->
  onSelection p n = Ok tt n.
Proof.
  intros Hmouse Hsingle Hdbl. apply onSelection_closed.
  unfold openGate. rewrite Hmouse, Hsingle, Hdbl. reflexivity.
Qed.

Lemma onSelection_gate_closed_witness :
  let click :=
    JObj (<[ "origin" := JStr "mouse" ]>
          {[ "originalEvent" := JEvent (mkDomEvent 8 MouseEventC 1 false false false) ]}) in
  onSelection click sampleNavigation = Ok tt sampleNavigation.
Proof.
  intros click. apply onSelection_gate_closed; vm_compute; reflexivity.
Defined.

(** [onSelection] past the gate when the event is no double-click. *)
Lemma onSelection_fires (p : JsVal) (n : Navigation) :
  carriesFromFocus p = false ->
  openGate (openOnSingleClick (tree n)) p = true ->
  doubleClick p = false ->
  onSelection p n
  = Ok tt (mkNavigation (tree n) (_openResource n ++ [selectionIntent p n])
             (selectionChanges n) (defaultPrevented n)).
Proof.
  intros Hmark Hgate Hdbl.
  rewrite (onSelection_to_gate p n Hmark), Hgate.
  assert (Hv : truthy (isDoubleClickOf p) = false)
    by (rewrite truthy_isDoubleClickOf; exact Hdbl).
  erewrite bind_ok.
  2: { unfold js_and, bind, ret. rewrite Hv. cbv beta iota. rewrite Hv. reflexivity. }
  erewrite bind_ok by apply eval_guard_get_is.
  erewrite bind_ok by apply eval_sideBySide.
  erewrite bind_ok by apply eval_blocked.
  erewrite bind_ok by reflexivity.
  reflexivity.
Qed.

(** X14.  A keyboard-origin selection change opens under every open mode:
    whatever open-on-single-click says, [onSelection] fires one intent,
    which is not pinned and preserves focus exactly when the payload asks
    for it and gives no focus-editor instruction; [preventDefault] is not
    called. *)
Theorem onSelection_keyboard (n : Navigation) (p : JsVal) :
  keyboardOrigin p = true ->
  carriesFromFocus p = false ->
  exists intent : IOpenResourceOptions,
    onSelection p n
    = Ok tt (mkNavigation (tree n) (_openResource n ++ [intent]) (selectionChanges n)
               (defaultPrevented n))
    /\ pinned (editorOptions intent) = JBool false
    /\ preserveFocus (editorOptions intent)
       = JBool (preserveFocusInstruction p && negb (focusEditorInstruction p))
    /\ element intent = default JUndefined (head (selection (tree n)))
    /\ payload intent = p.
Proof.
  intros Hkey Hmark.
  assert (Horigin : property p "origin" = JStr "keyboard")
    by (apply strict_eq_str_true, Hkey).
  assert (Hmouse : mouseOrigin p = false) by (unfold mouseOrigin; rewrite Horigin; reflexivity).
  assert (Hdbl : doubleClick p = false) by (unfold doubleClick; rewrite Hmouse; reflexivity).
  assert (Hgate : openGate (openOnSingleClick (tree n)) p = true)
    by (unfold openGate; rewrite Hmouse; reflexivity).
  exists (selectionIntent p n).
  split; [apply onSelection_fires; assumption |]. simpl.
  split; [| split; [| split; reflexivity]].
  - unfold isDoubleClickOf. rewrite truthy_isMouseEventOf, Hmouse.
    unfold isMouseEventOf, guarded. rewrite (keyboardOrigin_truthy p Hkey).
    fold (mouseOrigin p). rewrite Hmouse. reflexivity.
  - unfold js_not. rewrite truthy_blockedOf, Hkey, Hdbl. simpl.
    destruct (preserveFocusInstruction p), (focusEditorInstruction p); reflexivity.
Qed.

Lemma onSelection_keyboard_witness :
  exists intent : IOpenResourceOptions,
    onSelection (JObj {[ "origin" := JStr "keyboard" ]}) sampleNavigation
    = Ok tt (mkNavigation (tree sampleNavigation) [intent] [] [])
    /\ pinned (editorOptions intent) = JBool false
    /\ preserveFocus (editorOptions intent) = JBool false.
Proof.
  destruct (onSelection_keyboard sampleNavigation (JObj {[ "origin" := JStr "keyboard" ]}))
    as (intent & Hrun & Hpinned & Hpreserve & _).
  - vm_compute. reflexivity.
  - vm_compute. reflexivity.
  - exists intent. split; [exact Hrun |]. split; [exact Hpinned |].
    rewrite Hpreserve. reflexivity.
Defined.

(** X15.  A selection-change event whose payload is missing or falsy
    ([undefined] or [null], as for a selection set by a program) opens
    under every open mode and preserves focus: [onSelection] fires one
    intent with preserveFocus true, whose pinned and sideBySide are the
    falsy payload itself, for the first selected element; it prevents
    nothing. *)
Theorem onSelection_without_payload (n : Navigation) (p : JsVal) :
  truthy p = false ->
  onSelection p n
  = Ok tt (mkNavigation (tree n)
             (_openResource n
                ++ [mkOpenResourceOptions (mkEditorOptions (JBool true) p (JBool true)) p
                      (default JUndefined (head (selection (tree n)))) p])
             (selectionChanges n) (defaultPrevented n)).
Proof.
  intros Hp.
  assert (Hmark : carriesFromFocus p = false)
    by (unfold carriesFromFocus; rewrite (falsy_property p _ Hp); reflexivity).
  assert (Hmouse : mouseOrigin p = false)
    by (unfold mouseOrigin; rewrite (falsy_property p _ Hp); reflexivity).
  assert (Hdbl : doubleClick p = false) by (unfold doubleClick; rewrite Hmouse; reflexivity).
  rewrite onSelection_fires;
    [| exact Hmark | unfold openGate; rewrite Hmouse; reflexivity | exact Hdbl].
  assert (Hm : isMouseEventOf p = p) by (unfold isMouseEventOf, guarded; rewrite Hp; reflexivity).
  assert (Hk : isFromKeyboardOf p = p)
    by (unfold isFromKeyboardOf, guarded; rewrite Hp; reflexivity).
  assert (Ho : originalEventOf p = p)
    by (unfold originalEventOf, guarded; rewrite Hp; reflexivity).
  assert (Hd : isDoubleClickOf p = p)
    by (unfold isDoubleClickOf; rewrite Hm, Hp; reflexivity).
  assert (Hs : sideBySideOf p = p)
    by (unfold sideBySideOf; cbv zeta; rewrite Ho, Hp; reflexivity).
  assert (Hb : blockedOf p = p).
  { unfold blockedOf. cbv zeta. rewrite Hk, Hp, Hp, Hd, Hp.
    unfold guarded. rewrite Hp. reflexivity. }
  unfold selectionIntent, js_not. rewrite Hb, Hd, Hs, Hp. reflexivity.
Qed.

Lemma onSelection_without_payload_witness :
  onSelection JUndefined sampleNavigation
  = Ok tt (mkNavigation (tree sampleNavigation)
             [mkOpenResourceOptions (mkEditorOptions (JBool true) JUndefined (JBool true))
                JUndefined (JStr "a.ts") JUndefined]
             [] []).
Proof.
  apply (onSelection_without_payload sampleNavigation JUndefined). reflexivity.
Defined.

(** X16.  An originating event that is a plain object, not a DOM event,
    makes [onSelection] fail on a double-click: the call of
    [preventDefault] throws a [TypeError], and nothing has been fired
    or changed when it does. *)
Theorem onSelection_plain_object_event (n : Navigation) (p : JsVal) :
  carriesFromFocus p = false ->
  doubleClick p = true ->
  (forall e, originatingEvent p <> JEvent e) ->
  onSelection p n = Throw TypeError n.
Proof.
  intros Hmark Hdbl Hplain.
  rewrite (onSelection_to_gate p n Hmark), (openGate_doubleClick _ p Hdbl).
  destruct (isDoubleClickOf_cases p) as [[_ Hv] | [Habs _]]; [| congruence].
  unfold doubleClick in Hdbl. apply andb_true_iff in Hdbl as [Hmouse Hdetail].
  unfold bind at 1. unfold bind at 1. unfold js_and, bind, ret. rewrite Hv. simpl.
  rewrite (originalEventOf_mouse p Hmouse).
  destruct (originatingEvent p) as [| | | | | e | props] eqn:Eo; try discriminate Hdetail.
  - destruct (Hplain e eq_refl).
  - reflexivity.
Qed.

Lemma onSelection_plain_object_event_witness :
  onSelection
    (JObj (<[ "origin" := JStr "mouse" ]>
           {[ "originalEvent" := JObj (<[ "detail" := JNum 2 ]> {[ "ctrlKey" := JBool true ]}) ]}))
    sampleNavigation
  = Throw TypeError sampleNavigation.
Proof.
  apply onSelection_plain_object_event.
  - vm_compute. reflexivity.
  - vm_compute. reflexivity.
  - intros e. vm_compute. discriminate.
Defined.

Lemma navigation_grows_refl (n : Navigation) : navigation_grows n n.
Proof. repeat split; reflexivity. Qed.

Lemma navigation_grows_trans (a b c : Navigation) :
  navigation_grows a b -> navigation_grows b c -> navigation_grows a c.
Proof.
  intros (H1 & H2 & H3 & H4) (H5 & H6 & H7 & H8).
  split; [congruence |]. split; [congruence |]. split; etrans; eassumption.
Qed.

(** X17.  Whatever the payload, and whether it completes or throws,
    [onSelection] leaves the tree alone, selection, focus, context keys
    and subscriptions, and takes nothing back: the intents fired and the
    events prevented before the call are still there after it, in front
    of what the call has added. *)
Theorem onSelection_grows (p : JsVal) (n : Navigation) :
  navigation_grows n (final_state (onSelection p n)).
Proof.
  revert n. change (keeps navigation_grows (onSelection p)).
  pose proof navigation_grows_refl as Hr. pose proof navigation_grows_trans as Ht.
  unfold onSelection, get_is, fire.
  repeat keeps_step.
  all: try (apply keeps_modify; intros s; repeat split; simpl;
            try reflexivity; apply prefix_app_r; reflexivity).
  unfold preventDefault.
  match goal with |- context [match ?v with _ => _ end] => destruct v end;
    try (apply keeps_throw; assumption).
  apply keeps_modify; intros s; repeat split; simpl;
    try reflexivity; apply prefix_app_r; reflexivity.
Qed.

(** ** Focus changes, continued *)

(** X18.  Without the option [openOnFocus], left out or false, the adapter
    does not subscribe to focus changes: a focus-change event of the tree
    fires nothing and changes nothing.  The selection listener is
    subscribed either way. *)
Theorem focus_changes_need_option (t : WorkbenchTree) (options : option bool) (p : JsVal) :
  onDidChangeFocus t = [] ->
  options = None \/ options = Some false ->
  fireDidChangeFocus p (ResourceResultsNavigation_new t options)
  = Ok tt (ResourceResultsNavigation_new t options)
  /\ NavigationSelectionListener
     ∈ onDidChangeSelection (tree (ResourceResultsNavigation_new t options)).
Proof.
  intros Ht Hoptions.
  assert (Hoff : default false options = false) by (destruct Hoptions as [-> | ->]; reflexivity).
  unfold fireDidChangeFocus, ResourceResultsNavigation_new, bind, gets. rewrite Hoff. simpl.
  rewrite Ht. split; [reflexivity |].
  apply elem_of_app. right. apply list_elem_of_singleton. reflexivity.
Qed.

Lemma focus_changes_need_option_witness :
  fireDidChangeFocus (JObj {[ "origin" := JStr "keyboard" ]})
    (ResourceResultsNavigation_new (WorkbenchTree_new defaultConfiguration) None)
  = Ok tt (ResourceResultsNavigation_new (WorkbenchTree_new defaultConfiguration) None).
Proof.
  destruct (focus_changes_need_option (WorkbenchTree_new defaultConfiguration) None
              (JObj {[ "origin" := JStr "keyboard" ]})) as [Hrun _].
  - reflexivity.
  - left. reflexivity.
  - exact Hrun.
Defined.

(** [setSelection] with the from-focus payload, on a tree that has its own
    selection listener and the one of the adapter. *)
Lemma setSelection_fromFocus (elements : list JsVal) (n : Navigation) :
  onDidChangeSelection (tree n) = [DoubleSelectionListener; NavigationSelectionListener] ->
  setSelection elements fromFocusPayload n
  = Ok tt (mkNavigation
             (mkWorkbenchTree (focus (tree n)) elements
                (contextKey_set WorkbenchListDoubleSelection
                   (Z.of_nat (length elements) =? 2) (contextKeyService (tree n)))
                (_openOnSingleClick (tree n)) (_useAltAsMultipleSelectionModifier (tree n))
                (onDidChangeSelection (tree n)) (onDidChangeFocus (tree n)))
             (_openResource n) (selectionChanges n ++ [fromFocusPayload])
             (defaultPrevented n)).
Proof.
  intros Hls. rewrite setSelection_unfold, Hls. simpl.
  rewrite onSelection_fromFocus by reflexivity. reflexivity.
Qed.

(** X19.  With the option [openOnFocus], on a tree that has a focused
    element and its own selection listener, a focus-change event of the
    tree does it all in one go: the focused element becomes the
    selection, the listDoubleSelection key becomes false, one
    selection-change event is recorded, and one intent for the focused
    element is fired when the gate passes, none otherwise. *)
Theorem focus_change_with_option (t : WorkbenchTree) (p : JsVal) :
  focus t <> JNull ->
  focus t <> JUndefined ->
  onDidChangeFocus t = [] ->
  onDidChangeSelection t = [DoubleSelectionListener] ->
  let n := ResourceResultsNavigation_new t (Some true) in
  exists n',
    fireDidChangeFocus p n = Ok tt n'
    /\ selection (tree n') = [focus t]
    /\ focus (tree n') = focus t
    /\ contextKeyService (tree n') !! "listDoubleSelection" = Some false
    /\ selectionChanges n' = [fromFocusPayload]
    /\ defaultPrevented n' = []
    /\ _openResource n' =
       if openGate (openOnSingleClick t) p
       then [mkOpenResourceOptions (mkEditorOptions (JBool true) (JBool false) (JBool true))
               (JBool false) (focus t) p]
       else [].
Proof.
  intros _ _ Hf Hs n.
  assert (Hls : onDidChangeSelection (tree n)
                = [DoubleSelectionListener; NavigationSelectionListener])
    by (unfold n, ResourceResultsNavigation_new; simpl; rewrite Hs; reflexivity).
  assert (Hrun : exists n',
             onFocus p n = Ok tt n'
             /\ selection (tree n') = [focus t]
             /\ focus (tree n') = focus t
             /\ contextKeyService (tree n') !! "listDoubleSelection" = Some false
             /\ selectionChanges n' = [fromFocusPayload]
             /\ defaultPrevented n' = []
             /\ _openResource n' =
                if openGate (openOnSingleClick t) p
                then [mkOpenResourceOptions
                        (mkEditorOptions (JBool true) (JBool false) (JBool true))
                        (JBool false) (focus t) p]
                else []).
  { unfold onFocus.
    erewrite bind_ok by reflexivity.
    erewrite bind_ok by (apply setSelection_fromFocus; exact Hls).
    erewrite bind_ok by apply eval_guard_get.
    erewrite bind_ok by apply eval_guard_get_is.
    erewrite bind_ok by apply eval_isDoubleClick.
    erewrite bind_ok by apply eval_gate.
    rewrite truthy_gateOf. simpl.
    change (_openOnSingleClick t) with (openOnSingleClick t).
    destruct (openGate (openOnSingleClick t) p); eexists; (split; [reflexivity |]); simpl;
      repeat split; apply lookup_insert_eq. }
  destruct Hrun as (n' & Hrun & Hrest).
  exists n'. split; [| exact Hrest].
  unfold fireDidChangeFocus, bind, gets.
  replace (onDidChangeFocus (tree n)) with [NavigationFocusListener]
    by (unfold n, ResourceResultsNavigation_new; simpl; rewrite Hf; reflexivity).
  simpl. rewrite Hrun. reflexivity.
Qed.

(** The element b.ts gets the focus by the keyboard while two other
    elements are selected. *)
Lemma focus_change_with_option_witness :
  contextKeyService focusedTree !! "listDoubleSelection" = Some true
  /\ exists n',
       fireDidChangeFocus (JObj {[ "origin" := JStr "keyboard" ]})
         (ResourceResultsNavigation_new focusedTree (Some true))
       = Ok tt n'
       /\ selection (tree n') = [JStr "b.ts"]
       /\ contextKeyService (tree n') !! "listDoubleSelection" = Some false
       /\ _openResource n'
          = [mkOpenResourceOptions (mkEditorOptions (JBool true) (JBool false) (JBool true))
               (JBool false) (JStr "b.ts") (JObj {[ "origin" := JStr "keyboard" ]})].
Proof.
  split; [reflexivity |].
  destruct (focus_change_with_option focusedTree (JObj {[ "origin" := JStr "keyboard" ]}))
    as (n' & Hrun & Hsel & _ & Hkey & _ & _ & Hopen).
  - simpl. discriminate.
  - simpl. discriminate.
  - reflexivity.
  - reflexivity.
  - exists n'. split; [exact Hrun |]. split; [exact Hsel |]. split; [exact Hkey |].
    rewrite Hopen. reflexivity.
Defined.

(** ** Context keys *)

Lemma WorkbenchList_runListeners_keys (ls : list SelectionListener) (l : WorkbenchList)
    (key : string) :
  key <> "listDoubleSelection" ->
  list_contextKeyService (foldl WorkbenchList_runListener l ls) !! key
  = list_contextKeyService l !! key.
Proof.
  intros Hkey. revert l. induction ls as [| x ls IH]; intros l; simpl; [reflexivity |].
  rewrite IH. destruct x; simpl; [| reflexivity].
  unfold contextKey_set. simpl. apply lookup_insert_ne. congruence.
Qed.

Lemma WorkbenchList_sequence_keys (changes : list (list Z)) (l : WorkbenchList) (key : string) :
  key <> "listDoubleSelection" ->
  list_contextKeyService (foldl (fun l c => WorkbenchList_selectionChange c l) l changes) !! key
  = list_contextKeyService l !! key.
Proof.
  intros Hkey. revert l. induction changes as [| c changes IH]; intros l; simpl; [reflexivity |].
  rewrite IH. unfold WorkbenchList_selectionChange.
  rewrite WorkbenchList_runListeners_keys by exact Hkey. reflexivity.
Qed.

Lemma same_keys_refl (n : Navigation) : same_keys_but_double_selection n n.
Proof. intros key _. reflexivity. Qed.

Lemma same_keys_trans (a b c : Navigation) :
  same_keys_but_double_selection a b -> same_keys_but_double_selection b c ->
  same_keys_but_double_selection a c.
Proof. intros H1 H2 key Hkey. rewrite (H2 key Hkey). apply H1, Hkey. Qed.

Lemma runSelectionListener_keys (payload : JsVal) (l : SelectionListener) :
  keeps same_keys_but_double_selection (runSelectionListener payload l).
Proof.
  destruct l; simpl.
  - apply keeps_modify. intros n key Hkey. simpl. unfold contextKey_set. simpl.
    apply lookup_insert_ne. congruence.
  - intros n key _. destruct (onSelection_same_tree payload n) as [-> _]. reflexivity.
Qed.

Lemma setSelection_keys (elements : list JsVal) (payload : JsVal) (n : Navigation) :
  same_keys_but_double_selection n (final_state (setSelection elements payload n)).
Proof.
  rewrite setSelection_unfold.
  set (n1 := mkNavigation _ _ _ _).
  intros key Hkey.
  rewrite (fireEach_keeps same_keys_but_double_selection (runSelectionListener payload)
             (onDidChangeSelection (tree n)) same_keys_refl same_keys_trans
             (runSelectionListener_keys payload) n1 key Hkey).
  reflexivity.
Qed.

(** X20.  The context keys a wrapper declares when it is built stay as
    they are through every selection change: listFocus is true for the
    list, the paged list and the tree; listSupportsMultiselect is true for
    the list and the paged list, and a tree never declares it. *)
Theorem context_keys_declared (cfg : IConfigurationService) :
  (forall changes : list (list Z),
     let l := foldl (fun l c => WorkbenchList_selectionChange c l)
                (WorkbenchList_new cfg) changes in
     list_contextKeyService l !! "listFocus" = Some true
     /\ list_contextKeyService l !! "listSupportsMultiselect" = Some true)
  /\ (forall changes : list (list Z),
     let p := foldl (fun p c => WorkbenchPagedList_selectionChange c p)
                (WorkbenchPagedList_new cfg) changes in
     paged_contextKeyService p !! "listFocus" = Some true
     /\ paged_contextKeyService p !! "listSupportsMultiselect" = Some true)
  /\ (forall (options : option bool) (changes : list (list JsVal * JsVal)),
     let n := foldl (fun n c => final_state (setSelection c.1 c.2 n))
                (ResourceResultsNavigation_new (WorkbenchTree_new cfg) options) changes in
     contextKeyService (tree n) !! "listFocus" = Some true
     /\ contextKeyService (tree n) !! "listSupportsMultiselect" = None).
Proof.
  split; [| split].
  - intros changes l. unfold l.
    rewrite !WorkbenchList_sequence_keys by discriminate. split; reflexivity.
  - intros changes p.
    destruct (WorkbenchPagedList_sequence changes (WorkbenchPagedList_new cfg)) as [_ Hctx].
    fold p in Hctx. rewrite Hctx. split; reflexivity.
  - intros options changes n.
    assert (Hgen : forall (m : Navigation) (key : string),
               key <> "listDoubleSelection" ->
               contextKeyService
                 (tree (foldl (fun n c => final_state (setSelection c.1 c.2 n)) m changes)) !! key
               = contextKeyService (tree m) !! key).
    { induction changes as [| c changes IH]; intros m key Hkey; simpl; [reflexivity |].
      rewrite IH by exact Hkey. apply setSelection_keys, Hkey. }
    unfold n. rewrite !Hgen by discriminate.
    unfold ResourceResultsNavigation_new. destruct (default false options); split; reflexivity.
Qed.

(** ** Options passed twice *)

(** X21.  Options that have been through [handleListControllers] keep
    their multiple selection controller on a second pass, also with
    another configuration service: the second pass installs none, and
    changes the open controller only, which it replaces by a new one. *)
Theorem handleListControllers_twice (options : IListOptions)
    (cfg cfg' : IConfigurationService) (next : nat) :
  exists (o1 : IListOptions) (n1 : nat) (o2 : IListOptions) (n2 : nat),
    handleListControllers options cfg next = Ok o1 n1
    /\ handleListControllers o1 cfg' n1 = Ok o2 n2
    /\ o2 = <[ "openController" := Object (OpenController n1 cfg') ]> o1
    /\ o2 !! "multipleSelectionController" = o1 !! "multipleSelectionController"
    /\ (next < n1)%nat.
Proof.
  assert (Hsecond : forall (o1 : IListOptions) (n1 : nat),
             option_is_true (o1 !! "multipleSelectionSupport")
             && negb (option_truthy (o1 !! "multipleSelectionController")) = false ->
             handleListControllers o1 cfg' n1
             = Ok (<[ "openController" := Object (OpenController n1 cfg') ]> o1) (S n1)).
  { intros o1 n1 H. unfold handleListControllers, bind, newObject, ret. rewrite H. reflexivity. }
  unfold handleListControllers at 1. unfold bind, newObject, ret.
  destruct (option_is_true (options !! "multipleSelectionSupport")
            && negb (option_truthy (options !! "multipleSelectionController"))) eqn:E.
  - eexists _, _, _, _. split; [reflexivity |]. split.
    + apply Hsecond.
      match goal with |- _ && negb (option_truthy ?x) = false =>
        replace x with (Some (Object (MultipleSelectionController next cfg)))
      end.
      * apply andb_false_r.
      * rewrite lookup_insert_ne by discriminate. rewrite lookup_insert_eq. reflexivity.
    + split; [reflexivity |]. split; [| lia].
      rewrite lookup_insert_ne by discriminate. reflexivity.
  - eexists _, _, _, _. split; [reflexivity |]. split.
    + apply Hsecond. rewrite !lookup_insert_ne by discriminate. exact E.
    + split; [reflexivity |]. split; [| lia].
      rewrite lookup_insert_ne by discriminate. reflexivity.
Qed.

(** ** Selection changes, from the tree to the intent *)

(** [onSelection] past the gate, for an originating event of its type. *)
Lemma onSelection_fires_typed (p : JsVal) (n : Navigation) :
  originatingEventTyped p = true ->
  carriesFromFocus p = false ->
  openGate (openOnSingleClick (tree n)) p = true ->
  onSelection p n
  = Ok tt (mkNavigation (tree n) (_openResource n ++ [selectionIntent p n])
             (selectionChanges n)
             (defaultPrevented n ++
                (if doubleClick p
                 then match originatingEvent p with JEvent e => [e] | _ => [] end
                 else []))).
Proof.
  intros Htyped Hmark Hgate.
  rewrite (onSelection_to_gate p n Hmark), Hgate.
  erewrite bind_ok by (apply eval_preventDefault; exact Htyped).
  erewrite bind_ok by apply eval_guard_get_is.
  erewrite bind_ok by apply eval_sideBySide.
  erewrite bind_ok by apply eval_blocked.
  erewrite bind_ok by reflexivity.
  reflexivity.
Qed.

(** X22.  When the selection of a tree with its own selection listener
    changes, with a payload whose originating event is of its type, both
    listeners have run by the time [setSelection] returns: the
    listDoubleSelection key is true exactly when two elements are
    selected, and the adapter has fired one intent when the payload
    carries no from-focus marker and passes the gate, none otherwise.
    The element of the intent is the first element of the new
    selection. *)
Theorem selection_change_end_to_end (t : WorkbenchTree) (options : option bool)
    (elements : list JsVal) (p : JsVal) :
  onDidChangeSelection t = [DoubleSelectionListener] ->
  originatingEventTyped p = true ->
  let n := ResourceResultsNavigation_new t options in
  exists n',
    setSelection elements p n = Ok tt n'
    /\ selection (tree n') = elements
    /\ contextKeyService (tree n') !! "listDoubleSelection"
       = Some (bool_decide (length elements = 2%nat))
    /\ selectionChanges n' = [p]
    /\ ((carriesFromFocus p = true \/ openGate (openOnSingleClick t) p = false) ->
        _openResource n' = [])
    /\ (carriesFromFocus p = false -> openGate (openOnSingleClick t) p = true ->
        exists intent, _openResource n' = [intent]
                       /\ element intent = default JUndefined (head elements)
                       /\ payload intent = p).
Proof.
  intros Hs Htyped n.
  assert (Hflag : (Z.of_nat (length elements) =? 2) = bool_decide (length elements = 2%nat)).
  { destruct (Z.eqb_spec (Z.of_nat (length elements)) 2) as [H | H].
    - symmetry. apply bool_decide_eq_true_2. lia.
    - symmetry. apply bool_decide_eq_false_2. lia. }
  rewrite setSelection_unfold.
  assert (Hls : onDidChangeSelection (tree n)
                = [DoubleSelectionListener; NavigationSelectionListener]).
  { unfold n, ResourceResultsNavigation_new. destruct (default false options); simpl;
      rewrite Hs; reflexivity. }
  assert (Hsingle : openOnSingleClick (tree n) = openOnSingleClick t).
  { unfold n, ResourceResultsNavigation_new. destruct (default false options); reflexivity. }
  assert (Hctx : contextKeyService (tree n) = contextKeyService t).
  { unfold n, ResourceResultsNavigation_new. destruct (default false options); reflexivity. }
  rewrite Hls.
  match goal with |- context [fireEach _ _ ?m] =>
    change (fireEach (runSelectionListener p)
              [DoubleSelectionListener; NavigationSelectionListener] m)
      with (Ok (S := Navigation) tt
              (final_state (onSelection p (set_tree WorkbenchTree_doubleSelection m))));
    set (n1 := set_tree WorkbenchTree_doubleSelection m)
  end.
  assert (Hn1 : openOnSingleClick (tree n1) = openOnSingleClick t) by exact Hsingle.
  destruct (carriesFromFocus p) eqn:Hmark.
  { rewrite (onSelection_fromFocus p n1 Hmark).
    eexists. split; [reflexivity |]. simpl.
    split; [reflexivity |]. split; [rewrite <- Hflag; apply lookup_insert_eq |].
    split; [reflexivity |]. split; [reflexivity |]. discriminate. }
  destruct (openGate (openOnSingleClick t) p) eqn:Hgate.
  - rewrite (onSelection_fires_typed p n1 Htyped Hmark)
      by (rewrite Hn1; exact Hgate).
    eexists. split; [reflexivity |]. simpl.
    split; [reflexivity |]. split; [rewrite <- Hflag; apply lookup_insert_eq |].
    split; [reflexivity |]. split; [intros [H | H]; discriminate H |].
    intros _ _. eexists. split; [reflexivity |]. split; reflexivity.
  - rewrite (onSelection_closed n1 p) by (rewrite Hn1; exact Hgate).
    eexists. split; [reflexivity |]. simpl.
    split; [reflexivity |]. split; [rewrite <- Hflag; apply lookup_insert_eq |].
    split; [reflexivity |]. split; [reflexivity |]. discriminate.
Qed.

(** Two files are selected with a ctrl-click while items open on a single
    click. *)
Lemma selection_change_end_to_end_witness :
  let p := JObj (<[ "origin" := JStr "mouse" ]>
                 {[ "originalEvent" := JEvent (mkDomEvent 9 MouseEventC 1 true false false) ]}) in
  exists n',
    setSelection [JStr "a.ts"; JStr "b.ts"] p
      (ResourceResultsNavigation_new (WorkbenchTree_new defaultConfiguration) None)
    = Ok tt n'
    /\ contextKeyService (tree n') !! "listDoubleSelection" = Some true
    /\ exists intent, _openResource n' = [intent] /\ element intent = JStr "a.ts".
Proof.
  intros p.
  destruct (selection_change_end_to_end (WorkbenchTree_new defaultConfiguration) None
              [JStr "a.ts"; JStr "b.ts"] p eq_refl)
    as (n' & Hrun & _ & Hkey & _ & _ & Hintent).
  - vm_compute. reflexivity.
  - exists n'. split; [exact Hrun |]. split; [exact Hkey |].
    destruct Hintent as (intent & Hopen & Helement & _).
    + vm_compute. reflexivity.
    + vm_compute. reflexivity.
    + exists intent. split; [exact Hopen | exact Helement].
Defined.
